(** * AgentGateway: token verification, RBAC, forwarding and audit trail

    A shallow embedding of the gateway core of the repository
    (src/agentgateway/src): [config.py], [models.py], [rbac/engine.py],
    [auth/jwt_validator.py], [mcp_gateway.py] and [api_gateway.py].

    Python strings are sequences of 8-bit characters read as Latin-1 code
    points (the decoding Starlette applies to header values); dictionaries
    are [gmap]s; the process state that the handlers mutate (log stream,
    key-set cache, circuit breakers, clock, outbound calls) is one record
    threaded through a state-and-exception monad. *)

From Stdlib Require Import ZArith NArith Ascii String List Bool Lia.
From stdpp Require Import base option list gmap strings.

Import ListNotations.
Local Open Scope string_scope.

(** ** Python string primitives *)

Module Py.

(** [str.isspace] on one character, for code points below 256. *)
Definition isspace (c : ascii) : bool :=
  let n := N_of_ascii c in
  ((9 <=? n) && (n <=? 13) || (28 <=? n) && (n <=? 32)
   || (n =? 133) || (n =? 160))%N.

(** [str.lower] on one character, for code points below 256. *)
Definition lower_char (c : ascii) : ascii :=
  let n := N_of_ascii c in
  if ((65 <=? n) && (n <=? 90)
      || (192 <=? n) && (n <=? 222) && negb (n =? 215))%N
  then ascii_of_N (n + 32) else c.

Fixpoint lower (s : string) : string :=
  match s with
  | EmptyString => EmptyString
  | String c s' => String (lower_char c) (lower s')
  end.

Fixpoint lstrip (s : string) : string :=
  match s with
  | EmptyString => EmptyString
  | String c s' => if isspace c then lstrip s' else s
  end.

Definition reverse (s : string) : string :=
  string_of_list_ascii (rev (list_ascii_of_string s)).

Definition rstrip (s : string) : string := reverse (lstrip (reverse s)).

(** [s.strip()] *)
Definition strip (s : string) : string := rstrip (lstrip s).

(** [s.split(sep)] for a one-character separator: empty fields are kept and
    the empty string gives one empty field. *)
Fixpoint split_on (sep : ascii) (s : string) : list string :=
  match s with
  | EmptyString => [EmptyString]
  | String c s' =>
      if Ascii.eqb c sep then EmptyString :: split_on sep s'
      else match split_on sep s' with
           | w :: ws => String c w :: ws
           | [] => [String c EmptyString]
           end
  end.

(** [s.split()]: fields are the maximal runs of non-space characters. *)
Fixpoint split (s : string) : list string :=
  match s with
  | EmptyString => []
  | String c s' =>
      if isspace c then split s'
      else match s' with
           | EmptyString => [String c EmptyString]
           | String c' _ =>
               if isspace c' then String c EmptyString :: split s'
               else match split s' with
                    | w :: ws => String c w :: ws
                    | [] => [String c EmptyString]
                    end
           end
  end.

(** Truth value of an [Optional[str]]: [None] and [""] are false. *)
Definition truthy (o : option string) : bool :=
  match o with
  | Some s => negb (String.eqb s "")
  | None => false
  end.

(** An [Optional[str]] that passed an [if value:] test. *)
Definition if_truthy (o : option string) : option string :=
  match o with
  | Some s => if String.eqb s "" then None else Some s
  | None => None
  end.

(** [x in xs] for a list of strings. *)
Fixpoint str_in (x : string) (xs : list string) : bool :=
  match xs with
  | [] => false
  | y :: ys => if String.eqb x y then true else str_in x ys
  end.

End Py.

(** ** config.py *)

Module Config.

Record Settings := {
  service_name : string;
  api_port : Z;
  mcp_port : Z;
  aws_region : string;
  cognito_user_pool_id : string;
  cognito_region : string;
  rbac_enabled : bool;
  department_isolation : bool;
  application_service_url : string;
  mcp_finance_url : string;
  mcp_hr_url : string;
  mcp_legal_url : string;
  service_token : option string;
  log_level : string
}.

(** The field defaults of [Settings]; the pool id has none and is given. *)
Definition defaults (pool_id : string) : Settings := {|
  service_name := "agentgateway";
  api_port := 8080;
  mcp_port := 8081;
  aws_region := "ap-southeast-1";
  cognito_user_pool_id := pool_id;
  cognito_region := "ap-southeast-1";
  rbac_enabled := true;
  department_isolation := true;
  application_service_url := "http://application-service.local:8000";
  mcp_finance_url := "http://mcp-finance-service.local:8080";
  mcp_hr_url := "http://mcp-hr-service.local:8080";
  mcp_legal_url := "http://mcp-legal-service.local:8080";
  service_token := None;
  log_level := "INFO"
|}.

End Config.

(** ** models.py *)

Module Models.

Record AuditLog := {
  timestamp : Z;
  user_id : option string;
  username : option string;
  department : option string;
  method : string;
  path : string;
  status_code : Z;
  error : option string;
  client_ip : option string
}.

(** [params] values are strings, as the gateway's annotations take them. *)
Record MCPRequest := {
  jsonrpc : string;
  id : string;
  mcp_method : string;
  params : option (gmap string string)
}.

End Models.

(** ** rbac/engine.py *)

Module Rbac.

Record Permission := {
  resource : string;
  actions : list string
}.

Record Role := {
  name : string;
  description : string;
  permissions : list Permission
}.

Record RBACPolicy := {
  roles : list Role
}.

Record RBACEngine := {
  policy : RBACPolicy;
  _role_map : gmap string Role
}.

(** What reading the policy file involves: opening the file, parsing YAML
    and validating the parsed data against [RBACPolicy]. Each stage either
    raises or yields its value; [Y] is the type of parsed YAML data. *)
Record PolicySource (Y : Type) := {
  open_read : string -> option string;
  yaml_safe_load : string -> option Y;
  validate : Y -> option RBACPolicy
}.
Arguments open_read {Y}.
Arguments yaml_safe_load {Y}.
Arguments validate {Y}.

(** [_load_policy]: any exception on the way gives the empty policy. *)
Definition _load_policy {Y} (src : PolicySource Y) (policy_file : string)
  : RBACPolicy :=
  match open_read src policy_file with
  | None => {| roles := [] |}
  | Some text =>
      match yaml_safe_load src text with
      | None => {| roles := [] |}
      | Some policy_data =>
          match validate src policy_data with
          | None => {| roles := [] |}
          | Some p => p
          end
      end
  end.

(** The definition in [policy_file] cannot be read, parsed or validated. *)
Definition malformed_or_unreadable {Y} (src : PolicySource Y)
    (policy_file : string) : Prop :=
  match open_read src policy_file with
  | None => True
  | Some text =>
      match yaml_safe_load src text with
      | None => True
      | Some policy_data => validate src policy_data = None
      end
  end.

(** [{role.name: role for role in roles}]: a later role of the same name
    replaces an earlier one. *)
Definition role_map_of (rs : list Role) : gmap string Role :=
  fold_left (fun m r => <[name r := r]> m) rs ∅.

(** [RBACEngine.__init__] *)
Definition init {Y} (src : PolicySource Y) (policy_file : string)
  : RBACEngine :=
  let p := _load_policy src policy_file in
  {| policy := p; _role_map := role_map_of (roles p) |}.

(** The inner loop of [check_permission] over one role's permissions. *)
Fixpoint permissions_grant (ps : list Permission) (res action : string)
  : bool :=
  match ps with
  | [] => false
  | p :: ps' =>
      if String.eqb (resource p) res && Py.str_in action (actions p)
      then true
      else permissions_grant ps' res action
  end.

Fixpoint check_permission (e : RBACEngine) (role_names : list string)
    (res action : string) : bool :=
  match role_names with
  | [] => false
  | role_name :: rest =>
      match _role_map e !! role_name with
      | None => check_permission e rest res action
      | Some role =>
          if permissions_grant (permissions role) res action then true
          else check_permission e rest res action
      end
  end.

(** A role name grants when the role map knows it and one of the role's
    permissions matches. *)
Definition role_grants (e : RBACEngine) (role_name res action : string)
  : Prop :=
  exists role,
    _role_map e !! role_name = Some role
    /\ permissions_grant (permissions role) res action = true.

(** [get_accessible_resources]: the resources are collected in a set; the
    order of the returned list is the set's. *)
Fixpoint accessible_set (e : RBACEngine) (role_names : list string)
  : gset string :=
  match role_names with
  | [] => ∅
  | role_name :: rest =>
      match _role_map e !! role_name with
      | None => accessible_set e rest
      | Some role =>
          list_to_set (map resource (permissions role))
            ∪ accessible_set e rest
      end
  end.

Definition get_accessible_resources (e : RBACEngine)
    (role_names : list string) : list string :=
  elements (accessible_set e role_names).

Definition map_department_to_server (department : string) : option string :=
  let mapping : gmap string string :=
    <["legal" := "mcp-legal-server"]>
      (<["hr" := "mcp-hr-server"]>
         (<["finance" := "mcp-finance-server"]> ∅)) in
  mapping !! Py.lower department.

End Rbac.

(** ** Data the token library exchanges with the validator (python-jose) *)

Module Jose.

(** A JSON web key; the validator only reads its ["kid"]. *)
Record JWK := {
  jwk_kid : option string;
  jwk_material : string
}.

(** The key-set document; [keys] is its ["keys"] entry when present. *)
Record JWKS := {
  keys : option (list JWK)
}.

(** The unverified token header; the validator only reads its ["kid"]. *)
Record Header := {
  kid : option string
}.

(** The verified claims, restricted to the entries the gateway reads. *)
Record Claims := {
  sub : option string;
  claim_username : option string;
  email : option string;
  token_use : option string;
  cognito_groups : option (list string)
}.

End Jose.

(** ** Process state, exceptions and the handler monad *)

Module Runtime.

(** The exception classes the gateway raises or catches. [HTTPError] stands
    for [httpx.HTTPError] and all its subclasses (connection errors,
    timeouts, [HTTPStatusError]). *)
Inductive exn :=
| HTTPException (status_code : Z) (detail : string)
| HTTPError (msg : string)
| RetryError (last : exn)
| CircuitBreakerError
| JWTError (msg : string)
| JSONDecodeError (msg : string)
| OtherException (msg : string).

(** [str(e)], as the audit entries record it. The texts of the two wrapper
    exceptions are shortened. *)
Fixpoint exn_str (e : exn) : string :=
  match e with
  | HTTPException _ d => d
  | HTTPError m => m
  | RetryError last => "RetryError[" ++ exn_str last ++ "]"
  | CircuitBreakerError => "Circuit OPEN"
  | JWTError m => m
  | JSONDecodeError m => m
  | OtherException m => m
  end.

(** [isinstance(e, httpx.HTTPError)] *)
Definition is_httpx_HTTPError (e : exn) : bool :=
  match e with
  | HTTPError _ => true
  | _ => false
  end.

(** [isinstance(e, jose.JWTError)] *)
Definition is_JWTError (e : exn) : bool :=
  match e with
  | JWTError _ => true
  | _ => false
  end.

Inductive Result (A : Type) :=
| Ok (a : A)
| Raised (e : exn).
Arguments Ok {A}.
Arguments Raised {A}.

Inductive Level := INFO | WARNING | ERROR.

(** One call on a logger. An audit entry is a record whose text carries
    [audit_log.model_dump_json()]. *)
Inductive LogRecord :=
| Message (lvl : Level) (text : string)
| Audit (lvl : Level) (prefix : string) (entry : Models.AuditLog).

Definition is_audit (r : LogRecord) : bool :=
  match r with
  | Audit _ _ _ => true
  | Message _ _ => false
  end.

(** An outbound network call. *)
Inductive Outbound :=
| PostMcp (url : string) (req : Models.MCPRequest)
| AppRequest (method url : string) (headers : list (string * string))
    (body : option string)
| GetJwks (url : string).

(** A JSON document as [response.json()] returns it, told apart by what
    serialising it again gives: the text ([JSONResponse] renders the parsed
    value, so the text need not be the upstream's), or a refusal, for
    Python parses [1e400] and [NaN] into floats that JSON cannot carry. *)
Inductive Json :=
| Renders (text : string)
| Unrenderable (reason : string).

(** What the peer does with an outbound call: it answers after [elapsed]
    seconds with a status and a body ([None] when the body is not JSON), or
    the client raises after [elapsed] seconds. *)
Inductive NetOutcome :=
| Responds (elapsed : Z) (status_code : Z) (json : option Json)
| Fails (elapsed : Z) (e : exn).

(** Everything outside the gateway's source: the network peers, indexed by
    the number of outbound calls made before, and the token library. *)
Record Env := {
  upstream : nat -> Outbound -> NetOutcome;
  jwks_endpoint : nat -> Result Jose.JWKS;
  get_unverified_header : string -> Result Jose.Header;
  jwt_decode : Z -> string -> Jose.JWK -> Result Jose.Claims
}.

Inductive CState := STATE_CLOSED | STATE_OPEN | STATE_HALF_OPEN.

(** The state of one [circuitbreaker.CircuitBreaker]. *)
Record CircuitBreaker := {
  _failure_threshold : nat;
  _recovery_timeout : Z;
  _state : CState;
  _failure_count : nat;
  _opened : Z
}.

Record World := {
  now : Z;
  log : list LogRecord;
  outbound : list Outbound;
  _jwks : option Jose.JWKS;
  mcp_circuit : CircuitBreaker;
  app_circuit : CircuitBreaker
}.

Definition set_now (v : Z) (w : World) : World :=
  {| now := v; log := log w; outbound := outbound w; _jwks := _jwks w;
     mcp_circuit := mcp_circuit w; app_circuit := app_circuit w |}.

Definition set_log (v : list LogRecord) (w : World) : World :=
  {| now := now w; log := v; outbound := outbound w; _jwks := _jwks w;
     mcp_circuit := mcp_circuit w; app_circuit := app_circuit w |}.

Definition set_outbound (v : list Outbound) (w : World) : World :=
  {| now := now w; log := log w; outbound := v; _jwks := _jwks w;
     mcp_circuit := mcp_circuit w; app_circuit := app_circuit w |}.

Definition set_jwks (v : option Jose.JWKS) (w : World) : World :=
  {| now := now w; log := log w; outbound := outbound w; _jwks := v;
     mcp_circuit := mcp_circuit w; app_circuit := app_circuit w |}.

Definition set_mcp_circuit (v : CircuitBreaker) (w : World) : World :=
  {| now := now w; log := log w; outbound := outbound w; _jwks := _jwks w;
     mcp_circuit := v; app_circuit := app_circuit w |}.

Definition set_app_circuit (v : CircuitBreaker) (w : World) : World :=
  {| now := now w; log := log w; outbound := outbound w; _jwks := _jwks w;
     mcp_circuit := mcp_circuit w; app_circuit := v |}.

(** A computation that reads and updates the process state and either
    returns a value or raises. *)
Definition M (A : Type) : Type := World -> Result A * World.

Definition ret {A} (a : A) : M A := fun w => (Ok a, w).

Definition bind {A B} (m : M A) (k : A -> M B) : M B :=
  fun w =>
    match m w with
    | (Ok a, w') => k a w'
    | (Raised e, w') => (Raised e, w')
    end.

Definition raise {A} (e : exn) : M A := fun w => (Raised e, w).

(** [try: m except Exception as e: handler(e)] *)
Definition try_except {A} (m : M A) (handler : exn -> M A) : M A :=
  fun w =>
    match m w with
    | (Ok a, w') => (Ok a, w')
    | (Raised e, w') => handler e w'
    end.

Definition lift {A} (r : Result A) : M A := fun w => (r, w).

Definition logger (lvl : Level) (text : string) : M unit :=
  fun w => (Ok tt, set_log (log w ++ [Message lvl text]) w).

Definition logger_audit (lvl : Level) (prefix : string)
    (entry : Models.AuditLog) : M unit :=
  fun w => (Ok tt, set_log (log w ++ [Audit lvl prefix entry]) w).

Definition utcnow : M Z := fun w => (Ok (now w), w).

Definition sleep (seconds : Z) : M unit :=
  fun w => (Ok tt, set_now (now w + seconds) w).

(** One outbound call: it is recorded, the clock advances, and the peer's
    outcome is returned or raised. *)
Definition send (env : Env) (call : Outbound) : M (Z * option Json) :=
  fun w =>
    let w1 := set_outbound (outbound w ++ [call]) w in
    match upstream env (length (outbound w)) call with
    | Responds dt st body => (Ok (st, body), set_now (now w + dt) w1)
    | Fails dt e => (Raised e, set_now (now w + dt) w1)
    end.

(** The audit entries among the log records. *)
Definition audit_entries (l : list LogRecord) : list LogRecord :=
  List.filter is_audit l.

End Runtime.

Export Runtime.

Notation "'let!' x ':=' m 'in' k" := (bind m (fun x => k))
  (at level 10, x name, m at level 100, k at level 200).

(** ** The decorators of [tenacity] and [circuitbreaker]

    Both forwarders are declared as
    [@circuit(failure_threshold=5, recovery_timeout=60)] over
    [@retry(stop=stop_after_attempt(3), wait=wait_exponential(multiplier=1,
    min=1, max=5))]. The two packages are not part of the repository; the
    definitions below follow their documented behaviour with the arguments
    the source passes and every other option at its default. *)

Module Resilience.

(** [wait_exponential(multiplier=1, min=1, max=5)]: the pause after the
    attempt of the given number. *)
Definition wait_exponential (attempt_number : nat) : Z :=
  Z.max 1 (Z.min (2 ^ (Z.of_nat attempt_number - 1)) 5).

(** [stop_after_attempt(3)] *)
Definition stop_after_attempt (attempt_number : nat) : bool :=
  (3 <=? attempt_number)%nat.

(** The retry loop from attempt [attempt_number] on, with [further] more
    attempts available. Every exception is retried; when the stop condition
    holds the last exception is wrapped in [RetryError] ([reraise] is not
    set). *)
Fixpoint retry_from {A} (further attempt_number : nat) (f : M A) : M A :=
  try_except f (fun e =>
    if stop_after_attempt attempt_number then raise (RetryError e)
    else match further with
         | O => raise (RetryError e)
         | S k =>
             let! _ := sleep (wait_exponential attempt_number) in
             retry_from k (S attempt_number) f
         end).

Definition retry {A} (f : M A) : M A := retry_from 2 1 f.

Definition new_circuit (failure_threshold : nat) (recovery_timeout : Z)
    (created : Z) : CircuitBreaker :=
  {| _failure_threshold := failure_threshold;
     _recovery_timeout := recovery_timeout;
     _state := STATE_CLOSED;
     _failure_count := 0;
     _opened := created |}.

Definition open_remaining (cb : CircuitBreaker) (t : Z) : Z :=
  (_opened cb + _recovery_timeout cb - t)%Z.

(** The [state] property: an open circuit whose recovery window has elapsed
    reads as half-open. *)
Definition state (cb : CircuitBreaker) (t : Z) : CState :=
  match _state cb with
  | STATE_OPEN =>
      if (open_remaining cb t <=? 0)%Z then STATE_HALF_OPEN else STATE_OPEN
  | st => st
  end.

Definition opened (cb : CircuitBreaker) (t : Z) : bool :=
  match state cb t with
  | STATE_OPEN => true
  | _ => false
  end.

Definition call_succeeded (cb : CircuitBreaker) : CircuitBreaker :=
  {| _failure_threshold := _failure_threshold cb;
     _recovery_timeout := _recovery_timeout cb;
     _state := STATE_CLOSED;
     _failure_count := 0;
     _opened := _opened cb |}.

Definition call_failed (cb : CircuitBreaker) (t : Z) : CircuitBreaker :=
  let n := S (_failure_count cb) in
  if (_failure_threshold cb <=? n)%nat
  then {| _failure_threshold := _failure_threshold cb;
          _recovery_timeout := _recovery_timeout cb;
          _state := STATE_OPEN;
          _failure_count := n;
          _opened := t |}
  else {| _failure_threshold := _failure_threshold cb;
          _recovery_timeout := _recovery_timeout cb;
          _state := _state cb;
          _failure_count := n;
          _opened := _opened cb |}.

(** Where a decorated function keeps its breaker: one per function. *)
Record CircuitRef := {
  read : World -> CircuitBreaker;
  write : CircuitBreaker -> World -> World
}.

(** The wrapper [circuit] puts around a function: an open circuit raises
    without calling it; otherwise the call's outcome updates the breaker
    and is passed on. *)
Definition circuit {A} (c : CircuitRef) (f : M A) : M A :=
  fun w =>
    if opened (read c w) (now w) then (Raised CircuitBreakerError, w)
    else match f w with
         | (Ok a, w') => (Ok a, write c (call_succeeded (read c w')) w')
         | (Raised e, w') =>
             (Raised e, write c (call_failed (read c w') (now w')) w')
         end.

End Resilience.

(** ** auth/jwt_validator.py *)

Module JwtValidator.

Import Jose.

Record UserInfo := {
  user_id : option string;
  username : option string;
  roles : list string;
  department : string;
  user_email : option string
}.

Definition jwks_url (s : Config.Settings) : string :=
  "https://cognito-idp." ++ Config.cognito_region s ++ ".amazonaws.com/"
    ++ Config.cognito_user_pool_id s ++ "/.well-known/jwks.json".

(** The [client.get] of [get_jwks] with [raise_for_status] and [json]. *)
Definition fetch_jwks (env : Env) (url : string) : M JWKS :=
  fun w =>
    (jwks_endpoint env (length (outbound w)),
     set_outbound (outbound w ++ [GetJwks url]) w).

Definition get_jwks (s : Config.Settings) (env : Env) : M JWKS :=
  fun w =>
    match _jwks w with
    | None =>
        (let! fetched := fetch_jwks env (jwks_url s) in
         let! _ := (fun w1 => (Ok tt, set_jwks (Some fetched) w1)) in
         let! _ := logger INFO "Fetched JWKS from Cognito" in
         ret fetched) w
    | Some cached => (Ok cached, w)
    end.

Definition extract_token (authorization_header : option string)
  : option string :=
  match Py.if_truthy authorization_header with
  | None => None
  | Some hdr =>
      match Py.split hdr with
      | [scheme; token] =>
          if String.eqb (Py.lower scheme) "bearer" then Some token else None
      | _ => None
      end
  end.

(** The search loop of [validate_token]: the first key whose ["kid"] equals
    the token's. *)
Fixpoint find_key (jwk_keys : list JWK) (kid : string) : option JWK :=
  match jwk_keys with
  | [] => None
  | jwk_key :: rest =>
      match jwk_kid jwk_key with
      | Some k => if String.eqb k kid then Some jwk_key else find_key rest kid
      | None => find_key rest kid
      end
  end.

Definition option_str_eqb (a : option string) (b : string) : bool :=
  match a with
  | Some x => String.eqb x b
  | None => false
  end.

Definition validate_token (s : Config.Settings) (env : Env) (token : string)
  : M (option Claims) :=
  try_except
    (let! jwks := get_jwks s env in
     let! unverified_header := lift (get_unverified_header env token) in
     match Py.if_truthy (kid unverified_header) with
     | None =>
         let! _ := logger WARNING "Token missing kid in header" in
         ret None
     | Some kid =>
         match find_key (default [] (keys jwks)) kid with
         | None =>
             let! _ := logger WARNING ("Key " ++ kid ++ " not found in JWKS") in
             ret None
         | Some key =>
             let! t := utcnow in
             let! claims := lift (jwt_decode env t token key) in
             if negb (option_str_eqb (token_use claims) "access") then
               let! _ := logger WARNING
                 ("Invalid token_use: " ++ default "None" (token_use claims)) in
               ret None
             else
               let! _ := logger INFO
                 ("Token validated for user: "
                    ++ default "None" (claim_username claims)) in
               ret (Some claims)
         end
     end)
    (fun e =>
       if is_JWTError e then
         let! _ := logger WARNING ("JWT validation failed: " ++ exn_str e) in
         ret None
       else
         let! _ := logger ERROR
           ("Unexpected error validating token: " ++ exn_str e) in
         ret None).

Definition extract_user_info (claims : Claims) : UserInfo :=
  let roles := default [] (cognito_groups claims) in
  let department :=
    match roles with
    | first :: _ => first
    | [] => "unknown"
    end in
  {| user_id := sub claims;
     username := claim_username claims;
     roles := roles;
     department := department;
     user_email := email claims |}.

(** A process verifying one token after the other. *)
Fixpoint validate_each (s : Config.Settings) (env : Env)
    (tokens : list string) : M (list (option Claims)) :=
  match tokens with
  | [] => ret []
  | token :: rest =>
      let! claims := validate_token s env token in
      let! others := validate_each s env rest in
      ret (claims :: others)
  end.

Definition is_jwks_fetch (call : Outbound) : bool :=
  match call with
  | GetJwks _ => true
  | _ => false
  end.

(** How many times the key set has been fetched so far. *)
Definition jwks_fetches (w : World) : nat :=
  length (List.filter is_jwks_fetch (outbound w)).

(** No verification has failed yet for want of a key in the key set. *)
Definition no_miss_yet (w : World) : Prop :=
  forall k, Message WARNING ("Key " ++ k ++ " not found in JWKS") ∉ log w.

(** Whatever key verifies the token, its [token_use] is not ["access"]. *)
Definition wrong_token_use (env : Env) (token : string) : Prop :=
  forall t key claims,
    jwt_decode env t token key = Ok claims ->
    token_use claims <> Some "access".

(** The key id in the token's header has no entry in the key set that
    [get_jwks] yields in state [w]. *)
Definition unknown_key (s : Config.Settings) (env : Env) (w : World)
    (token : string) : Prop :=
  forall jwks w1 h k,
    get_jwks s env w = (Ok jwks, w1) ->
    get_unverified_header env token = Ok h ->
    Py.if_truthy (kid h) = Some k ->
    find_key (default [] (keys jwks)) k = None.

End JwtValidator.

(** ** What FastAPI hands to a handler and takes back *)

Module Http.

Record Request := {
  req_method : string;
  url_path : string;
  client_host : option string;
  req_headers : list (string * string);
  req_body : string
}.

(** An [httpx.Response]; [json_body] is [None] when the body is not JSON,
    so that [response.json()] raises. *)
Record Response := {
  status_code : Z;
  json_body : option Json
}.

(** [response.json()] *)
Definition response_json (r : Response) : M Json :=
  match json_body r with
  | Some document => ret document
  | None => raise (JSONDecodeError "Expecting value")
  end.

(** The answer to the caller: a status and the rendered body. *)
Record JSONResponse := {
  content : string;
  js_status : Z
}.

(** [JSONResponse(content=..., status_code=...)]: the constructor renders
    the content with [allow_nan=False] and raises [ValueError] on a value
    that JSON cannot carry. *)
Definition json_response (document : Json) (status : Z) : M JSONResponse :=
  match document with
  | Renders text => ret {| content := text; js_status := status |}
  | Unrenderable reason => raise (OtherException reason)
  end.

(** The response carries a JSON body that can be serialised again. *)
Definition serialisable (r : Response) : Prop :=
  exists text, json_body r = Some (Renders text).

(** Every character is below 128. *)
Fixpoint is_ascii (text : string) : bool :=
  match text with
  | EmptyString => true
  | String c rest => (N_of_ascii c <? 128)%N && is_ascii rest
  end.

(** httpx encodes header names and values as ASCII when it builds a
    request, and raises [UnicodeEncodeError] on any that is not. *)
Definition encodable (headers : list (string * string)) : bool :=
  forallb (fun h => is_ascii (fst h) && is_ascii (snd h)) headers.

(** [dict(request.headers)]: one entry per header name, with the first
    value sent under that name, in the order the names first occur. The
    names are as the server hands them over, in lower case. *)
Fixpoint headers_dict (headers : list (string * string))
  : list (string * string) :=
  match headers with
  | [] => []
  | (name, value) :: rest =>
      (name, value)
        :: List.filter (fun h => negb (String.eqb (fst h) name))
             (headers_dict rest)
  end.

(** The status code the client sees: a returned value has the status
    [ok_status] gives it, an [HTTPException] its own, any other exception
    escaping the handler 500. *)
Definition client_status {A} (ok_status : A -> Z) (r : Result A) : Z :=
  match r with
  | Ok a => ok_status a
  | Raised (HTTPException st _) => st
  | Raised _ => 500
  end.

End Http.

(** ** mcp_gateway.py *)

Module McpGateway.

Import Http Models.

Record ServiceInfo := {
  si_service_name : string;
  si_department : option string
}.

Record ServerInfo := {
  type : string;
  url : string;
  server_description : string
}.

Definition validate_service_token (s : Config.Settings)
    (x_service_token : option string) : M ServiceInfo :=
  match Py.if_truthy x_service_token with
  | None =>
      let! _ := logger WARNING "Missing X-Service-Token header" in
      raise (HTTPException 401 "Missing service token")
  | Some token =>
      match Py.if_truthy (Config.service_token s) with
      | Some expected =>
          if negb (String.eqb token expected) then
            let! _ := logger WARNING "Invalid service token" in
            raise (HTTPException 401 "Invalid service token")
          else
            ret {| si_service_name := "application"; si_department := None |}
      | None =>
          ret {| si_service_name := "application"; si_department := None |}
      end
  end.

Definition get_mcp_server_url (s : Config.Settings) (server_type : string)
  : option string :=
  let mapping : gmap string string :=
    <["legal" := Config.mcp_legal_url s]>
      (<["hr" := Config.mcp_hr_url s]>
         (<["finance" := Config.mcp_finance_url s]> ∅)) in
  mapping !! Py.lower server_type.

Definition extract_department_from_request (mcp_request : MCPRequest)
  : option string :=
  match params mcp_request with
  | None => None
  | Some ps =>
      if bool_decide (ps = ∅) then None
      else match Py.if_truthy (ps !! "department") with
           | Some department => Some department
           | None =>
               match Py.if_truthy (ps !! "server_type") with
               | Some server_type => Some server_type
               | None => None
               end
           end
  end.

Definition mcp_circuit_ref : Resilience.CircuitRef :=
  {| Resilience.read := mcp_circuit; Resilience.write := set_mcp_circuit |}.

Definition forward_to_mcp_server (env : Env) (server_url : string)
    (mcp_request : MCPRequest) : M Response :=
  Resilience.circuit mcp_circuit_ref
    (Resilience.retry
       (let! r := send env (PostMcp server_url mcp_request) in
        ret {| Http.status_code := fst r; json_body := snd r |})).

Definition create_mcp_audit_log (service_info : ServiceInfo)
    (request : Request) (mcp_request : MCPRequest) (response_status : Z)
    (department : option string) (error : option string) : M AuditLog :=
  let! t := utcnow in
  ret {| timestamp := t;
         user_id := Some (si_service_name service_info);
         username := Some (si_service_name service_info);
         Models.department := department;
         method := "MCP:" ++ mcp_method mcp_request;
         path := url_path request;
         Models.status_code := response_status;
         Models.error := error;
         client_ip := client_host request |}.

(** [[role.strip() for role in x_user_roles.split(",")]] *)
Definition parse_roles (x_user_roles : string) : list string :=
  map Py.strip (Py.split_on "," x_user_roles).

Definition route_mcp_request (s : Config.Settings) (rbac_engine : Rbac.RBACEngine)
    (env : Env) (request : Request) (mcp_request : MCPRequest)
    (x_service_token x_user_roles : option string) : M JSONResponse :=
  let! service_info := validate_service_token s x_service_token in
  match extract_department_from_request mcp_request with
  | None =>
      let! _ := logger WARNING "Missing department in MCP request" in
      raise (HTTPException 400 "Missing department in request")
  | Some department =>
      let! _ :=
        match Config.rbac_enabled s, Py.if_truthy x_user_roles with
        | true, Some header =>
            let roles := parse_roles header in
            match Py.if_truthy (Rbac.map_department_to_server department) with
            | None =>
                let! _ := logger WARNING ("Unknown department: " ++ department) in
                raise (HTTPException 400 "Unknown department")
            | Some resource =>
                if negb (Rbac.check_permission rbac_engine roles resource "read")
                then
                  let! audit_log := create_mcp_audit_log service_info request
                    mcp_request 403 (Some department)
                    (Some "RBAC permission denied") in
                  let! _ := logger_audit WARNING "MCP Gateway: " audit_log in
                  raise (HTTPException 403 "Access denied")
                else ret tt
            end
        | _, _ => ret tt
        end in
      let! _ :=
        match Config.department_isolation s, Py.if_truthy x_user_roles with
        | true, Some header =>
            let roles := parse_roles header in
            if negb (Py.str_in (Py.lower department) (map Py.lower roles))
            then
              let! audit_log := create_mcp_audit_log service_info request
                mcp_request 403 (Some department)
                (Some "Department isolation violation") in
              let! _ := logger_audit WARNING "MCP Gateway: " audit_log in
              raise (HTTPException 403 "Access denied: department isolation")
            else ret tt
        | _, _ => ret tt
        end in
      match Py.if_truthy (get_mcp_server_url s department) with
      | None =>
          let! _ := logger ERROR
            ("No MCP server configured for department: " ++ department) in
          raise (HTTPException 404 "MCP server not found")
      | Some server_url =>
          try_except
            (let! response := forward_to_mcp_server env server_url mcp_request in
             let! audit_log := create_mcp_audit_log service_info request
               mcp_request (Http.status_code response) (Some department) None in
             let! _ := logger_audit INFO "MCP Gateway: " audit_log in
             let! body := response_json response in
             json_response body (Http.status_code response))
            (fun e =>
               if is_httpx_HTTPError e then
                 let! _ := logger ERROR
                   ("HTTP error forwarding MCP request: " ++ exn_str e) in
                 let! audit_log := create_mcp_audit_log service_info request
                   mcp_request 502 (Some department) (Some (exn_str e)) in
                 let! _ := logger_audit ERROR "MCP Gateway Error: " audit_log in
                 raise (HTTPException 502 "MCP server unavailable")
               else
                 let! _ := logger ERROR ("Unexpected error: " ++ exn_str e) in
                 let! audit_log := create_mcp_audit_log service_info request
                   mcp_request 500 (Some department) (Some (exn_str e)) in
                 let! _ := logger_audit ERROR "MCP Gateway Error: " audit_log in
                 raise (HTTPException 500 "Internal server error"))
      end
  end.

Definition finance_server (s : Config.Settings) : ServerInfo :=
  {| type := "finance"; url := Config.mcp_finance_url s;
     server_description := "Finance MCP Server" |}.

Definition hr_server (s : Config.Settings) : ServerInfo :=
  {| type := "hr"; url := Config.mcp_hr_url s;
     server_description := "HR MCP Server" |}.

Definition legal_server (s : Config.Settings) : ServerInfo :=
  {| type := "legal"; url := Config.mcp_legal_url s;
     server_description := "Legal MCP Server" |}.

(** The loop of [list_mcp_servers] over the accessible resources. *)
Fixpoint servers_for (s : Config.Settings) (accessible : list string)
  : list ServerInfo :=
  match accessible with
  | [] => []
  | resource :: rest =>
      if String.eqb resource "mcp-finance-server"
      then finance_server s :: servers_for s rest
      else if String.eqb resource "mcp-hr-server"
      then hr_server s :: servers_for s rest
      else if String.eqb resource "mcp-legal-server"
      then legal_server s :: servers_for s rest
      else servers_for s rest
  end.

Definition list_mcp_servers (s : Config.Settings) (rbac_engine : Rbac.RBACEngine)
    (x_service_token x_user_roles : option string) : M (list ServerInfo) :=
  let! _ := validate_service_token s x_service_token in
  match Py.if_truthy x_user_roles with
  | Some header =>
      let roles := parse_roles header in
      let accessible_resources :=
        Rbac.get_accessible_resources rbac_engine roles in
      ret (servers_for s accessible_resources)
  | None => ret [finance_server s; hr_server s; legal_server s]
  end.

End McpGateway.

(** ** api_gateway.py *)

Module ApiGateway.

Import Http Models JwtValidator.

Definition validate_jwt_token (s : Config.Settings) (env : Env)
    (authorization : option string) : M UserInfo :=
  match Py.if_truthy authorization with
  | None =>
      let! _ := logger WARNING "Missing Authorization header" in
      raise (HTTPException 401 "Missing Authorization header")
  | Some _ =>
      match Py.if_truthy (extract_token authorization) with
      | None =>
          let! _ := logger WARNING "Invalid Authorization header format" in
          raise (HTTPException 401 "Invalid Authorization header format")
      | Some token =>
          let! claims := validate_token s env token in
          match claims with
          | None =>
              let! _ := logger WARNING "Invalid or expired JWT token" in
              raise (HTTPException 401 "Invalid or expired token")
          | Some claims => ret (extract_user_info claims)
          end
      end
  end.

Definition app_circuit_ref : Resilience.CircuitRef :=
  {| Resilience.read := app_circuit; Resilience.write := set_app_circuit |}.

Definition forward_to_application (s : Config.Settings) (env : Env)
    (method path : string) (headers : list (string * string))
    (body : option string) : M Response :=
  Resilience.circuit app_circuit_ref
    (Resilience.retry
       (let url := Config.application_service_url s ++ path in
        if encodable headers then
          let! r := send env (AppRequest method url headers body) in
          ret {| Http.status_code := fst r; json_body := snd r |}
        else
          raise (OtherException
                   "'ascii' codec can't encode character in header"))).

Definition create_audit_log (user_info : UserInfo) (request : Request)
    (response_status : Z) (error : option string) : M AuditLog :=
  let! t := utcnow in
  ret {| timestamp := t;
         Models.user_id := JwtValidator.user_id user_info;
         Models.username := JwtValidator.username user_info;
         Models.department := Some (JwtValidator.department user_info);
         method := req_method request;
         path := url_path request;
         Models.status_code := response_status;
         Models.error := error;
         client_ip := client_host request |}.

(** The body the three data-plane handlers share: forward, audit, return;
    an [httpx.HTTPError] becomes 502 and any other exception 500, each with
    its audit entry. *)
Definition forward_and_audit (s : Config.Settings) (env : Env)
    (request : Request) (user_info : UserInfo) (method path : string)
    (body : option string) : M JSONResponse :=
  try_except
    (let! response := forward_to_application s env method path
       (headers_dict (req_headers request)) body in
     let! audit_log := create_audit_log user_info request
       (Http.status_code response) None in
     let! _ := logger_audit INFO "API Gateway: " audit_log in
     let! json := response_json response in
     json_response json (Http.status_code response))
    (fun e =>
       if is_httpx_HTTPError e then
         let! _ := logger ERROR
           ("HTTP error forwarding request: " ++ exn_str e) in
         let! audit_log := create_audit_log user_info request 502
           (Some (exn_str e)) in
         let! _ := logger_audit ERROR "API Gateway Error: " audit_log in
         raise (HTTPException 502 "Backend service unavailable")
       else
         let! _ := logger ERROR ("Unexpected error: " ++ exn_str e) in
         let! audit_log := create_audit_log user_info request 500
           (Some (exn_str e)) in
         let! _ := logger_audit ERROR "API Gateway Error: " audit_log in
         raise (HTTPException 500 "Internal server error")).

Definition process_file (s : Config.Settings) (env : Env)
    (request : Request) (user_info : UserInfo) : M JSONResponse :=
  forward_and_audit s env request user_info "POST" "/process"
    (Some (req_body request)).

Definition get_status (s : Config.Settings) (env : Env) (job_id : string)
    (request : Request) (user_info : UserInfo) : M JSONResponse :=
  forward_and_audit s env request user_info "GET" ("/status/" ++ job_id) None.

Definition get_download_url (s : Config.Settings) (env : Env)
    (job_id : string) (request : Request) (user_info : UserInfo)
  : M JSONResponse :=
  forward_and_audit s env request user_info "GET" ("/download/" ++ job_id)
    None.

(** The data-plane routes. *)
Inductive Route :=
| PostProcess
| GetStatus (job_id : string)
| GetDownload (job_id : string).

(** A data-plane request as FastAPI serves it: the dependency
    [Depends(validate_jwt_token)] is resolved from the [Authorization]
    header first, and the handler runs only if it returns. *)
Definition serve (s : Config.Settings) (env : Env) (route : Route)
    (request : Request) (authorization : option string) : M JSONResponse :=
  let! user_info := validate_jwt_token s env authorization in
  match route with
  | PostProcess => process_file s env request user_info
  | GetStatus job_id => get_status s env job_id request user_info
  | GetDownload job_id => get_download_url s env job_id request user_info
  end.

End ApiGateway.

(** ** Concrete inputs used by the examples *)

Module Fixtures.

Import Models Http.

Definition settings : Config.Settings := Config.defaults "pool-1".

(** The same deployment with [RBAC_ENABLED=false]: department isolation is
    the only check. *)
Definition isolation_only : Config.Settings :=
  {| Config.service_name := Config.service_name settings;
     Config.api_port := Config.api_port settings;
     Config.mcp_port := Config.mcp_port settings;
     Config.aws_region := Config.aws_region settings;
     Config.cognito_user_pool_id := Config.cognito_user_pool_id settings;
     Config.cognito_region := Config.cognito_region settings;
     Config.rbac_enabled := false;
     Config.department_isolation := true;
     Config.application_service_url :=
       Config.application_service_url settings;
     Config.mcp_finance_url := Config.mcp_finance_url settings;
     Config.mcp_hr_url := Config.mcp_hr_url settings;
     Config.mcp_legal_url := Config.mcp_legal_url settings;
     Config.service_token := Config.service_token settings;
     Config.log_level := Config.log_level settings |}.

Definition read_on (res : string) : Rbac.Permission :=
  {| Rbac.resource := res; Rbac.actions := ["read"] |}.

(** A policy with one role per department and an auditor role that may
    read the finance server without being a member of the department. *)
Definition sample_policy : Rbac.RBACPolicy :=
  {| Rbac.roles :=
       [ {| Rbac.name := "finance"; Rbac.description := "Finance staff";
            Rbac.permissions := [read_on "mcp-finance-server"] |};
         {| Rbac.name := "hr"; Rbac.description := "HR staff";
            Rbac.permissions := [read_on "mcp-hr-server"] |};
         {| Rbac.name := "legal"; Rbac.description := "Legal staff";
            Rbac.permissions := [read_on "mcp-legal-server"] |};
         {| Rbac.name := "auditor"; Rbac.description := "Auditor";
            Rbac.permissions := [read_on "mcp-finance-server"] |} ] |}.

Definition engine : Rbac.RBACEngine :=
  {| Rbac.policy := sample_policy;
     Rbac._role_map := Rbac.role_map_of (Rbac.roles sample_policy) |}.

(** A file system on which no policy file can be opened. *)
Definition unreadable : Rbac.PolicySource unit :=
  {| Rbac.open_read := fun _ => None;
     Rbac.yaml_safe_load := fun _ => None;
     Rbac.validate := fun _ => None |}.

Definition world0 : World :=
  {| now := 0; log := []; outbound := []; _jwks := None;
     mcp_circuit := Resilience.new_circuit 5 60 0;
     app_circuit := Resilience.new_circuit 5 60 0 |}.

Definition no_header : Result Jose.Header := Raised (JWTError "Error decoding token headers.").

(** Peers that answer every call at once with 200 and an empty JSON
    object; no key set, no decodable token. *)
Definition env_up : Env :=
  {| upstream := fun _ _ => Responds 0 200 (Some (Renders "{}"));
     jwks_endpoint := fun _ => Raised (HTTPError "jwks unavailable");
     get_unverified_header := fun _ => no_header;
     jwt_decode := fun _ _ _ => Raised (JWTError "Signature verification failed.") |}.

(** Peers that answer 200 with the body [1e400]: it parses, to infinity,
    and cannot be serialised again. *)
Definition env_overflow : Env :=
  {| upstream := fun _ _ =>
       Responds 0 200
         (Some (Unrenderable
                  "Out of range float values are not JSON compliant"));
     jwks_endpoint := fun _ => Raised (HTTPError "jwks unavailable");
     get_unverified_header := fun _ => no_header;
     jwt_decode := fun _ _ _ => Raised (JWTError "Signature verification failed.") |}.

(** Peers whose every call times out after 30 seconds. *)
Definition env_down : Env :=
  {| upstream := fun _ _ => Fails 30 (HTTPError "ConnectTimeout");
     jwks_endpoint := fun _ => Raised (HTTPError "ConnectTimeout");
     get_unverified_header := fun _ => no_header;
     jwt_decode := fun _ _ _ => Raised (JWTError "Signature verification failed.") |}.

Definition key1 : Jose.JWK :=
  {| Jose.jwk_kid := Some "k1"; Jose.jwk_material := "rsa-public-key-1" |}.

Definition jwks1 : Jose.JWKS := {| Jose.keys := Some [key1] |}.

Definition alice_claims : Jose.Claims :=
  {| Jose.sub := Some "user-1"; Jose.claim_username := Some "alice";
     Jose.email := Some "alice@example.com";
     Jose.token_use := Some "access";
     Jose.cognito_groups := Some ["finance"; "auditor"] |}.

Definition alice_id_claims : Jose.Claims :=
  {| Jose.sub := Some "user-1"; Jose.claim_username := Some "alice";
     Jose.email := Some "alice@example.com";
     Jose.token_use := Some "id";
     Jose.cognito_groups := Some ["finance"; "auditor"] |}.

(** An identity provider publishing the key [k1]. Token ["t1"] is an access
    token signed with [k1], ["t2"] names the unknown key [k2], ["t3"] is an
    identity token signed with [k1]; anything else is not a token. *)
Definition env_idp : Env :=
  {| upstream := fun _ _ => Responds 0 200 (Some (Renders "{}"));
     jwks_endpoint := fun _ => Ok jwks1;
     get_unverified_header := fun token =>
       if String.eqb token "t1" then Ok {| Jose.kid := Some "k1" |}
       else if String.eqb token "t2" then Ok {| Jose.kid := Some "k2" |}
       else if String.eqb token "t3" then Ok {| Jose.kid := Some "k1" |}
       else no_header;
     jwt_decode := fun _ token key =>
       if String.eqb token "t1" && String.eqb (Jose.jwk_material key) "rsa-public-key-1"
       then Ok alice_claims
       else if String.eqb token "t3" && String.eqb (Jose.jwk_material key) "rsa-public-key-1"
       then Ok alice_id_claims
       else Raised (JWTError "Signature verification failed.") |}.

Definition request : Request :=
  {| req_method := "POST"; url_path := "/mcp"; client_host := Some "10.0.0.7";
     req_headers := [("content-type", "application/json")];
     req_body := "{}" |}.

(** A data-plane request one of whose headers carries a character above
    127, here the Latin-1 e with acute accent. *)
Definition request_latin1 : Request :=
  {| req_method := "GET"; url_path := "/api/status/job-7";
     client_host := Some "10.0.0.7";
     req_headers :=
       [("accept", "application/json");
        ("x-requested-by", String "R" (String "e" (String "n"
                             (String "233"%char EmptyString))))];
     req_body := "" |}.

Definition tools_list (department : string) : MCPRequest :=
  {| jsonrpc := "2.0"; id := "1"; mcp_method := "tools/list";
     params := Some (<["department" := department]> ∅) |}.

(** A process whose MCP breaker opened at time 465, ten seconds ago. *)
Definition world_open : World :=
  {| now := 475; log := []; outbound := []; _jwks := None;
     mcp_circuit :=
       {| _failure_threshold := 5; _recovery_timeout := 60;
          _state := STATE_OPEN; _failure_count := 5; _opened := 465 |};
     app_circuit := Resilience.new_circuit 5 60 0 |}.


End Fixtures.

(** ** Counting audit entries *)

Module AuditTrail.

(** The number of audit entries emitted so far. *)
Definition audits (w : World) : nat := length (audit_entries (log w)).

(** [emits m Q]: from any state, running [m] adds some number [n] of audit
    entries to the log, and [Q] holds of the outcome and [n]. *)
Definition emits {A} (m : M A) (Q : Result A -> nat -> Prop) : Prop :=
  forall w,
    exists n, audits (snd (m w)) = audits w + n /\ Q (fst (m w)) n.

(** [P] holds of the value when there is one. *)
Definition returned {A} (P : A -> Prop) (r : Result A) : Prop :=
  match r with
  | Ok a => P a
  | Raised _ => True
  end.

(** A computation that emits nothing and whose value satisfies [P]. *)
Definition silent {A} (P : A -> Prop) (m : M A) : Prop :=
  emits m (fun r n => n = 0 /\ returned P r).

(** A computation that emits nothing, whose value satisfies [P] and which
    raises no [httpx.HTTPError]. *)
Definition guarded {A} (P : A -> Prop) (m : M A) : Prop :=
  emits m (fun r n =>
             n = 0
             /\ match r with
                | Ok a => P a
                | Raised e => is_httpx_HTTPError e = false
                end).

(** Every answer of the upstream peers carries a JSON body that can be
    serialised again. *)
Definition json_peers (env : Env) : Prop :=
  forall n call dt st body,
    upstream env n call = Responds dt st body ->
    exists text, body = Some (Renders text).






End AuditTrail.

(** ** Statements under test

    Sentences of the specification that the code is checked against, as
    propositions over the embedding. *)

Module Stated.

Import Jose JwtValidator.

(** "The key-set cache is refreshed on the first key-id miss": when a
    token's key id has no entry in the cached key set and no such miss
    happened before, verification fetches the key set once more. *)
Definition refreshed_on_first_miss : Prop :=
  forall (s : Config.Settings) (env : Env) (w : World) (token : string)
         (jwks : JWKS) (h : Header) (k : string),
    _jwks w = Some jwks ->
    get_unverified_header env token = Ok h ->
    Py.if_truthy (kid h) = Some k ->
    find_key (default [] (keys jwks)) k = None ->
    no_miss_yet w ->
    jwks_fetches (snd (validate_token s env token w)) = S (jwks_fetches w).

(** "Without the [X-User-Roles] header a [POST /mcp] request is never
    forwarded": handling it makes no outbound call. *)
Definition roles_header_required : Prop :=
  forall (s : Config.Settings) (rbac_engine : Rbac.RBACEngine) (env : Env)
         (request : Http.Request) (mcp_request : Models.MCPRequest)
         (x_service_token : option string) (w : World),
    outbound (snd (McpGateway.route_mcp_request s rbac_engine env request
                     mcp_request x_service_token None w))
    = outbound w.


End Stated.

(** ** Notions used by the further properties *)

Module Text.

(** Some character of the string is white space. *)
Fixpoint has_space (s : string) : bool :=
  match s with
  | EmptyString => false
  | String c rest => Py.isspace c || has_space rest
  end.

End Text.

Module Access.

(** One of the named roles is known to the engine and has a permission,
    for whatever action, on the resource. *)
Definition reaches (e : Rbac.RBACEngine) (role_names : list string)
    (res : string) : Prop :=
  exists role_name role p,
    role_name ∈ role_names
    /\ Rbac._role_map e !! role_name = Some role
    /\ p ∈ Rbac.permissions role
    /\ Rbac.resource p = res.

(** The checks of [route_mcp_request] let the request through: for a
    non-empty [X-User-Roles] value, RBAC (when enabled) finds ["read"] on
    the department's resource, and department isolation (when enabled)
    finds the department among the roles up to letter case. Without such a
    value nothing is asked. *)
Definition authorized (s : Config.Settings) (e : Rbac.RBACEngine)
    (department : string) (x_user_roles : option string) : Prop :=
  forall header,
    Py.if_truthy x_user_roles = Some header ->
    (Config.rbac_enabled s = true ->
     exists res,
       Rbac.map_department_to_server department = Some res
       /\ Rbac.check_permission e (McpGateway.parse_roles header) res "read"
          = true)
    /\ (Config.department_isolation s = true ->
        Py.lower department
          ∈ map Py.lower (McpGateway.parse_roles header)).

End Access.

Module Routes.

(** The call a data-plane handler forwards for a route: [process_file]
    posts the body to ["/process"], [get_status] and [get_download_url] get
    ["/status/{job_id}"] and ["/download/{job_id}"] without a body; all
    pass on [dict(request.headers)], the caller's headers with one value
    kept for each name. *)
Definition upstream_call (s : Config.Settings) (route : ApiGateway.Route)
    (request : Http.Request) : Outbound :=
  match route with
  | ApiGateway.PostProcess =>
      AppRequest "POST" (Config.application_service_url s ++ "/process")
        (Http.headers_dict (Http.req_headers request))
        (Some (Http.req_body request))
  | ApiGateway.GetStatus job_id =>
      AppRequest "GET"
        (Config.application_service_url s ++ "/status/" ++ job_id)
        (Http.headers_dict (Http.req_headers request)) None
  | ApiGateway.GetDownload job_id =>
      AppRequest "GET"
        (Config.application_service_url s ++ "/download/" ++ job_id)
        (Http.headers_dict (Http.req_headers request)) None
  end.

End Routes.

Module LogTrail.

(** [logs m Q]: from any state, running [m] appends some records [new] to
    the log, and [Q] holds of the outcome and [new]. *)
Definition logs {A} (m : M A) (Q : Result A -> list LogRecord -> Prop)
  : Prop :=
  forall w,
    exists new, log (snd (m w)) = (log w ++ new)%list /\ Q (fst (m w)) new.

(** An audit entry of [POST /mcp] tells the truth about the request and
    about the status the caller receives; plain messages are not
    constrained. *)
Definition mcp_record_faithful (request : Http.Request)
    (mcp_request : Models.MCPRequest) (r : Result Http.JSONResponse)
    (record : LogRecord) : Prop :=
  match record with
  | Audit _ _ entry =>
      Models.status_code entry = Http.client_status Http.js_status r
      /\ Models.user_id entry = Some "application"
      /\ Models.method entry = "MCP:" ++ Models.mcp_method mcp_request
      /\ Models.path entry = Http.url_path request
      /\ Models.client_ip entry = Http.client_host request
  | Message _ _ => True
  end.

(** The same for a data-plane route. *)
Definition api_record_faithful (request : Http.Request)
    (r : Result Http.JSONResponse) (record : LogRecord) : Prop :=
  match record with
  | Audit _ _ entry =>
      Models.status_code entry = Http.client_status Http.js_status r
      /\ Models.method entry = Http.req_method request
      /\ Models.path entry = Http.url_path request
      /\ Models.client_ip entry = Http.client_host request
  | Message _ _ => True
  end.

End LogTrail.

(** How FastAPI fills the header parameters of [route_mcp_request]. *)

Module FastApi.

(** The header a [Header(None)] parameter reads: the parameter's name with
    every underscore turned into a hyphen. *)
Fixpoint header_name (param : string) : string :=
  match param with
  | EmptyString => EmptyString
  | String c rest =>
      String (if Ascii.eqb c "_" then "-"%char else c) (header_name rest)
  end.

(** The value of the parameter: that of the first header of that name,
    names compared without regard to letter case; [None] without one. *)
Fixpoint header_param (param : string) (headers : list (string * string))
  : option string :=
  match headers with
  | [] => None
  | (name, value) :: rest =>
      if String.eqb (Py.lower name) (Py.lower (header_name param))
      then Some value
      else header_param param rest
  end.

(** [POST /mcp] as served: both header parameters come from the request. *)
Definition post_mcp (s : Config.Settings) (rbac_engine : Rbac.RBACEngine)
    (env : Env) (request : Http.Request) (mcp_request : Models.MCPRequest)
  : M Http.JSONResponse :=
  McpGateway.route_mcp_request s rbac_engine env request mcp_request
    (header_param "x_service_token" (Http.req_headers request))
    (header_param "x_user_roles" (Http.req_headers request)).

End FastApi.

(** ** application/src/mcp_client.py *)

Module McpClient.

(** The headers [MCPClient.call_mcp_server] sends with every call. *)
Definition headers (service_token server_type : string)
  : list (string * string) :=
  [ ("Content-Type", "application/json");
    ("Authorization", "Bearer " ++ service_token);
    ("X-MCP-Server-Type", server_type) ].

(** The same header up to the letter case of its name, which the HTTP
    stack does not keep. *)
Definition same_header (sent received : string * string) : bool :=
  String.eqb (Py.lower (fst sent)) (Py.lower (fst received))
  && String.eqb (snd sent) (snd received).

(** The headers of a request as the gateway receives it from a call of the
    client: each of the client's headers is among them, and every other one,
    added by the HTTP stack or on the way ([host], [user-agent],
    [content-length] and the like), has another name than
    [X-Service-Token]. *)
Definition received_from_client (service_token server_type : string)
    (received : list (string * string)) : bool :=
  forallb (fun sent => existsb (same_header sent) received)
    (headers service_token server_type)
  && forallb
       (fun h =>
          existsb (fun sent => same_header sent h)
            (headers service_token server_type)
          || negb (String.eqb (Py.lower (fst h)) "x-service-token"))
       received.

End McpClient.

Module ClientFixtures.

(** A request of the application's MCP client as the gateway receives it:
    header names in lower case, the client's three headers among those of
    the HTTP client library. *)
Definition client_request : Http.Request :=
  {| Http.req_method := "POST"; Http.url_path := "/mcp";
     Http.client_host := Some "10.0.0.9";
     Http.req_headers :=
       [ ("host", "agentgateway.local:8081");
         ("accept", "*/*");
         ("accept-encoding", "gzip, deflate");
         ("connection", "keep-alive");
         ("user-agent", "python-httpx/0.25.2");
         ("content-type", "application/json");
         ("authorization", "Bearer svc-token");
         ("x-mcp-server-type", "finance");
         ("content-length", "2") ];
     Http.req_body := "{}" |}.

End ClientFixtures.

Module Breaker.

(** What the breaker's stored fields always satisfy: the stored state is
    closed with fewer consecutive failures than the threshold, or open with
    at least as many; half-open is never stored, only read off the clock. *)
Definition consistent (cb : CircuitBreaker) : Prop :=
  match _state cb with
  | STATE_CLOSED => _failure_count cb < _failure_threshold cb
  | STATE_OPEN => _failure_threshold cb <= _failure_count cb
  | STATE_HALF_OPEN => False
  end.

End Breaker.

(** * Properties *)

(** ** Policy engine *)

Section PolicyEngine.

Import Rbac.

Variable e : RBACEngine.

Lemma check_permission_spec (role_names : list string) (res action : string) :
  check_permission e role_names res action = true
  <-> exists role_name,
        role_name ∈ role_names /\ role_grants e role_name res action.
Proof.
  induction role_names as [|rn rest IH]; simpl.
  - split; [discriminate|]. intros (x & Hx & _). inversion Hx.
  - destruct (_role_map e !! rn) as [role|] eqn:Hrole.
    + destruct (permissions_grant (permissions role) res action) eqn:Hg.
      * split; [intros _|reflexivity].
        exists rn. split; [left|]. exists role. auto.
      * rewrite IH. split.
        -- intros (x & Hx & Hgr). exists x. split; [right|]; assumption.
        -- intros (x & Hx & Hgr). apply elem_of_cons in Hx as [->|Hx].
           ++ destruct Hgr as (role' & Hl & Hg'). congruence.
           ++ exists x. auto.
    + rewrite IH. split.
      * intros (x & Hx & Hgr). exists x. split; [right|]; assumption.
      * intros (x & Hx & Hgr). apply elem_of_cons in Hx as [->|Hx].
        -- destruct Hgr as (role' & Hl & _). congruence.
        -- exists x. auto.
Qed.

Lemma check_permission_incl (R R' : list string) (res action : string) :
  (forall x, x ∈ R -> x ∈ R') ->
  check_permission e R res action = true ->
  check_permission e R' res action = true.
Proof.
  intros Hincl. rewrite !check_permission_spec.
  intros (x & Hx & Hg). exists x. auto.
Qed.

End PolicyEngine.

Lemma role_map_of_nil_lookup (role_name : string) :
  Rbac.role_map_of [] !! role_name = None.
Proof. unfold Rbac.role_map_of. simpl. apply lookup_empty. Qed.

Lemma check_permission_empty_map (e : Rbac.RBACEngine)
    (role_names : list string) (res action : string) :
  (forall role_name, Rbac._role_map e !! role_name = None) ->
  Rbac.check_permission e role_names res action = false.
Proof.
  intros Hempty. induction role_names as [|rn rest IH]; simpl.
  - reflexivity.
  - rewrite Hempty. exact IH.
Qed.

(** C7. If the static policy definition cannot be read, parsed or validated,
    [_load_policy] returns the empty policy instead of raising, and the
    engine built from it denies every (roles, resource, action). *)
Theorem load_policy_fail_closed {Y} (src : Rbac.PolicySource Y)
    (policy_file : string) :
  Rbac.malformed_or_unreadable src policy_file ->
  Rbac._load_policy src policy_file = {| Rbac.roles := [] |}
  /\ forall role_names res action,
       Rbac.check_permission (Rbac.init src policy_file) role_names res action
       = false.
Proof.
  intros Hbad.
  assert (Hload : Rbac._load_policy src policy_file = {| Rbac.roles := [] |}).
  { unfold Rbac.malformed_or_unreadable in Hbad. unfold Rbac._load_policy.
    destruct (Rbac.open_read src policy_file) as [text|]; [|reflexivity].
    destruct (Rbac.yaml_safe_load src text) as [d|]; [|reflexivity].
    rewrite Hbad. reflexivity. }
  split; [exact Hload|].
  intros role_names res action. apply check_permission_empty_map.
  intros role_name. unfold Rbac.init. rewrite Hload. simpl.
  apply role_map_of_nil_lookup.
Qed.

Lemma load_policy_fail_closed_witness :
  Rbac.malformed_or_unreadable Fixtures.unreadable "policies.yaml"
  /\ Rbac.check_permission (Rbac.init Fixtures.unreadable "policies.yaml")
       ["finance"] "mcp-finance-server" "read" = false.
Proof.
  split.
  - exact I.
  - apply (load_policy_fail_closed Fixtures.unreadable "policies.yaml"). exact I.
Defined.

(** C8. [check_permission] is monotonic in the role set: if it grants for
    the roles [R], it grants for any list [R'] holding exactly the roles of
    [R] and one more role [r]. *)
Theorem check_permission_monotonic (e : Rbac.RBACEngine)
    (R R' : list string) (r res action : string) :
  (forall x, x ∈ R' <-> x = r \/ x ∈ R) ->
  Rbac.check_permission e R res action = true ->
  Rbac.check_permission e R' res action = true.
Proof.
  intros Hunion. apply check_permission_incl.
  intros x Hx. apply Hunion. right. exact Hx.
Qed.

Lemma check_permission_monotonic_witness :
  Rbac.check_permission Fixtures.engine ["hr"; "finance"]
    "mcp-finance-server" "read" = true.
Proof.
  apply (check_permission_monotonic Fixtures.engine ["finance"]
           ["hr"; "finance"] "hr").
  - intros x. rewrite !elem_of_cons. split.
    + intros [->|[->|H]]; [left|right; left|inversion H]; reflexivity.
    + intros [->|[->|H]]; [left|right; left|inversion H]; reflexivity.
  - vm_compute. reflexivity.
Defined.

(** ** Service token and server listing *)

(** C10. A [GET /servers] request with a valid service token and no
    [X-User-Roles] header is answered with all three configured servers,
    whatever the policy: finance, hr and legal in this order, each with its
    configured URL and its description. *)
Theorem list_servers_without_roles (s : Config.Settings)
    (rbac_engine : Rbac.RBACEngine) (x_service_token : option string)
    (w w1 : World) (info : McpGateway.ServiceInfo) :
  McpGateway.validate_service_token s x_service_token w = (Ok info, w1) ->
  McpGateway.list_mcp_servers s rbac_engine x_service_token None w
  = (Ok [ {| McpGateway.type := "finance";
             McpGateway.url := Config.mcp_finance_url s;
             McpGateway.server_description := "Finance MCP Server" |};
          {| McpGateway.type := "hr";
             McpGateway.url := Config.mcp_hr_url s;
             McpGateway.server_description := "HR MCP Server" |};
          {| McpGateway.type := "legal";
             McpGateway.url := Config.mcp_legal_url s;
             McpGateway.server_description := "Legal MCP Server" |} ],
     w1).
Proof.
  intros Hvalid. unfold McpGateway.list_mcp_servers, bind.
  rewrite Hvalid. reflexivity.
Qed.

Lemma list_servers_without_roles_witness :
  McpGateway.list_mcp_servers Fixtures.settings Fixtures.engine
    (Some "svc-token") None Fixtures.world0
  = (Ok [ {| McpGateway.type := "finance";
             McpGateway.url := "http://mcp-finance-service.local:8080";
             McpGateway.server_description := "Finance MCP Server" |};
          {| McpGateway.type := "hr";
             McpGateway.url := "http://mcp-hr-service.local:8080";
             McpGateway.server_description := "HR MCP Server" |};
          {| McpGateway.type := "legal";
             McpGateway.url := "http://mcp-legal-service.local:8080";
             McpGateway.server_description := "Legal MCP Server" |} ],
     Fixtures.world0).
Proof.
  apply (list_servers_without_roles Fixtures.settings Fixtures.engine
           (Some "svc-token") Fixtures.world0 Fixtures.world0
           {| McpGateway.si_service_name := "application";
              McpGateway.si_department := None |}).
  reflexivity.
Defined.

(** ** Token verification *)

Section TokenVerifier.

Import Jose JwtValidator.

Variable s : Config.Settings.
Variable env : Env.

Lemma split_unfold (c : ascii) (rest : string) :
  Py.split (String c rest)
  = if Py.isspace c then Py.split rest
    else match rest with
         | EmptyString => [String c EmptyString]
         | String c' _ =>
             if Py.isspace c' then String c EmptyString :: Py.split rest
             else match Py.split rest with
                  | w :: ws => String c w :: ws
                  | [] => [String c EmptyString]
                  end
         end.
Proof. destruct rest; reflexivity. Qed.

(** No field of [s.split()] is empty. *)
Lemma split_fields_nonempty (text field : string) :
  field ∈ Py.split text -> field <> "".
Proof.
  revert field. induction text as [|c rest IH]; intros field Hin.
  - inversion Hin.
  - rewrite split_unfold in Hin. destruct (Py.isspace c).
    + apply IH. exact Hin.
    + destruct rest as [|c' rest'].
      * apply list_elem_of_singleton in Hin. subst. discriminate.
      * destruct (Py.isspace c').
        -- apply elem_of_cons in Hin as [->|Hin]; [discriminate|].
           apply IH. exact Hin.
        -- destruct (Py.split (String c' rest')) as [|w ws].
           ++ apply list_elem_of_singleton in Hin. subst. discriminate.
           ++ apply elem_of_cons in Hin as [->|Hin]; [discriminate|].
              apply IH. right. exact Hin.
Qed.

Lemma if_truthy_some (text : string) :
  text <> "" -> Py.if_truthy (Some text) = Some text.
Proof.
  intros Hne. simpl. destruct (String.eqb text "") eqn:E; [|reflexivity].
  apply String.eqb_eq in E. contradiction.
Qed.

Lemma extract_token_truthy (authorization : option string) (token : string) :
  extract_token authorization = Some token ->
  (exists hdr, Py.if_truthy authorization = Some hdr)
  /\ Py.if_truthy (extract_token authorization) = Some token.
Proof.
  intros Hex. split.
  - unfold extract_token in Hex.
    destruct (Py.if_truthy authorization) as [hdr|]; [eauto|discriminate].
  - rewrite Hex. apply if_truthy_some.
    unfold extract_token in Hex.
    destruct (Py.if_truthy authorization) as [hdr|]; [|discriminate].
    destruct (Py.split hdr) as [|scheme [|tok [|]]] eqn:Hsplit;
      try discriminate.
    destruct (String.eqb (Py.lower scheme) "bearer"); [|discriminate].
    injection Hex as <-.
    apply (split_fields_nonempty hdr). rewrite Hsplit. right. left.
Qed.

Lemma option_str_eqb_true (a : option string) (b : string) :
  option_str_eqb a b = true <-> a = Some b.
Proof.
  destruct a as [x|]; simpl.
  - rewrite String.eqb_eq. split; congruence.
  - split; discriminate.
Qed.

(** Verification of a token signed by a key of the key set, unexpired and
    marked as an access token returns its claims. *)
Lemma validate_token_accepts (token : string) (w w1 : World) (jwks : JWKS)
    (h : Header) (k : string) (key : JWK) (claims : Claims) :
  get_jwks s env w = (Ok jwks, w1) ->
  get_unverified_header env token = Ok h ->
  Py.if_truthy (kid h) = Some k ->
  find_key (default [] (keys jwks)) k = Some key ->
  jwt_decode env (now w1) token key = Ok claims ->
  token_use claims = Some "access" ->
  exists w', validate_token s env token w = (Ok (Some claims), w').
Proof.
  intros Hj Hh Hk Hf Hd Hu.
  unfold validate_token, try_except, bind, lift, utcnow.
  rewrite Hj, Hh, Hk, Hf. simpl. rewrite Hd.
  apply option_str_eqb_true in Hu. rewrite Hu. simpl. eauto.
Qed.

(** Verification never raises: every exception is turned into [None]. *)
Lemma validate_token_total (token : string) (w : World) :
  exists claims, fst (validate_token s env token w) = Ok claims.
Proof.
  unfold validate_token, try_except, bind, lift, utcnow.
  destruct (get_jwks s env w) as [[jwks|e] w1].
  - destruct (get_unverified_header env token) as [h|e].
    + destruct (Py.if_truthy (kid h)) as [k|]; simpl; [|eauto].
      destruct (find_key (default [] (keys jwks)) k) as [key|]; simpl;
        [|eauto].
      destruct (jwt_decode env (now w1) token key) as [claims|e]; simpl.
      * destruct (option_str_eqb (token_use claims) "access"); simpl; eauto.
      * destruct (is_JWTError e); simpl; eauto.
    + destruct (is_JWTError e); simpl; eauto.
  - destruct (is_JWTError e); simpl; eauto.
Qed.

Lemma validate_token_rejects (token : string) (w : World) :
  wrong_token_use env token \/ unknown_key s env w token ->
  fst (validate_token s env token w) = Ok None.
Proof.
  intros Hbad.
  unfold validate_token, try_except, bind, lift, utcnow.
  destruct (get_jwks s env w) as [[jwks|e] w1] eqn:Hj.
  - destruct (get_unverified_header env token) as [h|e] eqn:Hh.
    + destruct (Py.if_truthy (kid h)) as [k|] eqn:Hk; simpl; [|reflexivity].
      destruct (find_key (default [] (keys jwks)) k) as [key|] eqn:Hf; simpl;
        [|reflexivity].
      destruct (jwt_decode env (now w1) token key) as [claims|e] eqn:Hd; simpl.
      * destruct (option_str_eqb (token_use claims) "access") eqn:Hu; simpl;
          [|reflexivity].
        apply option_str_eqb_true in Hu. destruct Hbad as [Hwrong|Hunknown].
        -- exfalso. exact (Hwrong _ _ _ Hd Hu).
        -- specialize (Hunknown _ _ _ _ Hj Hh Hk). congruence.
      * destruct (is_JWTError e); reflexivity.
    + destruct (is_JWTError e); reflexivity.
  - destruct (is_JWTError e); reflexivity.
Qed.

End TokenVerifier.

(** C5. A token that verifies (its key id names a key of the key set, the
    signature and expiry check pass under that key, and [token_use] is
    ["access"]) yields a principal whose roles are the token's
    [cognito:groups] claim and whose department is the first listed group,
    or ["unknown"] when the claim is absent or empty. *)
Theorem verified_token_principal (s : Config.Settings) (env : Env)
    (authorization : option string) (token : string) (w w1 : World)
    (jwks : Jose.JWKS) (h : Jose.Header) (k : string) (key : Jose.JWK)
    (claims : Jose.Claims) :
  JwtValidator.extract_token authorization = Some token ->
  JwtValidator.get_jwks s env w = (Ok jwks, w1) ->
  get_unverified_header env token = Ok h ->
  Py.if_truthy (Jose.kid h) = Some k ->
  JwtValidator.find_key (default [] (Jose.keys jwks)) k = Some key ->
  jwt_decode env (now w1) token key = Ok claims ->
  Jose.token_use claims = Some "access" ->
  exists principal w',
    ApiGateway.validate_jwt_token s env authorization w = (Ok principal, w')
    /\ JwtValidator.roles principal = default [] (Jose.cognito_groups claims)
    /\ JwtValidator.department principal
       = match Jose.cognito_groups claims with
         | Some (first :: _) => first
         | _ => "unknown"
         end.
Proof.
  intros Hex Hj Hh Hk Hf Hd Hu.
  destruct (extract_token_truthy _ _ Hex) as [[hdr Hauth] Htok].
  destruct (validate_token_accepts s env token w w1 jwks h k key claims
              Hj Hh Hk Hf Hd Hu) as [w' Hv].
  exists (JwtValidator.extract_user_info claims), w'.
  split; [|split].
  - unfold ApiGateway.validate_jwt_token. rewrite Hauth, Htok.
    unfold bind. rewrite Hv. reflexivity.
  - reflexivity.
  - unfold JwtValidator.extract_user_info. simpl.
    destruct (Jose.cognito_groups claims) as [[|first rest]|]; reflexivity.
Qed.

Lemma verified_token_principal_witness :
  exists principal w',
    ApiGateway.validate_jwt_token Fixtures.settings Fixtures.env_idp
      (Some "Bearer t1") Fixtures.world0 = (Ok principal, w')
    /\ JwtValidator.roles principal = ["finance"; "auditor"]
    /\ JwtValidator.department principal = "finance".
Proof.
  eapply (verified_token_principal Fixtures.settings Fixtures.env_idp
            (Some "Bearer t1") "t1" Fixtures.world0 _ Fixtures.jwks1
            {| Jose.kid := Some "k1" |} "k1" Fixtures.key1
            Fixtures.alice_claims); reflexivity.
Defined.

(** C6. A token whose [token_use] is not ["access"], or whose header key id
    has no entry in the key set, is rejected: [validate_token] returns no
    claims, and every data-plane route answers 401. *)
Theorem rejected_token_401 (s : Config.Settings) (env : Env)
    (token : string) (w : World) :
  JwtValidator.wrong_token_use env token
  \/ JwtValidator.unknown_key s env w token ->
  fst (JwtValidator.validate_token s env token w) = Ok None
  /\ forall route request authorization,
       JwtValidator.extract_token authorization = Some token ->
       fst (ApiGateway.serve s env route request authorization w)
       = Raised (HTTPException 401 "Invalid or expired token")
       /\ Http.client_status Http.js_status
            (fst (ApiGateway.serve s env route request authorization w))
          = 401%Z.
Proof.
  intros Hbad. pose proof (validate_token_rejects s env token w Hbad) as Hrej.
  split; [exact Hrej|].
  intros route request authorization Hex.
  destruct (extract_token_truthy _ _ Hex) as [[hdr Hauth] Htok].
  assert (Hserve : fst (ApiGateway.serve s env route request authorization w)
                   = Raised (HTTPException 401 "Invalid or expired token")).
  { unfold ApiGateway.serve, ApiGateway.validate_jwt_token.
    rewrite Hauth, Htok. unfold bind at 1. unfold bind at 1.
    destruct (JwtValidator.validate_token s env token w) as [r w1].
    simpl in Hrej. subst r. reflexivity. }
  rewrite Hserve. split; reflexivity.
Qed.

Lemma rejected_token_401_witness :
  fst (JwtValidator.validate_token Fixtures.settings Fixtures.env_idp "t3"
         Fixtures.world0) = Ok None
  /\ Http.client_status Http.js_status
       (fst (ApiGateway.serve Fixtures.settings Fixtures.env_idp
               ApiGateway.PostProcess Fixtures.request (Some "Bearer t3")
               Fixtures.world0)) = 401%Z.
Proof.
  assert (Hwrong : JwtValidator.wrong_token_use Fixtures.env_idp "t3").
  { intros t key claims. simpl.
    destruct (String.eqb (Jose.jwk_material key) "rsa-public-key-1");
      simpl; intros Hd; inversion Hd; discriminate. }
  destruct (rejected_token_401 Fixtures.settings Fixtures.env_idp "t3"
              Fixtures.world0 (or_introl Hwrong)) as [Hnone Hroutes].
  split; [exact Hnone|].
  apply (Hroutes ApiGateway.PostProcess Fixtures.request (Some "Bearer t3")).
  reflexivity.
Defined.

(** ** Key-set cache *)

Section KeySetCache.

Import Jose JwtValidator.

Variable s : Config.Settings.
Variable env : Env.

Lemma get_jwks_cached (w : World) (jwks : JWKS) :
  _jwks w = Some jwks -> get_jwks s env w = (Ok jwks, w).
Proof. intros Hc. unfold get_jwks. rewrite Hc. reflexivity. Qed.

(** With a key set in the cache, verification makes no outbound call and
    leaves the cache as it is, whatever the token. *)
Lemma validate_token_cached (token : string) (w : World) (jwks : JWKS) :
  _jwks w = Some jwks ->
  _jwks (snd (validate_token s env token w)) = Some jwks
  /\ outbound (snd (validate_token s env token w)) = outbound w.
Proof.
  intros Hc. unfold validate_token, try_except, bind, lift, utcnow.
  rewrite (get_jwks_cached w jwks Hc).
  destruct (get_unverified_header env token) as [h|e].
  - destruct (Py.if_truthy (kid h)) as [k|]; simpl; [|auto].
    destruct (find_key (default [] (keys jwks)) k) as [key|]; simpl; [|auto].
    destruct (jwt_decode env (now w) token key) as [claims|e]; simpl.
    + destruct (option_str_eqb (token_use claims) "access"); simpl; auto.
    + destruct (is_JWTError e); simpl; auto.
  - destruct (is_JWTError e); simpl; auto.
Qed.

(** With an empty cache and a key-set endpoint that answers, verification
    fetches the key set once and caches it, whatever the token. *)
Lemma validate_token_first_use (token : string) (w : World) (jwks : JWKS) :
  _jwks w = None ->
  jwks_endpoint env (length (outbound w)) = Ok jwks ->
  _jwks (snd (validate_token s env token w)) = Some jwks
  /\ outbound (snd (validate_token s env token w))
     = (outbound w ++ [GetJwks (jwks_url s)])%list.
Proof.
  intros Hc Hnet.
  unfold validate_token, try_except, bind, lift, utcnow, get_jwks.
  rewrite Hc. unfold bind, fetch_jwks. rewrite Hnet. simpl.
  destruct (get_unverified_header env token) as [h|e].
  - destruct (Py.if_truthy (kid h)) as [k|]; simpl; [|auto].
    destruct (find_key (default [] (keys jwks)) k) as [key|]; simpl; [|auto].
    destruct (jwt_decode env (now w) token key) as [claims|e]; simpl.
    + destruct (option_str_eqb (token_use claims) "access"); simpl; auto.
    + destruct (is_JWTError e); simpl; auto.
  - destruct (is_JWTError e); simpl; auto.
Qed.

Lemma validate_each_cons (token : string) (rest : list string) (w : World) :
  snd (validate_each s env (token :: rest) w)
  = snd (validate_each s env rest (snd (validate_token s env token w))).
Proof.
  destruct (validate_token_total s env token w) as [claims Hok].
  simpl. unfold bind at 1.
  destruct (validate_token s env token w) as [r w1]. simpl in Hok. subst r.
  simpl. unfold bind at 1.
  destruct (validate_each s env rest w1) as [[cs|e] w2]; reflexivity.
Qed.

Lemma validate_each_cached (tokens : list string) (w : World) (jwks : JWKS) :
  _jwks w = Some jwks ->
  _jwks (snd (validate_each s env tokens w)) = Some jwks
  /\ outbound (snd (validate_each s env tokens w)) = outbound w.
Proof.
  revert w. induction tokens as [|token rest IH]; intros w Hc.
  - simpl. auto.
  - rewrite validate_each_cons.
    destruct (validate_token_cached token w jwks Hc) as [Hc1 Ho1].
    destruct (IH _ Hc1) as [Hc2 Ho2]. split; congruence.
Qed.

End KeySetCache.

(** C9, as amended. The key set is fetched when verification runs with an
    empty cache, not when a key id is missing from the cached set: once a
    key set is cached, no verification fetches again or changes the cache,
    whatever key id the token names; and a process that starts with an
    empty cache and reaches the key-set endpoint makes exactly one fetch,
    during its first verification, however many tokens follow. *)
Theorem key_set_fetched_once_lazily (s : Config.Settings) (env : Env)
    (jwks : Jose.JWKS) :
  (forall w token,
     _jwks w = Some jwks ->
     _jwks (snd (JwtValidator.validate_token s env token w)) = Some jwks
     /\ outbound (snd (JwtValidator.validate_token s env token w))
        = outbound w)
  /\ (forall w token rest,
        _jwks w = None ->
        jwks_endpoint env (length (outbound w)) = Ok jwks ->
        _jwks (snd (JwtValidator.validate_each s env (token :: rest) w))
        = Some jwks
        /\ outbound (snd (JwtValidator.validate_each s env (token :: rest) w))
           = (outbound w ++ [GetJwks (JwtValidator.jwks_url s)])%list).
Proof.
  split.
  - intros w token Hc. apply validate_token_cached. exact Hc.
  - intros w token rest Hc Hnet. rewrite validate_each_cons.
    destruct (validate_token_first_use s env token w jwks Hc Hnet)
      as [Hc1 Ho1].
    destruct (validate_each_cached s env rest _ jwks Hc1) as [Hc2 Ho2].
    split; congruence.
Qed.

Lemma key_set_fetched_once_lazily_witness :
  outbound (snd (JwtValidator.validate_each Fixtures.settings
                   Fixtures.env_idp ["t1"; "t2"; "t2"] Fixtures.world0))
  = [GetJwks (JwtValidator.jwks_url Fixtures.settings)].
Proof.
  apply (key_set_fetched_once_lazily Fixtures.settings Fixtures.env_idp
           Fixtures.jwks1); reflexivity.
Defined.

(** C9, the claim as stated, fails. After a first token whose key is in the
    set (one fetch, on first use), a token naming the unknown key [k2] is
    the first miss: it is rejected without any further fetch, and the cache
    is unchanged. *)
Lemma no_refresh_on_first_miss :
  let w1 := snd (JwtValidator.validate_token Fixtures.settings
                   Fixtures.env_idp "t1" Fixtures.world0) in
  let r2 := JwtValidator.validate_token Fixtures.settings Fixtures.env_idp
              "t2" w1 in
  JwtValidator.jwks_fetches w1 = 1
  /\ fst r2 = Ok None
  /\ JwtValidator.jwks_fetches (snd r2) = 1
  /\ _jwks (snd r2) = _jwks w1
  /\ ~ Stated.refreshed_on_first_miss.
Proof.
  cbv zeta. repeat split; try reflexivity.
  intros Hclaim.
  specialize (Hclaim Fixtures.settings Fixtures.env_idp
    (snd (JwtValidator.validate_token Fixtures.settings Fixtures.env_idp
            "t1" Fixtures.world0))
    "t2" Fixtures.jwks1 {| Jose.kid := Some "k2" |} "k2"
    eq_refl eq_refl eq_refl eq_refl).
  assert (Hfresh : JwtValidator.no_miss_yet
            (snd (JwtValidator.validate_token Fixtures.settings
                    Fixtures.env_idp "t1" Fixtures.world0))).
  { intros k Hin. vm_compute in Hin.
    repeat (apply elem_of_cons in Hin as [Hin|Hin]; [discriminate|]).
    inversion Hin. }
  specialize (Hclaim Hfresh). vm_compute in Hclaim. discriminate.
Qed.

(** ** Control-plane authorization *)

Section ControlPlane.

Import Http Models McpGateway.

Variable s : Config.Settings.
Variable rbac_engine : Rbac.RBACEngine.
Variable env : Env.

Lemma str_in_spec (x : string) (xs : list string) :
  Py.str_in x xs = true <-> x ∈ xs.
Proof.
  induction xs as [|y ys IH]; simpl.
  - split; [discriminate|]. intros H. inversion H.
  - destruct (String.eqb x y) eqn:E.
    + apply String.eqb_eq in E. subst. split; [intros _; left|reflexivity].
    + apply String.eqb_neq in E. rewrite IH. rewrite elem_of_cons.
      split; [auto|]. intros [Heq|Hin]; [contradiction|exact Hin].
Qed.

(** A service token that passes validation leaves the state untouched. *)
Lemma validate_service_token_ok (x_service_token : option string)
    (w w1 : World) (info : ServiceInfo) :
  validate_service_token s x_service_token w = (Ok info, w1) -> w1 = w.
Proof.
  unfold validate_service_token, bind, logger, raise.
  destruct (Py.if_truthy x_service_token) as [token|]; [|discriminate].
  destruct (Py.if_truthy (Config.service_token s)) as [expected|].
  - destruct (String.eqb token expected); simpl; [|discriminate].
    intros H. inversion H. reflexivity.
  - intros H. inversion H. reflexivity.
Qed.

(** Every resource the department table names is a non-empty string. *)
Lemma map_department_to_server_truthy (department resource : string) :
  Rbac.map_department_to_server department = Some resource ->
  Py.if_truthy (Rbac.map_department_to_server department) = Some resource.
Proof.
  intros Hmap. rewrite Hmap. apply if_truthy_some.
  unfold Rbac.map_department_to_server in Hmap.
  repeat (apply lookup_insert_Some in Hmap as [[_ <-]|[_ Hmap]];
          [discriminate|]).
  rewrite lookup_empty in Hmap. discriminate.
Qed.

(** The retry loop around one outbound call starts by making that call. *)
Lemma retry_from_sends (call : Outbound) {A} (g : Z * option Json -> A)
    (further attempt_number : nat) (w : World) :
  exists more,
    outbound (snd (Resilience.retry_from further attempt_number
                     (let! r := send env call in ret (g r)) w))
    = (outbound w ++ call :: more)%list.
Proof.
  revert attempt_number w.
  induction further as [|further IH]; intros attempt_number w.
  - simpl. unfold try_except, bind at 1, send.
    destruct (upstream env (length (outbound w)) call) as [dt st body|dt e].
    + exists []. reflexivity.
    + exists []. destruct (Resilience.stop_after_attempt attempt_number);
        reflexivity.
  - simpl. unfold try_except, bind at 1, send.
    destruct (upstream env (length (outbound w)) call) as [dt st body|dt e].
    + exists []. reflexivity.
    + destruct (Resilience.stop_after_attempt attempt_number).
      * exists []. reflexivity.
      * unfold bind at 1, sleep.
        match goal with
        | |- context [Resilience.retry_from further ?n ?f ?w0] =>
            destruct (IH n w0) as [more Hmore];
            assert (Hm : outbound (snd (Resilience.retry_from further n f w0))
                         = (outbound w0 ++ call :: more)%list)
              by exact Hmore;
            destruct (Resilience.retry_from further n f w0) as [r' w']
        end.
        exists (call :: more). simpl in Hm. simpl. rewrite Hm.
        rewrite <- app_assoc. reflexivity.
Qed.

(** With its circuit not open, the forwarder makes the outbound call. *)
Lemma forward_to_mcp_server_sends (server_url : string)
    (mcp_request : MCPRequest) (w : World) :
  Resilience.opened (mcp_circuit w) (now w) = false ->
  exists more,
    outbound (snd (forward_to_mcp_server env server_url mcp_request w))
    = (outbound w ++ PostMcp server_url mcp_request :: more)%list.
Proof.
  intros Hclosed. unfold forward_to_mcp_server, Resilience.circuit.
  simpl. rewrite Hclosed. unfold Resilience.retry.
  destruct (retry_from_sends (PostMcp server_url mcp_request)
              (fun r => {| Http.status_code := fst r; json_body := snd r |})
              2 1 w) as [more Hmore].
  exists more.
  match goal with
  | |- context [Resilience.retry_from 2 1 ?f w] =>
      destruct (Resilience.retry_from 2 1 f w) as [[resp|e] w2]
  end; simpl in *; exact Hmore.
Qed.

End ControlPlane.

(** C3. With RBAC and department isolation enabled and a non-empty
    [X-User-Roles] header, an authenticated control-plane request whose
    declared roles hold ["read"] on the resolved resource, but none of which
    equals the declared department up to case, is not forwarded: the handler
    raises 403 and emits one audit entry with status 403 and reason
    ["Department isolation violation"]. *)
Theorem department_isolation_enforced (s : Config.Settings)
    (rbac_engine : Rbac.RBACEngine) (env : Env) (request : Http.Request)
    (mcp_request : Models.MCPRequest) (x_service_token : option string)
    (header department resource : string) (info : McpGateway.ServiceInfo)
    (w w1 : World) :
  Config.rbac_enabled s = true ->
  Config.department_isolation s = true ->
  McpGateway.validate_service_token s x_service_token w = (Ok info, w1) ->
  header <> "" ->
  McpGateway.extract_department_from_request mcp_request = Some department ->
  Rbac.map_department_to_server department = Some resource ->
  Rbac.check_permission rbac_engine (McpGateway.parse_roles header)
    resource "read" = true ->
  (forall role, role ∈ McpGateway.parse_roles header ->
                Py.lower role <> Py.lower department) ->
  exists entry,
    McpGateway.route_mcp_request s rbac_engine env request mcp_request
      x_service_token (Some header) w
    = (Raised (HTTPException 403 "Access denied: department isolation"),
       set_log (log w ++ [Audit WARNING "MCP Gateway: " entry]) w)
    /\ Models.status_code entry = 403%Z
    /\ Models.error entry = Some "Department isolation violation"
    /\ Models.department entry = Some department.
Proof.
  intros Hrbac Hiso Htok Hhdr Hdept Hmap Hperm Habsent.
  pose proof (validate_service_token_ok s _ _ _ _ Htok) as ->.
  assert (Hin : Py.str_in (Py.lower department)
                  (map Py.lower (McpGateway.parse_roles header)) = false).
  { destruct (Py.str_in _ _) eqn:E; [|reflexivity].
    apply str_in_spec in E. apply list_elem_of_fmap in E as (role & Heq & Hr).
    exfalso. apply (Habsent role Hr). symmetry. exact Heq. }
  eexists. split.
  - unfold McpGateway.route_mcp_request. unfold bind at 1. rewrite Htok.
    rewrite Hdept, Hrbac, Hiso, (if_truthy_some header Hhdr).
    rewrite (map_department_to_server_truthy _ _ Hmap), Hperm, Hin.
    reflexivity.
  - simpl. auto.
Qed.

Lemma department_isolation_enforced_witness :
  exists entry,
    McpGateway.route_mcp_request Fixtures.settings Fixtures.engine
      Fixtures.env_up Fixtures.request (Fixtures.tools_list "finance")
      (Some "svc-token") (Some "auditor, HR") Fixtures.world0
    = (Raised (HTTPException 403 "Access denied: department isolation"),
       set_log (log Fixtures.world0 ++ [Audit WARNING "MCP Gateway: " entry])
         Fixtures.world0)
    /\ Models.status_code entry = 403%Z
    /\ Models.error entry = Some "Department isolation violation"
    /\ Models.department entry = Some "finance".
Proof.
  apply (department_isolation_enforced Fixtures.settings Fixtures.engine
           Fixtures.env_up Fixtures.request (Fixtures.tools_list "finance")
           (Some "svc-token") "auditor, HR" "finance" "mcp-finance-server"
           {| McpGateway.si_service_name := "application";
              McpGateway.si_department := None |}
           Fixtures.world0 Fixtures.world0);
    try reflexivity.
  - discriminate.
  - intros role Hrole. vm_compute in Hrole.
    apply elem_of_cons in Hrole as [->|Hrole]; [discriminate|].
    apply elem_of_cons in Hrole as [->|Hrole]; [discriminate|].
    inversion Hrole.
Defined.

(** C2, the claim as stated, fails. A [POST /mcp] request with a service
    token, department ["finance"] and no [X-User-Roles] header is forwarded
    to the finance server and answered 200. *)
Lemma request_without_roles_is_forwarded :
  let r := McpGateway.route_mcp_request Fixtures.settings Fixtures.engine
             Fixtures.env_up Fixtures.request (Fixtures.tools_list "finance")
             (Some "svc-token") None Fixtures.world0 in
  fst r = Ok {| Http.content := "{}"; Http.js_status := 200 |}
  /\ outbound (snd r)
     = [PostMcp "http://mcp-finance-service.local:8080"
          (Fixtures.tools_list "finance")]
  /\ ~ Stated.roles_header_required.
Proof.
  cbv zeta. split; [reflexivity|]. split; [reflexivity|].
  intros Hclaim.
  specialize (Hclaim Fixtures.settings Fixtures.engine Fixtures.env_up
                Fixtures.request (Fixtures.tools_list "finance")
                (Some "svc-token") Fixtures.world0).
  vm_compute in Hclaim. discriminate.
Qed.

(** C2, as amended. A [POST /mcp] request that omits [X-User-Roles] skips
    both the RBAC check and the department-isolation check: with a valid
    service token, a declared department that has a configured upstream
    and the forwarder's circuit not open, it is forwarded to that
    upstream. *)
Theorem request_without_roles_forwarded (s : Config.Settings)
    (rbac_engine : Rbac.RBACEngine) (env : Env) (request : Http.Request)
    (mcp_request : Models.MCPRequest) (x_service_token : option string)
    (department server_url : string) (info : McpGateway.ServiceInfo)
    (w w1 : World) :
  McpGateway.validate_service_token s x_service_token w = (Ok info, w1) ->
  McpGateway.extract_department_from_request mcp_request = Some department ->
  McpGateway.get_mcp_server_url s department = Some server_url ->
  server_url <> "" ->
  Resilience.opened (mcp_circuit w) (now w) = false ->
  exists more,
    outbound (snd (McpGateway.route_mcp_request s rbac_engine env request
                     mcp_request x_service_token None w))
    = (outbound w ++ PostMcp server_url mcp_request :: more)%list.
Proof.
  intros Htok Hdept Hurl Hne Hclosed.
  pose proof (validate_service_token_ok s _ _ _ _ Htok) as ->.
  destruct (forward_to_mcp_server_sends env server_url mcp_request w Hclosed)
    as [more Hmore].
  exists more.
  unfold McpGateway.route_mcp_request. unfold bind at 1. rewrite Htok.
  rewrite Hdept. simpl Py.if_truthy.
  rewrite Hurl, (if_truthy_some server_url Hne).
  destruct (Config.rbac_enabled s), (Config.department_isolation s);
    (unfold bind at 1; unfold ret at 1; unfold bind at 1; unfold ret at 1;
     unfold try_except; unfold bind at 1;
     destruct (McpGateway.forward_to_mcp_server env server_url mcp_request w)
       as [[resp|e] w2]; simpl in Hmore;
     [ unfold Http.response_json;
       destruct (Http.json_body resp) as [[text|reason]|]; simpl;
       exact Hmore
     | destruct (is_httpx_HTTPError e); simpl; exact Hmore ]).
Qed.

Lemma request_without_roles_forwarded_witness :
  exists more,
    outbound (snd (McpGateway.route_mcp_request Fixtures.settings
                     Fixtures.engine Fixtures.env_down Fixtures.request
                     (Fixtures.tools_list "HR") (Some "svc-token") None
                     Fixtures.world0))
    = (outbound Fixtures.world0
         ++ PostMcp "http://mcp-hr-service.local:8080"
              (Fixtures.tools_list "HR") :: more)%list.
Proof.
  apply (request_without_roles_forwarded Fixtures.settings Fixtures.engine
           Fixtures.env_down Fixtures.request (Fixtures.tools_list "HR")
           (Some "svc-token") "HR" "http://mcp-hr-service.local:8080"
           {| McpGateway.si_service_name := "application";
              McpGateway.si_department := None |}
           Fixtures.world0 Fixtures.world0);
    try reflexivity.
  discriminate.
Defined.

(** ** Audit trail *)

Section AuditRules.

Import AuditTrail.

Lemma audits_set_log_message (w : World) (lvl : Level) (text : string) :
  audits (set_log (log w ++ [Message lvl text]) w) = audits w.
Proof.
  unfold audits, audit_entries. simpl.
  rewrite List.filter_app. simpl. rewrite app_nil_r. reflexivity.
Qed.

Lemma audits_set_log_audit (w : World) (lvl : Level) (prefix : string)
    (entry : Models.AuditLog) :
  audits (set_log (log w ++ [Audit lvl prefix entry]) w) = audits w + 1.
Proof.
  unfold audits, audit_entries. simpl.
  rewrite List.filter_app. simpl. rewrite length_app. reflexivity.
Qed.

Lemma emits_ret {A} (a : A) (Q : Result A -> nat -> Prop) :
  Q (Ok a) 0 -> emits (ret a) Q.
Proof. intros HQ w. exists 0. simpl. split; [lia|exact HQ]. Qed.

Lemma emits_raise {A} (e : exn) (Q : Result A -> nat -> Prop) :
  Q (Raised e) 0 -> emits (raise e) Q.
Proof. intros HQ w. exists 0. simpl. split; [lia|exact HQ]. Qed.

Lemma emits_lift {A} (r : Result A) (Q : Result A -> nat -> Prop) :
  Q r 0 -> emits (lift r) Q.
Proof. intros HQ w. exists 0. simpl. split; [lia|exact HQ]. Qed.

Lemma emits_utcnow (Q : Result Z -> nat -> Prop) :
  (forall t, Q (Ok t) 0) -> emits utcnow Q.
Proof. intros HQ w. exists 0. simpl. split; [lia|apply HQ]. Qed.

Lemma emits_sleep (seconds : Z) (Q : Result unit -> nat -> Prop) :
  Q (Ok tt) 0 -> emits (sleep seconds) Q.
Proof. intros HQ w. exists 0. simpl. split; [unfold audits; simpl; lia|exact HQ]. Qed.

Lemma emits_logger (lvl : Level) (text : string)
    (Q : Result unit -> nat -> Prop) :
  Q (Ok tt) 0 -> emits (logger lvl text) Q.
Proof.
  intros HQ w. exists 0. simpl.
  rewrite audits_set_log_message. split; [lia|exact HQ].
Qed.

Lemma emits_logger_audit (lvl : Level) (prefix : string)
    (entry : Models.AuditLog) (Q : Result unit -> nat -> Prop) :
  Q (Ok tt) 1 -> emits (logger_audit lvl prefix entry) Q.
Proof.
  intros HQ w. exists 1. simpl.
  rewrite audits_set_log_audit. split; [lia|exact HQ].
Qed.

Lemma emits_bind {A B} (m : M A) (k : A -> M B)
    (Q : Result B -> nat -> Prop) :
  emits m (fun r n =>
             match r with
             | Ok a => emits (k a) (fun r' n' => Q r' (n + n'))
             | Raised e => Q (Raised e) n
             end) ->
  emits (bind m k) Q.
Proof.
  intros Hm w. destruct (Hm w) as (n & Hn & HQ). unfold bind.
  destruct (m w) as [[a|e] w1]; simpl in *.
  - destruct (HQ w1) as (n' & Hn' & HQ').
    exists (n + n'). split; [lia|exact HQ'].
  - exists n. split; [exact Hn|exact HQ].
Qed.

Lemma emits_try {A} (m : M A) (handler : exn -> M A)
    (Q : Result A -> nat -> Prop) :
  emits m (fun r n =>
             match r with
             | Ok a => Q (Ok a) n
             | Raised e => emits (handler e) (fun r' n' => Q r' (n + n'))
             end) ->
  emits (try_except m handler) Q.
Proof.
  intros Hm w. destruct (Hm w) as (n & Hn & HQ). unfold try_except.
  destruct (m w) as [[a|e] w1]; simpl in *.
  - exists n. split; [exact Hn|exact HQ].
  - destruct (HQ w1) as (n' & Hn' & HQ').
    exists (n + n'). split; [lia|exact HQ'].
Qed.

Lemma emits_conseq {A} (m : M A) (Q Q' : Result A -> nat -> Prop) :
  emits m Q -> (forall r n, Q r n -> Q' r n) -> emits m Q'.
Proof.
  intros Hm Himp w. destruct (Hm w) as (n & Hn & HQ).
  exists n. split; [exact Hn|apply Himp; exact HQ].
Qed.

(** Whatever the retry loop raises is a [RetryError]. *)
Lemma guarded_retry_from {A} (P : A -> Prop) (f : M A)
    (further attempt_number : nat) :
  silent P f -> guarded P (Resilience.retry_from further attempt_number f).
Proof.
  intros Hf. revert attempt_number.
  induction further as [|further IH]; intros attempt_number; simpl;
    apply emits_try; (eapply emits_conseq; [exact Hf|]);
    intros [a|e] n [-> HP]; simpl; auto;
    destruct (Resilience.stop_after_attempt attempt_number);
    try (apply emits_raise; simpl; auto).
  apply emits_bind, emits_sleep.
  eapply emits_conseq; [apply IH|]. intros r n [-> HP']. auto.
Qed.

(** An open circuit raises [CircuitBreakerError]. *)
Lemma guarded_circuit {A} (P : A -> Prop) (c : Resilience.CircuitRef)
    (f : M A) :
  (forall cb w, log (Resilience.write c cb w) = log w) ->
  guarded P f -> guarded P (Resilience.circuit c f).
Proof.
  intros Hlog Hf w. unfold Resilience.circuit.
  destruct (Resilience.opened _ _).
  - exists 0. simpl. split; [lia|auto].
  - destruct (Hf w) as (n & Hn & -> & HP).
    destruct (f w) as [[a|e] w1]; simpl in *;
      exists 0; unfold audits in *; rewrite Hlog; auto.
Qed.

Lemma silent_send (env : Env) (call : Outbound)
    (P : Z * option Json -> Prop) :
  (forall n dt st body,
     upstream env n call = Responds dt st body -> P (st, body)) ->
  silent P (send env call).
Proof.
  intros Hanswers w. exists 0. unfold send.
  destruct (upstream env (length (outbound w)) call) as [dt st body|dt e] eqn:E;
    simpl; (split; [unfold audits; simpl; lia|]); split; auto.
  exact (Hanswers _ _ _ _ E).
Qed.

End AuditRules.

Import AuditTrail.

(** One step of a proof of [emits], chosen by the shape of the computation. *)
Ltac emits_step :=
  lazymatch goal with
  | |- emits (bind _ _) _ => apply emits_bind
  | |- emits (ret _) _ => apply emits_ret
  | |- emits (raise _) _ => apply emits_raise
  | |- emits (lift _) _ => apply emits_lift
  | |- emits (logger _ _) _ => apply emits_logger
  | |- emits (logger_audit _ _ _) _ => apply emits_logger_audit
  | |- emits utcnow _ => apply emits_utcnow; intros ?
  | |- emits (try_except _ _) _ => apply emits_try
  | |- emits (match ?x with _ => _ end) _ => destruct x eqn:?
  | |- match ?x with _ => _ end => destruct x eqn:?
  end.

Ltac emits_auto := repeat (emits_step; cbv beta iota).

Section AuditTrailOfHandlers.

Import AuditTrail Http.

Variable s : Config.Settings.
Variable env : Env.

(** What is known of the upstream's answers: [P] holds of each. *)
Variable P : Response -> Prop.
Hypothesis Hanswers :
  forall n call dt st body,
    upstream env n call = Responds dt st body ->
    P {| status_code := st; json_body := body |}.

Lemma guarded_forward_to_mcp_server (server_url : string)
    (mcp_request : Models.MCPRequest) :
  guarded P (McpGateway.forward_to_mcp_server env server_url mcp_request).
Proof.
  unfold McpGateway.forward_to_mcp_server, Resilience.retry.
  apply guarded_circuit; [reflexivity|]. apply guarded_retry_from.
  apply emits_bind.
  eapply emits_conseq;
    [apply (silent_send env _
              (fun r => P {| status_code := fst r; json_body := snd r |}));
     intros n dt st body E; exact (Hanswers _ _ _ _ _ E)|].
  intros [[st body]|e] n [-> Hbody]; simpl in *; [|auto].
  apply emits_ret. simpl. auto.
Qed.

Lemma guarded_forward_to_application (method path : string)
    (headers : list (string * string)) (body : option string) :
  guarded P
    (ApiGateway.forward_to_application s env method path headers body).
Proof.
  unfold ApiGateway.forward_to_application, Resilience.retry.
  apply guarded_circuit; [reflexivity|]. apply guarded_retry_from.
  cbv zeta. destruct (encodable headers).
  - apply emits_bind.
    eapply emits_conseq;
      [apply (silent_send env _
                (fun r => P {| status_code := fst r; json_body := snd r |}));
       intros n dt st json E; exact (Hanswers _ _ _ _ _ E)|].
    intros [[st json]|e] n [-> Hbody]; simpl in *; [|auto].
    apply emits_ret. simpl. auto.
  - apply emits_raise. simpl. auto.
Qed.

Lemma silent_get_jwks : silent (fun _ => True) (JwtValidator.get_jwks s env).
Proof.
  intros w. exists 0. unfold JwtValidator.get_jwks.
  destruct (_jwks w) as [cached|]; simpl.
  - split; [lia|]. split; simpl; auto.
  - unfold bind, JwtValidator.fetch_jwks. simpl.
    destruct (jwks_endpoint env (length (outbound w))) as [fetched|e]; simpl.
    + unfold audits. simpl. unfold audit_entries.
      rewrite List.filter_app. simpl. rewrite app_nil_r.
      split; [lia|]. split; simpl; auto.
    + unfold audits. simpl. split; [lia|]. split; simpl; auto.
Qed.

(** Verification logs messages only, and always returns. *)
Lemma validate_token_emits (token : string) :
  emits (JwtValidator.validate_token s env token)
    (fun r n => n = 0 /\ exists claims, r = Ok claims).
Proof.
  unfold JwtValidator.validate_token.
  apply emits_try, emits_bind.
  eapply emits_conseq; [apply silent_get_jwks|].
  intros [jwks|e] n [-> _]; cbv beta iota.
  - emits_auto; simpl; eauto.
  - emits_auto; simpl; eauto.
Qed.

Lemma validate_jwt_token_emits (authorization : option string) :
  emits (ApiGateway.validate_jwt_token s env authorization)
    (fun r n => n = 0
                /\ match r with
                   | Ok _ => True
                   | Raised e => exists detail, e = HTTPException 401 detail
                   end).
Proof.
  unfold ApiGateway.validate_jwt_token.
  destruct (Py.if_truthy authorization) as [hdr|];
    [|emits_auto; simpl; eauto].
  destruct (Py.if_truthy (JwtValidator.extract_token authorization))
    as [token|]; [|emits_auto; simpl; eauto].
  apply emits_bind. eapply emits_conseq; [apply validate_token_emits|].
  intros r n [-> [claims ->]]. cbv beta iota.
  destruct claims as [claims|]; emits_auto; simpl; eauto.
Qed.


Lemma create_mcp_audit_log_emits (info : McpGateway.ServiceInfo)
    (request : Request) (mcp_request : Models.MCPRequest) (status : Z)
    (department error : option string) :
  emits (McpGateway.create_mcp_audit_log info request mcp_request status
           department error)
    (fun r n => n = 0 /\ exists entry, r = Ok entry).
Proof.
  unfold McpGateway.create_mcp_audit_log. emits_auto; simpl; eauto.
Qed.

Lemma create_audit_log_emits (user_info : JwtValidator.UserInfo)
    (request : Request) (status : Z) (error : option string) :
  emits (ApiGateway.create_audit_log user_info request status error)
    (fun r n => n = 0 /\ exists entry, r = Ok entry).
Proof.
  unfold ApiGateway.create_audit_log. emits_auto; simpl; eauto.
Qed.






End AuditTrailOfHandlers.


Lemma json_peers_serialisable (env : Env) :
  json_peers env ->
  forall n call dt st body,
    upstream env n call = Responds dt st body ->
    Http.serialisable {| Http.status_code := st; Http.json_body := body |}.
Proof. intros Hjson n call dt st body E. exact (Hjson _ _ _ _ _ E). Qed.

Lemma json_peers_env_up : json_peers Fixtures.env_up.
Proof.
  intros n call dt st body H. simpl in H. injection H as _ _ <-. eauto.
Qed.




(** ** Forwarding failures *)

(** C4, at the failing input. The legal upstream times out on every
    attempt. The first request makes three attempts and is answered 500,
    not 502: the retry wrapper raises [RetryError], which is not an
    [httpx.HTTPError]. After five such requests the circuit is open; a
    sixth request, still inside the 60-second window, makes no outbound
    attempt and is answered 500 as well, [CircuitBreakerError] not being an
    [httpx.HTTPError] either. *)
Theorem upstream_failure_answered_500 :
  let post := McpGateway.route_mcp_request Fixtures.settings Fixtures.engine
                Fixtures.env_down Fixtures.request
                (Fixtures.tools_list "legal") (Some "svc-token") None in
  let r1 := post Fixtures.world0 in
  let w5 := snd (post (snd (post (snd (post (snd (post (snd r1)))))))) in
  let r6 := post w5 in
  (fst r1 = Raised (HTTPException 500 "Internal server error")
   /\ length (outbound (snd r1)) = 3)
  /\ (_state (mcp_circuit w5) = STATE_OPEN
      /\ _failure_count (mcp_circuit w5) = 5
      /\ Resilience.open_remaining (mcp_circuit w5) (now w5) = 60%Z)
  /\ (fst r6 = Raised (HTTPException 500 "Internal server error")
      /\ Http.client_status Http.js_status (fst r6) = 500%Z
      /\ outbound (snd r6) = outbound w5
      /\ length (outbound w5) = 15).
Proof. vm_compute. repeat split; reflexivity. Qed.

(** * Further properties of the gateway code *)

(** ** Bearer tokens *)

Section Bearer.

Import Jose JwtValidator Text.

Lemma split_one_field (text : string) :
  text <> "" -> has_space text = false -> Py.split text = [text].
Proof.
  induction text as [|c rest IH]; intros Hne Hsp; [contradiction|].
  simpl in Hsp. apply orb_false_elim in Hsp as [Hc Hrest].
  rewrite split_unfold, Hc. destruct rest as [|c' rest']; [reflexivity|].
  assert (Hc' : Py.isspace c' = false).
  { simpl in Hrest. apply orb_false_elim in Hrest as [H _]. exact H. }
  rewrite Hc', IH; [reflexivity|discriminate|exact Hrest].
Qed.

Lemma append_cons (x : ascii) (a b : string) :
  String x a +:+ b = String x (a +:+ b).
Proof. reflexivity. Qed.

Lemma append_empty (b : string) : "" +:+ b = b.
Proof. reflexivity. Qed.

Lemma split_field_then_space (field : string) (c : ascii) (rest : string) :
  field <> "" -> has_space field = false -> Py.isspace c = true ->
  Py.split (field +:+ String c rest) = field :: Py.split rest.
Proof.
  induction field as [|x field' IH]; intros Hne Hsp Hc; [contradiction|].
  simpl in Hsp. apply orb_false_elim in Hsp as [Hx Hfield'].
  rewrite append_cons, split_unfold, Hx.
  destruct field' as [|y field''].
  - rewrite append_empty, Hc, split_unfold, Hc. reflexivity.
  - assert (Hy : Py.isspace y = false).
    { simpl in Hfield'. apply orb_false_elim in Hfield' as [H _]. exact H. }
    rewrite IH; [|discriminate|exact Hfield'|exact Hc].
    rewrite append_cons, Hy. reflexivity.
Qed.

(** No field of [s.split()] contains white space. *)
Lemma split_fields_no_space (text field : string) :
  field ∈ Py.split text -> has_space field = false.
Proof.
  revert field. induction text as [|c rest IH]; intros field Hin.
  - inversion Hin.
  - rewrite split_unfold in Hin. destruct (Py.isspace c) eqn:Hc.
    + apply IH. exact Hin.
    + destruct rest as [|c' rest'].
      * apply list_elem_of_singleton in Hin. subst. simpl. rewrite Hc.
        reflexivity.
      * destruct (Py.isspace c') eqn:Hc'.
        -- apply elem_of_cons in Hin as [->|Hin].
           ++ simpl. rewrite Hc. reflexivity.
           ++ apply IH. exact Hin.
        -- destruct (Py.split (String c' rest')) as [|w ws] eqn:Hsplit.
           ++ apply list_elem_of_singleton in Hin. subst. simpl. rewrite Hc.
              reflexivity.
           ++ apply elem_of_cons in Hin as [->|Hin].
              ** simpl. rewrite Hc. simpl. apply IH. left.
              ** apply IH. right. exact Hin.
Qed.

(** Lowering a character neither makes nor removes white space. *)
Lemma isspace_lower_char (c : ascii) :
  Py.isspace (Py.lower_char c) = Py.isspace c.
Proof.
  destruct c as [[] [] [] [] [] [] [] []]; vm_compute; reflexivity.
Qed.

Lemma has_space_lower (text : string) :
  has_space (Py.lower text) = has_space text.
Proof.
  induction text as [|c rest IH]; simpl; [reflexivity|].
  rewrite isspace_lower_char, IH. reflexivity.
Qed.

Lemma lower_empty (text : string) : Py.lower text = "" -> text = "".
Proof. destruct text; [reflexivity|discriminate]. Qed.

End Bearer.

(** X1. The header a client builds as [scheme + " " + token], with the
    scheme spelling "bearer" in any letter case and a non-empty token free
    of white space, gives back exactly that token. *)
Theorem bearer_header_round_trip (scheme token : string) :
  Py.lower scheme = "bearer" ->
  token <> "" ->
  Text.has_space token = false ->
  JwtValidator.extract_token (Some (scheme +:+ " " +:+ token)) = Some token.
Proof.
  intros Hscheme Hne Hsp.
  assert (Hs_sp : Text.has_space scheme = false).
  { rewrite <- has_space_lower, Hscheme. reflexivity. }
  assert (Hs_ne : scheme <> "").
  { intros ->. discriminate. }
  unfold JwtValidator.extract_token.
  rewrite if_truthy_some.
  - change (" " +:+ token) with (String " "%char token).
    rewrite split_field_then_space by (auto; reflexivity).
    rewrite split_one_field by assumption.
    rewrite Hscheme. reflexivity.
  - destruct scheme; [contradiction|discriminate].
Qed.

Lemma bearer_header_round_trip_witness :
  JwtValidator.extract_token (Some ("BeArEr" +:+ " " +:+ "eyJhbGciOi.x.y"))
  = Some "eyJhbGciOi.x.y".
Proof.
  apply (bearer_header_round_trip "BeArEr" "eyJhbGciOi.x.y").
  - reflexivity.
  - discriminate.
  - reflexivity.
Defined.

(** X2. [extract_token] yields a token only from a header of exactly two
    white-space separated fields whose first spells "bearer" in any letter
    case; the token it yields is never empty and contains no white
    space. *)
Theorem extract_token_sound (authorization : option string)
    (token : string) :
  JwtValidator.extract_token authorization = Some token ->
  exists header scheme,
    authorization = Some header
    /\ Py.split header = [scheme; token]
    /\ Py.lower scheme = "bearer"
    /\ token <> ""
    /\ Text.has_space token = false.
Proof.
  intros Hex. unfold JwtValidator.extract_token in Hex.
  destruct authorization as [header|]; [|discriminate].
  simpl in Hex. destruct (String.eqb header ""); [discriminate|].
  destruct (Py.split header) as [|scheme [|tok [|]]] eqn:Hsplit;
    try discriminate.
  destruct (String.eqb (Py.lower scheme) "bearer") eqn:Hb; [|discriminate].
  injection Hex as <-. apply String.eqb_eq in Hb.
  exists header, scheme. repeat split; try assumption.
  - apply (split_fields_nonempty header). rewrite Hsplit. right. left.
  - apply (split_fields_no_space header). rewrite Hsplit. right. left.
Qed.

Lemma extract_token_sound_witness :
  exists header scheme,
    Some "bearer   abc.def  " = Some header
    /\ Py.split header = [scheme; "abc.def"]
    /\ Py.lower scheme = "bearer"
    /\ "abc.def" <> ""
    /\ Text.has_space "abc.def" = false.
Proof.
  apply (extract_token_sound (Some "bearer   abc.def  ") "abc.def").
  reflexivity.
Defined.

(** ** Token verification, further *)

Lemma find_key_spec (jwk_keys : list Jose.JWK) (kid : string)
    (key : Jose.JWK) :
  JwtValidator.find_key jwk_keys kid = Some key ->
  key ∈ jwk_keys /\ Jose.jwk_kid key = Some kid.
Proof.
  induction jwk_keys as [|k rest IH]; simpl; [discriminate|].
  destruct (Jose.jwk_kid k) as [k'|] eqn:Hk.
  - destruct (String.eqb k' kid) eqn:E.
    + intros H. injection H as <-. apply String.eqb_eq in E. subst.
      split; [left|exact Hk].
    + intros H. destruct (IH H). split; [right|]; assumption.
  - intros H. destruct (IH H). split; [right|]; assumption.
Qed.

(** X3. A data-plane request whose [Authorization] header is absent, empty
    or not of the form [Bearer <token>] is answered 401 on every route, and
    nothing else happens: one warning is logged, no key set is fetched, no
    request is forwarded and no audit entry is written. *)
Theorem malformed_authorization_rejected (s : Config.Settings) (env : Env)
    (route : ApiGateway.Route) (request : Http.Request)
    (authorization : option string) (w : World) :
  JwtValidator.extract_token authorization = None ->
  exists detail,
    ApiGateway.serve s env route request authorization w
    = (Raised (HTTPException 401 detail),
       set_log (log w ++ [Message WARNING detail]) w)
    /\ detail = match Py.if_truthy authorization with
                | None => "Missing Authorization header"
                | Some _ => "Invalid Authorization header format"
                end.
Proof.
  intros Hex. unfold ApiGateway.serve, ApiGateway.validate_jwt_token.
  rewrite Hex. simpl (Py.if_truthy None).
  destruct (Py.if_truthy authorization) as [hdr|]; eexists; split;
    reflexivity.
Qed.

Lemma malformed_authorization_rejected_witness :
  exists detail,
    ApiGateway.serve Fixtures.settings Fixtures.env_idp
      (ApiGateway.GetStatus "job-1") Fixtures.request (Some "Basic dXNlcg==")
      Fixtures.world0
    = (Raised (HTTPException 401 detail),
       set_log (log Fixtures.world0 ++ [Message WARNING detail])
         Fixtures.world0)
    /\ detail = "Invalid Authorization header format".
Proof.
  apply (malformed_authorization_rejected Fixtures.settings Fixtures.env_idp
           (ApiGateway.GetStatus "job-1") Fixtures.request
           (Some "Basic dXNlcg==") Fixtures.world0).
  reflexivity.
Defined.

(** X4. Whenever [validate_token] returns claims, the token's header named
    a non-empty key id, a key with that id is in the key set, the token
    library verified the token under that very key, and the claims it
    returned carry [token_use = "access"]. *)
Theorem validate_token_sound (s : Config.Settings) (env : Env)
    (token : string) (w w' : World) (claims : Jose.Claims) :
  JwtValidator.validate_token s env token w = (Ok (Some claims), w') ->
  exists jwks w1 h k key,
    JwtValidator.get_jwks s env w = (Ok jwks, w1)
    /\ get_unverified_header env token = Ok h
    /\ Jose.kid h = Some k /\ k <> ""
    /\ key ∈ default [] (Jose.keys jwks)
    /\ Jose.jwk_kid key = Some k
    /\ jwt_decode env (now w1) token key = Ok claims
    /\ Jose.token_use claims = Some "access".
Proof.
  unfold JwtValidator.validate_token, try_except, bind, lift, utcnow.
  destruct (JwtValidator.get_jwks s env w) as [[jwks|e] w1] eqn:Hj.
  - destruct (get_unverified_header env token) as [h|e] eqn:Hh.
    + destruct (Py.if_truthy (Jose.kid h)) as [k|] eqn:Hk; simpl;
        [|discriminate].
      destruct (JwtValidator.find_key (default [] (Jose.keys jwks)) k)
        as [key|] eqn:Hf; simpl; [|discriminate].
      destruct (jwt_decode env (now w1) token key) as [c|e] eqn:Hd; simpl.
      * destruct (JwtValidator.option_str_eqb (Jose.token_use c) "access")
          eqn:Hu; simpl; [|discriminate].
        intros H. injection H as <- _.
        apply option_str_eqb_true in Hu.
        destruct (find_key_spec _ _ _ Hf) as [Hin Hkid].
        exists jwks, w1, h, k, key.
        assert (Hkk : Jose.kid h = Some k /\ k <> "").
        { unfold Py.if_truthy in Hk. destruct (Jose.kid h) as [k0|];
            [|discriminate].
          destruct (String.eqb k0 "") eqn:E; [discriminate|].
          injection Hk as ->. apply String.eqb_neq in E. auto. }
        destruct Hkk. repeat split; assumption.
      * destruct (is_JWTError e); discriminate.
    + destruct (is_JWTError e); discriminate.
  - destruct (is_JWTError e); discriminate.
Qed.

Lemma validate_token_sound_witness :
  exists jwks w1 h k key,
    JwtValidator.get_jwks Fixtures.settings Fixtures.env_idp Fixtures.world0
    = (Ok jwks, w1)
    /\ get_unverified_header Fixtures.env_idp "t1" = Ok h
    /\ Jose.kid h = Some k /\ k <> ""
    /\ key ∈ default [] (Jose.keys jwks)
    /\ Jose.jwk_kid key = Some k
    /\ jwt_decode Fixtures.env_idp (now w1) "t1" key = Ok Fixtures.alice_claims
    /\ Jose.token_use Fixtures.alice_claims = Some "access".
Proof.
  eapply (validate_token_sound Fixtures.settings Fixtures.env_idp "t1"
            Fixtures.world0 _ Fixtures.alice_claims).
  reflexivity.
Defined.

(** X5. When the cache is empty and the key-set endpoint cannot be reached,
    verification fails closed and does not poison the cache: the token is
    rejected whatever it is, the one outbound call is the fetch, and the
    cache stays empty, so that the next verification fetches again. *)
Theorem failed_fetch_rejects_and_is_not_cached (s : Config.Settings)
    (env : Env) (token : string) (w : World) (e : exn) :
  _jwks w = None ->
  jwks_endpoint env (length (outbound w)) = Raised e ->
  let r := JwtValidator.validate_token s env token w in
  fst r = Ok None
  /\ _jwks (snd r) = None
  /\ outbound (snd r)
     = (outbound w ++ [GetJwks (JwtValidator.jwks_url s)])%list.
Proof.
  intros Hc Hnet. cbv zeta.
  destruct (JwtValidator.validate_token s env token w) as [r w'] eqn:Hv.
  unfold JwtValidator.validate_token, try_except, bind at 1,
    JwtValidator.get_jwks in Hv.
  rewrite Hc in Hv. unfold bind at 1, JwtValidator.fetch_jwks in Hv.
  rewrite Hnet in Hv.
  destruct (is_JWTError e); simpl in Hv; injection Hv as <- <-; simpl;
    auto.
Qed.

Lemma failed_fetch_rejects_and_is_not_cached_witness :
  let r := JwtValidator.validate_token Fixtures.settings Fixtures.env_down
             "t1" Fixtures.world0 in
  fst r = Ok None
  /\ _jwks (snd r) = None
  /\ outbound (snd r)
     = (outbound Fixtures.world0
          ++ [GetJwks (JwtValidator.jwks_url Fixtures.settings)])%list.
Proof.
  apply (failed_fetch_rejects_and_is_not_cached Fixtures.settings
           Fixtures.env_down "t1" Fixtures.world0 (HTTPError "ConnectTimeout"));
    reflexivity.
Defined.

(** ** Policy engine, further *)

Section PolicyEngineMore.

Import Rbac.

Variable e : RBACEngine.

Lemma check_permission_app (R1 R2 : list string) (res action : string) :
  check_permission e (R1 ++ R2)%list res action
  = check_permission e R1 res action || check_permission e R2 res action.
Proof.
  induction R1 as [|rn rest IH]; simpl; [reflexivity|].
  destruct (_role_map e !! rn) as [role|]; [|exact IH].
  destruct (permissions_grant (permissions role) res action);
    [reflexivity|exact IH].
Qed.

Lemma check_permission_same_set (R R' : list string) (res action : string) :
  (forall x, x ∈ R <-> x ∈ R') ->
  check_permission e R res action = check_permission e R' res action.
Proof.
  intros Hsame.
  destruct (check_permission e R res action) eqn:H1;
    destruct (check_permission e R' res action) eqn:H2; try reflexivity.
  - rewrite <- H2. symmetry.
    apply (check_permission_incl e R R'); [intros x; apply Hsame|exact H1].
  - rewrite <- H1.
    apply (check_permission_incl e R' R); [intros x; apply Hsame|exact H2].
Qed.

Lemma permissions_grant_spec (ps : list Permission) (res action : string) :
  permissions_grant ps res action = true
  <-> exists p, p ∈ ps /\ resource p = res /\ action ∈ actions p.
Proof.
  induction ps as [|p rest IH]; simpl.
  - split; [discriminate|]. intros (p & Hin & _). inversion Hin.
  - destruct (String.eqb (resource p) res && Py.str_in action (actions p))
      eqn:E.
    + split; [intros _|reflexivity].
      apply andb_true_iff in E as [Hr Ha].
      apply String.eqb_eq in Hr. apply str_in_spec in Ha.
      exists p. split; [left|]. auto.
    + rewrite IH. split.
      * intros (q & Hin & Hq). exists q. split; [right|]; assumption.
      * intros (q & Hin & Hr & Ha). apply elem_of_cons in Hin as [->|Hin].
        -- exfalso. apply andb_false_iff in E as [E|E].
           ++ apply String.eqb_neq in E. contradiction.
           ++ apply str_in_spec in Ha. congruence.
        -- exists q. auto.
Qed.

Lemma accessible_set_spec (role_names : list string) (res : string) :
  res ∈ accessible_set e role_names <-> Access.reaches e role_names res.
Proof.
  unfold Access.reaches.
  induction role_names as [|rn rest IH]; simpl.
  - split; [intros H; set_solver|].
    intros (x & _ & _ & Hin & _). inversion Hin.
  - destruct (_role_map e !! rn) as [role|] eqn:Hrole.
    + rewrite elem_of_union, elem_of_list_to_set, IH. split.
      * intros [Hhere|(x & role' & p & Hx & Hl & Hp & Hr)].
        -- apply list_elem_of_fmap in Hhere as (p & Hr & Hp).
           exists rn, role, p. split; [left|]. auto.
        -- exists x, role', p. split; [right|]; auto.
      * intros (x & role' & p & Hx & Hl & Hp & Hr).
        apply elem_of_cons in Hx as [->|Hx].
        -- left. apply list_elem_of_fmap. exists p.
           assert (role' = role) by congruence. subst. auto.
        -- right. exists x, role', p. auto.
    + rewrite IH. split.
      * intros (x & role' & p & Hx & Hrest). exists x, role', p.
        split; [right|]; auto.
      * intros (x & role' & p & Hx & Hl & Hrest).
        apply elem_of_cons in Hx as [->|Hx]; [congruence|].
        exists x, role', p. auto.
Qed.

End PolicyEngineMore.

(** X6. [check_permission] depends only on the set of role names: order
    and repetition in the list do not matter; over two lists put together
    it grants exactly when it grants for one of them. *)
Theorem check_permission_set_semantics (e : Rbac.RBACEngine)
    (res action : string) :
  (forall R R',
     (forall x, x ∈ R <-> x ∈ R') ->
     Rbac.check_permission e R res action
     = Rbac.check_permission e R' res action)
  /\ (forall R1 R2,
        Rbac.check_permission e (R1 ++ R2)%list res action
        = Rbac.check_permission e R1 res action
          || Rbac.check_permission e R2 res action).
Proof.
  split.
  - intros R R'. apply check_permission_same_set.
  - intros R1 R2. apply check_permission_app.
Qed.

Lemma check_permission_set_semantics_witness :
  Rbac.check_permission Fixtures.engine ["hr"; "finance"; "hr"]
    "mcp-hr-server" "read"
  = Rbac.check_permission Fixtures.engine ["finance"; "hr"]
      "mcp-hr-server" "read".
Proof.
  apply (check_permission_set_semantics Fixtures.engine "mcp-hr-server"
           "read").
  intros x. rewrite !elem_of_cons. split.
  - intros [->|[->|[->|H]]]; auto; inversion H.
  - intros [->|[->|H]]; auto; inversion H.
Defined.

(** X7. In the role map, the role found under a name is the last role of
    the policy with that name: a later definition replaces an earlier one
    whole, permissions included, and a name absent from the policy is
    absent from the map. *)
Theorem role_map_last_definition_wins (rs : list Rbac.Role)
    (role_name : string) :
  Rbac.role_map_of rs !! role_name
  = List.find (fun r => String.eqb (Rbac.name r) role_name) (rev rs).
Proof.
  induction rs as [|r rs IH] using rev_ind.
  - apply lookup_empty.
  - unfold Rbac.role_map_of in *. rewrite fold_left_app. simpl.
    rewrite rev_unit. simpl.
    destruct (String.eqb (Rbac.name r) role_name) eqn:E.
    + apply String.eqb_eq in E. subst. apply lookup_insert_eq.
    + apply String.eqb_neq in E. rewrite lookup_insert_ne by exact E.
      exact IH.
Qed.

(** X8. [get_accessible_resources] lists, without repetition, exactly the
    resources on which a named role known to the engine has a permission;
    in particular every resource for which [check_permission] grants some
    action is listed. *)
Theorem accessible_resources_spec (e : Rbac.RBACEngine)
    (role_names : list string) :
  NoDup (Rbac.get_accessible_resources e role_names)
  /\ (forall res,
        res ∈ Rbac.get_accessible_resources e role_names
        <-> Access.reaches e role_names res)
  /\ (forall res action,
        Rbac.check_permission e role_names res action = true ->
        res ∈ Rbac.get_accessible_resources e role_names).
Proof.
  unfold Rbac.get_accessible_resources. split; [apply NoDup_elements|].
  assert (Hspec : forall res,
            res ∈ elements (Rbac.accessible_set e role_names)
            <-> Access.reaches e role_names res).
  { intros res. rewrite elem_of_elements. apply accessible_set_spec. }
  split; [exact Hspec|].
  intros res action Hgrant. apply Hspec.
  apply check_permission_spec in Hgrant as (rn & Hrn & role & Hl & Hg).
  apply permissions_grant_spec in Hg as (p & Hp & Hr & _).
  exists rn, role, p. auto.
Qed.

(** ** Service token, departments and server listing, further *)

(** X9. The service token is accepted exactly when it is present and
    non-empty and either no secret is configured (the default: [None], or
    the empty string) or it equals the configured secret; otherwise the
    request is answered 401. Accepting changes nothing in the state. *)
Theorem validate_service_token_spec (s : Config.Settings)
    (x_service_token : option string) (w : World) :
  let accepted :=
    exists token,
      x_service_token = Some token /\ token <> ""
      /\ forall secret,
           Py.if_truthy (Config.service_token s) = Some secret ->
           token = secret in
  (accepted ->
   McpGateway.validate_service_token s x_service_token w
   = (Ok {| McpGateway.si_service_name := "application";
            McpGateway.si_department := None |}, w))
  /\ (~ accepted ->
      exists detail,
        fst (McpGateway.validate_service_token s x_service_token w)
        = Raised (HTTPException 401 detail)).
Proof.
  cbv zeta. unfold McpGateway.validate_service_token. split.
  - intros (token & -> & Hne & Hsecret). rewrite (if_truthy_some _ Hne).
    destruct (Py.if_truthy (Config.service_token s)) as [secret|];
      [|reflexivity].
    rewrite (Hsecret secret eq_refl), String.eqb_refl. reflexivity.
  - intros Hnot.
    destruct (Py.if_truthy x_service_token) as [token|] eqn:Htok;
      [|eexists; reflexivity].
    destruct (Py.if_truthy (Config.service_token s)) as [secret|] eqn:Hsec.
    + destruct (String.eqb token secret) eqn:E; [|eexists; reflexivity].
      exfalso. apply Hnot. apply String.eqb_eq in E. subst.
      unfold Py.if_truthy in Htok. destruct x_service_token as [t|];
        [|discriminate].
      destruct (String.eqb t "") eqn:Et; [discriminate|].
      injection Htok as ->. apply String.eqb_neq in Et.
      exists secret. repeat split; auto. congruence.
    + exfalso. apply Hnot.
      unfold Py.if_truthy in Htok. destruct x_service_token as [t|];
        [|discriminate].
      destruct (String.eqb t "") eqn:Et; [discriminate|].
      injection Htok as ->. apply String.eqb_neq in Et.
      exists token. repeat split; auto. discriminate.
Qed.

Lemma validate_service_token_spec_witness :
  McpGateway.validate_service_token Fixtures.settings (Some "anything")
    Fixtures.world0
  = (Ok {| McpGateway.si_service_name := "application";
           McpGateway.si_department := None |}, Fixtures.world0).
Proof.
  apply (validate_service_token_spec Fixtures.settings (Some "anything")
           Fixtures.world0).
  exists "anything". split; [reflexivity|]. split; [discriminate|].
  intros secret Hsecret. discriminate Hsecret.
Defined.

Lemma three_way_lookup (a b c : string) (key : string) :
  is_Some ((<["legal" := a]> (<["hr" := b]> (<["finance" := c]> ∅))
            : gmap string string) !! key)
  <-> key ∈ ["finance"; "hr"; "legal"].
Proof.
  rewrite !elem_of_cons. split.
  - intros [v Hv].
    apply lookup_insert_Some in Hv as [[<- _]|[_ Hv]]; [auto|].
    apply lookup_insert_Some in Hv as [[<- _]|[_ Hv]]; [auto|].
    apply lookup_insert_Some in Hv as [[<- _]|[_ Hv]]; [auto|].
    rewrite lookup_empty in Hv. discriminate.
  - intros [->|[->|[->|H]]]; [| | |inversion H]; vm_compute; eauto.
Qed.

Lemma department_lookups (s : Config.Settings) (department : string) :
  (is_Some (Rbac.map_department_to_server department)
   <-> Py.lower department ∈ ["finance"; "hr"; "legal"])
  /\ (is_Some (McpGateway.get_mcp_server_url s department)
      <-> Py.lower department ∈ ["finance"; "hr"; "legal"]).
Proof.
  unfold Rbac.map_department_to_server, McpGateway.get_mcp_server_url.
  split; apply three_way_lookup.
Qed.

(** X10. The department table of the policy engine and the upstream table
    of the gateway know the same departments: exactly those whose name is
    ["finance"], ["hr"] or ["legal"] up to letter case. *)
Theorem department_tables_agree (s : Config.Settings) (department : string) :
  (is_Some (Rbac.map_department_to_server department)
   <-> Py.lower department ∈ ["finance"; "hr"; "legal"])
  /\ (is_Some (McpGateway.get_mcp_server_url s department)
      <-> Py.lower department ∈ ["finance"; "hr"; "legal"]).
Proof. apply department_lookups. Qed.

(** X11. The department of a request is its non-empty ["department"]
    parameter when there is one, else its non-empty ["server_type"]
    parameter, else none; it is never the empty string. *)
Theorem extract_department_spec (mcp_request : Models.MCPRequest)
    (department : string) :
  McpGateway.extract_department_from_request mcp_request = Some department
  <-> exists ps,
        Models.params mcp_request = Some ps
        /\ department <> ""
        /\ (ps !! "department" = Some department
            \/ (Py.if_truthy (ps !! "department") = None
                /\ ps !! "server_type" = Some department)).
Proof.
  unfold McpGateway.extract_department_from_request.
  assert (Htruthy : forall (o : option string) d,
            Py.if_truthy o = Some d <-> o = Some d /\ d <> "").
  { intros [x|] d; simpl.
    - destruct (String.eqb x "") eqn:E.
      + apply String.eqb_eq in E. subst. split; [discriminate|].
        intros [H Hne]. congruence.
      + apply String.eqb_neq in E. split.
        * intros H. injection H as <-. auto.
        * intros [H _]. exact H.
    - split; [discriminate|]. intros [H _]. discriminate. }
  destruct (Models.params mcp_request) as [ps|].
  - case_bool_decide as Hempty.
    + subst ps. split; [discriminate|].
      intros (ps & Hps & _ & [H|[_ H]]); injection Hps as <-;
        rewrite lookup_empty in H; discriminate.
    + destruct (Py.if_truthy (ps !! "department")) as [d|] eqn:Hd.
      * apply Htruthy in Hd as [Hd Hne]. split.
        -- intros H. injection H as <-. exists ps. auto.
        -- intros (ps' & Hps & _ & [H|[H _]]); injection Hps as <-.
           ++ congruence.
           ++ exfalso. assert (Py.if_truthy (ps !! "department") = Some d)
                by (apply Htruthy; auto). congruence.
      * destruct (Py.if_truthy (ps !! "server_type")) as [t|] eqn:Ht.
        -- apply Htruthy in Ht as [Ht Hne]. split.
           ++ intros H. injection H as <-. exists ps. auto.
           ++ intros (ps' & Hps & Hne' & [H|[_ H]]); injection Hps as <-.
              ** exfalso.
                 assert (Py.if_truthy (ps !! "department") = Some department)
                   by (apply Htruthy; auto). congruence.
              ** congruence.
        -- split; [discriminate|].
           intros (ps' & Hps & Hne' & [H|[_ H]]); injection Hps as <-.
           ++ exfalso.
              assert (Py.if_truthy (ps !! "department") = Some department)
                by (apply Htruthy; auto). congruence.
           ++ exfalso.
              assert (Py.if_truthy (ps !! "server_type") = Some department)
                by (apply Htruthy; auto). congruence.
  - split; [discriminate|]. intros (ps & Hps & _). discriminate.
Qed.

Lemma servers_for_spec (s : Config.Settings) (accessible : list string)
    (x : McpGateway.ServerInfo) :
  x ∈ McpGateway.servers_for s accessible
  <-> (x = McpGateway.finance_server s /\ "mcp-finance-server" ∈ accessible)
      \/ (x = McpGateway.hr_server s /\ "mcp-hr-server" ∈ accessible)
      \/ (x = McpGateway.legal_server s /\ "mcp-legal-server" ∈ accessible).
Proof.
  induction accessible as [|res rest IH]; simpl.
  - split; [intros H; inversion H|].
    intros [[_ H]|[[_ H]|[_ H]]]; inversion H.
  - destruct (String.eqb res "mcp-finance-server") eqn:Ef;
      [|destruct (String.eqb res "mcp-hr-server") eqn:Eh;
        [|destruct (String.eqb res "mcp-legal-server") eqn:El]];
      repeat match goal with
             | H : String.eqb _ _ = true |- _ =>
                 apply String.eqb_eq in H; subst
             | H : String.eqb _ _ = false |- _ =>
                 apply String.eqb_neq in H
             end;
      rewrite ?elem_of_cons, IH, ?elem_of_cons; intuition congruence.
Qed.

(** X12. With the service token accepted and a non-empty [X-User-Roles]
    value, [GET /servers] lists a server exactly when one of the declared
    roles, as known to the policy, has a permission on the server's
    resource, for whatever action. *)
Theorem list_servers_filtered_by_roles (s : Config.Settings)
    (rbac_engine : Rbac.RBACEngine) (x_service_token : option string)
    (header : string) (info : McpGateway.ServiceInfo) (w w1 : World) :
  McpGateway.validate_service_token s x_service_token w = (Ok info, w1) ->
  header <> "" ->
  exists servers,
    McpGateway.list_mcp_servers s rbac_engine x_service_token (Some header) w
    = (Ok servers, w)
    /\ forall x,
         x ∈ servers
         <-> (x = McpGateway.finance_server s
              /\ Access.reaches rbac_engine (McpGateway.parse_roles header)
                   "mcp-finance-server")
             \/ (x = McpGateway.hr_server s
                 /\ Access.reaches rbac_engine (McpGateway.parse_roles header)
                      "mcp-hr-server")
             \/ (x = McpGateway.legal_server s
                 /\ Access.reaches rbac_engine
                      (McpGateway.parse_roles header) "mcp-legal-server").
Proof.
  intros Htok Hne.
  pose proof (validate_service_token_ok s _ _ _ _ Htok) as ->.
  eexists. split.
  - unfold McpGateway.list_mcp_servers, bind. rewrite Htok.
    rewrite (if_truthy_some _ Hne). reflexivity.
  - intros x. rewrite servers_for_spec.
    unfold Rbac.get_accessible_resources.
    rewrite !elem_of_elements, !accessible_set_spec. reflexivity.
Qed.

Lemma list_servers_filtered_by_roles_witness :
  exists servers,
    McpGateway.list_mcp_servers Fixtures.settings Fixtures.engine
      (Some "svc-token") (Some "hr, auditor") Fixtures.world0
    = (Ok servers, Fixtures.world0)
    /\ forall x,
         x ∈ servers
         <-> (x = McpGateway.finance_server Fixtures.settings
              /\ Access.reaches Fixtures.engine
                   (McpGateway.parse_roles "hr, auditor")
                   "mcp-finance-server")
             \/ (x = McpGateway.hr_server Fixtures.settings
                 /\ Access.reaches Fixtures.engine
                      (McpGateway.parse_roles "hr, auditor") "mcp-hr-server")
             \/ (x = McpGateway.legal_server Fixtures.settings
                 /\ Access.reaches Fixtures.engine
                      (McpGateway.parse_roles "hr, auditor")
                      "mcp-legal-server").
Proof.
  apply (list_servers_filtered_by_roles Fixtures.settings Fixtures.engine
           (Some "svc-token") "hr, auditor"
           {| McpGateway.si_service_name := "application";
              McpGateway.si_department := None |}
           Fixtures.world0 Fixtures.world0).
  - reflexivity.
  - discriminate.
Defined.

(** ** Control-plane routing, further *)

Section ControlPlaneMore.

Import Http Models McpGateway.

Variable s : Config.Settings.
Variable rbac_engine : Rbac.RBACEngine.
Variable env : Env.

Lemma if_truthy_inv (o : option string) (text : string) :
  Py.if_truthy o = Some text -> o = Some text /\ text <> "".
Proof.
  destruct o as [x|]; simpl; [|discriminate].
  destruct (String.eqb x "") eqn:E; [discriminate|].
  intros H. injection H as <-. apply String.eqb_neq in E. auto.
Qed.

Lemma validate_service_token_outbound (x_service_token : option string)
    (w : World) :
  outbound (snd (validate_service_token s x_service_token w)) = outbound w.
Proof.
  unfold validate_service_token.
  destruct (Py.if_truthy x_service_token) as [token|]; [|reflexivity].
  destruct (Py.if_truthy (Config.service_token s)) as [secret|];
    [|reflexivity].
  destruct (String.eqb token secret); reflexivity.
Qed.

(** The two checks, passed, leave the state as it is. *)
Lemma checks_pass (department : string) (x_user_roles : option string)
    (info : ServiceInfo) (request : Request) (mcp_request : MCPRequest)
    {A} (k : M A) (w : World) :
  Access.authorized s rbac_engine department x_user_roles ->
  (let! _ :=
     match Config.rbac_enabled s, Py.if_truthy x_user_roles with
     | true, Some header =>
         let roles := parse_roles header in
         match Py.if_truthy (Rbac.map_department_to_server department) with
         | None =>
             let! _ := logger WARNING ("Unknown department: " ++ department) in
             raise (HTTPException 400 "Unknown department")
         | Some resource =>
             if negb (Rbac.check_permission rbac_engine roles resource "read")
             then
               let! audit_log := create_mcp_audit_log info request
                 mcp_request 403 (Some department)
                 (Some "RBAC permission denied") in
               let! _ := logger_audit WARNING "MCP Gateway: " audit_log in
               raise (HTTPException 403 "Access denied")
             else ret tt
         end
     | _, _ => ret tt
     end in
   let! _ :=
     match Config.department_isolation s, Py.if_truthy x_user_roles with
     | true, Some header =>
         let roles := parse_roles header in
         if negb (Py.str_in (Py.lower department) (map Py.lower roles))
         then
           let! audit_log := create_mcp_audit_log info request
             mcp_request 403 (Some department)
             (Some "Department isolation violation") in
           let! _ := logger_audit WARNING "MCP Gateway: " audit_log in
           raise (HTTPException 403 "Access denied: department isolation")
         else ret tt
     | _, _ => ret tt
     end in
   k) w = k w.
Proof.
  intros Hauth. unfold Access.authorized in Hauth. cbv zeta.
  destruct (Py.if_truthy x_user_roles) as [header|].
  - destruct (Hauth header eq_refl) as [Hrbac Hiso].
    destruct (Config.rbac_enabled s).
    + destruct (Hrbac eq_refl) as (res & Hmap & Hperm).
      rewrite (map_department_to_server_truthy _ _ Hmap), Hperm. simpl.
      destruct (Config.department_isolation s); [|reflexivity].
      specialize (Hiso eq_refl). apply str_in_spec in Hiso.
      rewrite Hiso. reflexivity.
    + destruct (Config.department_isolation s); [|reflexivity].
      specialize (Hiso eq_refl). apply str_in_spec in Hiso.
      rewrite Hiso. reflexivity.
  - destruct (Config.rbac_enabled s), (Config.department_isolation s);
      reflexivity.
Qed.

End ControlPlaneMore.

(** X13. With RBAC enabled, an accepted service token, a non-empty
    [X-User-Roles] value and a department the policy engine resolves, a
    request whose roles do not hold ["read"] on the resource is answered
    403 "Access denied" and not forwarded, with one audit entry of status
    403 and reason ["RBAC permission denied"]; this comes before the
    department-isolation check, whatever that would say. *)
Theorem rbac_denial_enforced (s : Config.Settings)
    (rbac_engine : Rbac.RBACEngine) (env : Env) (request : Http.Request)
    (mcp_request : Models.MCPRequest) (x_service_token : option string)
    (header department resource : string) (info : McpGateway.ServiceInfo)
    (w w1 : World) :
  Config.rbac_enabled s = true ->
  McpGateway.validate_service_token s x_service_token w = (Ok info, w1) ->
  header <> "" ->
  McpGateway.extract_department_from_request mcp_request = Some department ->
  Rbac.map_department_to_server department = Some resource ->
  Rbac.check_permission rbac_engine (McpGateway.parse_roles header)
    resource "read" = false ->
  exists entry,
    McpGateway.route_mcp_request s rbac_engine env request mcp_request
      x_service_token (Some header) w
    = (Raised (HTTPException 403 "Access denied"),
       set_log (log w ++ [Audit WARNING "MCP Gateway: " entry]) w)
    /\ Models.status_code entry = 403%Z
    /\ Models.error entry = Some "RBAC permission denied"
    /\ Models.department entry = Some department.
Proof.
  intros Hrbac Htok Hhdr Hdept Hmap Hperm.
  pose proof (validate_service_token_ok s _ _ _ _ Htok) as ->.
  eexists. split.
  - unfold McpGateway.route_mcp_request. unfold bind at 1. rewrite Htok.
    rewrite Hdept, Hrbac, (if_truthy_some header Hhdr).
    rewrite (map_department_to_server_truthy _ _ Hmap), Hperm.
    reflexivity.
  - simpl. auto.
Qed.

Lemma rbac_denial_enforced_witness :
  exists entry,
    McpGateway.route_mcp_request Fixtures.settings Fixtures.engine
      Fixtures.env_up Fixtures.request (Fixtures.tools_list "legal")
      (Some "svc-token") (Some "finance,hr") Fixtures.world0
    = (Raised (HTTPException 403 "Access denied"),
       set_log (log Fixtures.world0 ++ [Audit WARNING "MCP Gateway: " entry])
         Fixtures.world0)
    /\ Models.status_code entry = 403%Z
    /\ Models.error entry = Some "RBAC permission denied"
    /\ Models.department entry = Some "legal".
Proof.
  apply (rbac_denial_enforced Fixtures.settings Fixtures.engine
           Fixtures.env_up Fixtures.request (Fixtures.tools_list "legal")
           (Some "svc-token") "finance,hr" "legal" "mcp-legal-server"
           {| McpGateway.si_service_name := "application";
              McpGateway.si_department := None |}
           Fixtures.world0 Fixtures.world0);
    try reflexivity.
  discriminate.
Defined.

(** X14. A request with an accepted service token whose department is
    none of finance, hr, legal is never forwarded, and what it is answered
    depends on the configuration and on the caller's headers. Without an
    [X-User-Roles] value (absent or empty): 404 "MCP server not found", no
    audit entry. With a value and RBAC enabled: 400 "Unknown department",
    no audit entry. With a value and RBAC disabled: 403 "Access denied:
    department isolation" with one audit entry of status 403 and reason
    ["Department isolation violation"] when department isolation is enabled
    and no role is named like the department, and 404 "MCP server not
    found" without an audit entry otherwise. *)
Theorem unknown_department_rejected (s : Config.Settings)
    (rbac_engine : Rbac.RBACEngine) (env : Env) (request : Http.Request)
    (mcp_request : Models.MCPRequest) (x_service_token x_user_roles : option string)
    (department : string) (info : McpGateway.ServiceInfo) (w w1 : World) :
  McpGateway.validate_service_token s x_service_token w = (Ok info, w1) ->
  McpGateway.extract_department_from_request mcp_request = Some department ->
  Py.lower department ∉ ["finance"; "hr"; "legal"] ->
  let r := McpGateway.route_mcp_request s rbac_engine env request
             mcp_request x_service_token x_user_roles w in
  let not_found :=
    (Raised (HTTPException 404 "MCP server not found"),
     set_log (log w ++ [Message ERROR
                          ("No MCP server configured for department: "
                             ++ department)]) w) in
  outbound (snd r) = outbound w
  /\ match Py.if_truthy x_user_roles with
     | None => r = not_found
     | Some header =>
         if Config.rbac_enabled s then
           r = (Raised (HTTPException 400 "Unknown department"),
                set_log (log w ++ [Message WARNING
                                     ("Unknown department: " ++ department)])
                  w)
         else if Config.department_isolation s
                 && negb (Py.str_in (Py.lower department)
                            (map Py.lower (McpGateway.parse_roles header)))
         then
           exists entry,
             r = (Raised (HTTPException 403
                            "Access denied: department isolation"),
                  set_log (log w ++ [Audit WARNING "MCP Gateway: " entry]) w)
             /\ Models.status_code entry = 403%Z
             /\ Models.error entry = Some "Department isolation violation"
             /\ Models.department entry = Some department
         else r = not_found
     end.
Proof.
  intros Htok Hdept Hunknown. cbv zeta.
  pose proof (validate_service_token_ok s _ _ _ _ Htok) as ->.
  pose proof (department_lookups s department) as [Hmap Hurl].
  assert (Hm : Rbac.map_department_to_server department = None).
  { destruct (Rbac.map_department_to_server department) eqn:E;
      [|reflexivity]. exfalso. apply Hunknown, Hmap. eauto. }
  assert (Hu : McpGateway.get_mcp_server_url s department = None).
  { destruct (McpGateway.get_mcp_server_url s department) eqn:E;
      [|reflexivity]. exfalso. apply Hunknown, Hurl. eauto. }
  destruct (McpGateway.route_mcp_request s rbac_engine env request
              mcp_request x_service_token x_user_roles w)
    as [r w'] eqn:Hrun.
  unfold McpGateway.route_mcp_request in Hrun. unfold bind at 1 in Hrun.
  rewrite Htok, Hdept, Hm, Hu in Hrun.
  destruct (Py.if_truthy x_user_roles) as [header|];
    destruct (Config.rbac_enabled s);
    destruct (Config.department_isolation s);
    try destruct (Py.str_in (Py.lower department)
                    (map Py.lower (McpGateway.parse_roles header)));
    simpl in Hrun; injection Hrun as <- <-;
    simpl; split; try reflexivity;
    eexists; (split; [reflexivity|]); simpl; auto.
Qed.

Lemma unknown_department_rejected_witness :
  exists entry,
    McpGateway.route_mcp_request Fixtures.isolation_only Fixtures.engine
      Fixtures.env_up Fixtures.request (Fixtures.tools_list "marketing")
      (Some "svc-token") (Some "finance") Fixtures.world0
    = (Raised (HTTPException 403 "Access denied: department isolation"),
       set_log (log Fixtures.world0 ++ [Audit WARNING "MCP Gateway: " entry])
         Fixtures.world0)
    /\ Models.status_code entry = 403%Z
    /\ Models.error entry = Some "Department isolation violation"
    /\ Models.department entry = Some "marketing".
Proof.
  apply (unknown_department_rejected Fixtures.isolation_only Fixtures.engine
           Fixtures.env_up Fixtures.request (Fixtures.tools_list "marketing")
           (Some "svc-token") (Some "finance") "marketing"
           {| McpGateway.si_service_name := "application";
              McpGateway.si_department := None |}
           Fixtures.world0 Fixtures.world0).
  - reflexivity.
  - reflexivity.
  - vm_compute. intros H. repeat (apply elem_of_cons in H as [H|H];
      [discriminate|]). inversion H.
Defined.

(** X15. A [POST /mcp] request reaches an upstream only if it was let
    through: whenever handling it makes an outbound call, the service token
    was accepted, the request declared a department with a configured
    upstream, and, for a non-empty [X-User-Roles] value, every enabled
    check (RBAC, department isolation) found in its favour. *)
Theorem forwarded_only_if_authorized (s : Config.Settings)
    (rbac_engine : Rbac.RBACEngine) (env : Env) (request : Http.Request)
    (mcp_request : Models.MCPRequest)
    (x_service_token x_user_roles : option string) (w : World) :
  outbound (snd (McpGateway.route_mcp_request s rbac_engine env request
                   mcp_request x_service_token x_user_roles w))
  <> outbound w ->
  (exists info,
     McpGateway.validate_service_token s x_service_token w = (Ok info, w))
  /\ exists department server_url,
       McpGateway.extract_department_from_request mcp_request
       = Some department
       /\ McpGateway.get_mcp_server_url s department = Some server_url
       /\ server_url <> ""
       /\ Access.authorized s rbac_engine department x_user_roles.
Proof.
  unfold McpGateway.route_mcp_request. unfold bind at 1.
  destruct (McpGateway.validate_service_token s x_service_token w)
    as [[info|ex] w0] eqn:Hv.
  2: { intros H. exfalso. apply H. simpl.
       rewrite <- (validate_service_token_outbound s x_service_token w), Hv.
       reflexivity. }
  pose proof (validate_service_token_ok s _ _ _ _ Hv) as ->.
  destruct (McpGateway.extract_department_from_request mcp_request)
    as [d|] eqn:Hd; [|intros H; exfalso; apply H; reflexivity].
  destruct (Py.if_truthy x_user_roles) as [header|] eqn:Hhdr;
    destruct (Config.rbac_enabled s) eqn:Hrbac;
    destruct (Config.department_isolation s) eqn:Hiso;
    destruct (Py.if_truthy (Rbac.map_department_to_server d))
      as [res|] eqn:Hmap;
    try destruct (Rbac.check_permission rbac_engine
                    (McpGateway.parse_roles header) res "read") eqn:Hperm;
    try destruct (Py.str_in (Py.lower d)
                    (map Py.lower (McpGateway.parse_roles header))) eqn:Hin;
    destruct (Py.if_truthy (McpGateway.get_mcp_server_url s d))
      as [url|] eqn:Hurl;
    try (intros H; exfalso; apply H; reflexivity);
    intros _; (split; [eauto|]);
    exists d, url; apply if_truthy_inv in Hurl as [Hurl Hne];
    (split; [reflexivity|]); (split; [exact Hurl|]); (split; [exact Hne|]);
    unfold Access.authorized; intros header' Hh'; rewrite Hhdr in Hh';
    try discriminate Hh'; try (injection Hh' as <-);
    (split; intros Hflag; try congruence);
    try (apply str_in_spec; assumption);
    try (apply if_truthy_inv in Hmap as [Hmap _]; eauto).
Qed.

Lemma forwarded_only_if_authorized_witness :
  Access.authorized Fixtures.settings Fixtures.engine "finance"
    (Some "finance").
Proof.
  destruct (forwarded_only_if_authorized Fixtures.settings Fixtures.engine
              Fixtures.env_up Fixtures.request (Fixtures.tools_list "finance")
              (Some "svc-token") (Some "finance") Fixtures.world0)
    as (_ & department & server_url & Hd & _ & _ & Hauth).
  - vm_compute. discriminate.
  - vm_compute in Hd. injection Hd as <-. exact Hauth.
Defined.

(** X16. A request that is let through, with the circuit not open and an
    upstream that answers the first attempt with a JSON body that can be
    serialised again, is relayed: the caller gets the upstream's status and
    the body as the gateway serialises it, whatever the status is (a 4xx or
    5xx answer is neither retried nor turned into 502), exactly one outbound
    call is made, one audit entry records that status, and the circuit is
    closed with its failure counter at zero. *)
Theorem upstream_response_relayed (s : Config.Settings)
    (rbac_engine : Rbac.RBACEngine) (env : Env) (request : Http.Request)
    (mcp_request : Models.MCPRequest)
    (x_service_token x_user_roles : option string)
    (department server_url : string) (info : McpGateway.ServiceInfo)
    (w w1 : World) (dt st : Z) (text : string) :
  McpGateway.validate_service_token s x_service_token w = (Ok info, w1) ->
  McpGateway.extract_department_from_request mcp_request = Some department ->
  Access.authorized s rbac_engine department x_user_roles ->
  McpGateway.get_mcp_server_url s department = Some server_url ->
  server_url <> "" ->
  Resilience.opened (mcp_circuit w) (now w) = false ->
  upstream env (length (outbound w)) (PostMcp server_url mcp_request)
  = Responds dt st (Some (Renders text)) ->
  exists entry,
    McpGateway.route_mcp_request s rbac_engine env request mcp_request
      x_service_token x_user_roles w
    = (Ok {| Http.content := text; Http.js_status := st |},
       set_log (log w ++ [Audit INFO "MCP Gateway: " entry])
         (set_mcp_circuit (Resilience.call_succeeded (mcp_circuit w))
            (set_now (now w + dt)
               (set_outbound
                  (outbound w ++ [PostMcp server_url mcp_request]) w))))
    /\ Models.status_code entry = st
    /\ Models.error entry = None
    /\ Models.department entry = Some department.
Proof.
  intros Htok Hdept Hauth Hurl Hne Hclosed Hup.
  pose proof (validate_service_token_ok s _ _ _ _ Htok) as ->.
  eexists. split.
  - unfold McpGateway.route_mcp_request. unfold bind at 1.
    rewrite Htok, Hdept. cbv beta iota.
    rewrite (checks_pass s rbac_engine department x_user_roles info request
               mcp_request _ w Hauth).
    rewrite Hurl, (if_truthy_some _ Hne).
    unfold try_except, bind at 1, McpGateway.forward_to_mcp_server,
      Resilience.circuit.
    simpl Resilience.read. rewrite Hclosed.
    unfold Resilience.retry. simpl Resilience.retry_from.
    unfold try_except, bind at 1, send. rewrite Hup. reflexivity.
  - simpl. auto.
Qed.

Lemma upstream_response_relayed_witness :
  exists entry,
    McpGateway.route_mcp_request Fixtures.settings Fixtures.engine
      Fixtures.env_up Fixtures.request (Fixtures.tools_list "finance")
      (Some "svc-token") (Some "auditor, Finance, finance") Fixtures.world0
    = (Ok {| Http.content := "{}"; Http.js_status := 200 |},
       set_log (log Fixtures.world0 ++ [Audit INFO "MCP Gateway: " entry])
         (set_mcp_circuit
            (Resilience.call_succeeded (mcp_circuit Fixtures.world0))
            (set_now (now Fixtures.world0 + 0)
               (set_outbound
                  (outbound Fixtures.world0
                     ++ [PostMcp "http://mcp-finance-service.local:8080"
                           (Fixtures.tools_list "finance")])
                  Fixtures.world0))))
    /\ Models.status_code entry = 200%Z
    /\ Models.error entry = None
    /\ Models.department entry = Some "finance".
Proof.
  apply (upstream_response_relayed Fixtures.settings Fixtures.engine
           Fixtures.env_up Fixtures.request (Fixtures.tools_list "finance")
           (Some "svc-token") (Some "auditor, Finance, finance")
           "finance" "http://mcp-finance-service.local:8080"
           {| McpGateway.si_service_name := "application";
              McpGateway.si_department := None |}
           Fixtures.world0 Fixtures.world0 0 200 "{}");
    try reflexivity; try discriminate.
  intros header Hheader. injection Hheader as <-. split; intros _.
  - exists "mcp-finance-server". split; reflexivity.
  - apply str_in_spec. reflexivity.
Defined.

(** X26. A request that is let through, with the circuit not open, whose
    upstream answers the first attempt with a body that is not JSON or that
    cannot be serialised again, is answered 500 "Internal server error"
    after two audit entries: the first records the upstream's status as a
    success, the second the internal error. One outbound call was made and
    the breaker counts it a success. *)
Theorem unusable_answer_audited_twice (s : Config.Settings)
    (rbac_engine : Rbac.RBACEngine) (env : Env) (request : Http.Request)
    (mcp_request : Models.MCPRequest)
    (x_service_token x_user_roles : option string)
    (department server_url : string) (info : McpGateway.ServiceInfo)
    (w w1 : World) (dt st : Z) (body : option Json) :
  McpGateway.validate_service_token s x_service_token w = (Ok info, w1) ->
  McpGateway.extract_department_from_request mcp_request = Some department ->
  Access.authorized s rbac_engine department x_user_roles ->
  McpGateway.get_mcp_server_url s department = Some server_url ->
  server_url <> "" ->
  Resilience.opened (mcp_circuit w) (now w) = false ->
  upstream env (length (outbound w)) (PostMcp server_url mcp_request)
  = Responds dt st body ->
  (forall text, body <> Some (Renders text)) ->
  let r := McpGateway.route_mcp_request s rbac_engine env request
             mcp_request x_service_token x_user_roles w in
  exists first second,
    fst r = Raised (HTTPException 500 "Internal server error")
    /\ audit_entries (log (snd r))
       = (audit_entries (log w)
            ++ [Audit INFO "MCP Gateway: " first;
                Audit ERROR "MCP Gateway Error: " second])%list
    /\ Models.status_code first = st
    /\ Models.error first = None
    /\ Models.status_code second = 500%Z
    /\ outbound (snd r)
       = (outbound w ++ [PostMcp server_url mcp_request])%list
    /\ mcp_circuit (snd r) = Resilience.call_succeeded (mcp_circuit w).
Proof.
  intros Htok Hdept Hauth Hurl Hne Hclosed Hup Hbody. cbv zeta.
  pose proof (validate_service_token_ok s _ _ _ _ Htok) as ->.
  destruct (McpGateway.route_mcp_request s rbac_engine env request
              mcp_request x_service_token x_user_roles w)
    as [r w'] eqn:Hrun.
  unfold McpGateway.route_mcp_request in Hrun. unfold bind at 1 in Hrun.
  rewrite Htok, Hdept in Hrun. cbv beta iota in Hrun.
  rewrite (checks_pass s rbac_engine department x_user_roles info request
             mcp_request _ w Hauth) in Hrun.
  rewrite Hurl, (if_truthy_some _ Hne) in Hrun.
  unfold try_except, bind at 1, McpGateway.forward_to_mcp_server,
    Resilience.circuit in Hrun.
  simpl Resilience.read in Hrun. rewrite Hclosed in Hrun.
  unfold Resilience.retry in Hrun. simpl Resilience.retry_from in Hrun.
  unfold try_except, bind at 1, send in Hrun. rewrite Hup in Hrun.
  destruct body as [[text|reason]|];
    [exfalso; exact (Hbody text eq_refl)| |];
    simpl in Hrun; injection Hrun as <- <-;
    do 2 eexists; (split; [reflexivity|]); simpl;
    unfold audit_entries; rewrite !List.filter_app; simpl;
    rewrite <- !app_assoc; simpl; auto 10.
Qed.

Lemma unusable_answer_audited_twice_witness :
  let r := McpGateway.route_mcp_request Fixtures.settings Fixtures.engine
             Fixtures.env_overflow Fixtures.request
             (Fixtures.tools_list "finance") (Some "svc-token") None
             Fixtures.world0 in
  exists first second,
    fst r = Raised (HTTPException 500 "Internal server error")
    /\ audit_entries (log (snd r))
       = (audit_entries (log Fixtures.world0)
            ++ [Audit INFO "MCP Gateway: " first;
                Audit ERROR "MCP Gateway Error: " second])%list
    /\ Models.status_code first = 200%Z
    /\ Models.error first = None
    /\ Models.status_code second = 500%Z
    /\ outbound (snd r)
       = (outbound Fixtures.world0
            ++ [PostMcp "http://mcp-finance-service.local:8080"
                  (Fixtures.tools_list "finance")])%list
    /\ mcp_circuit (snd r)
       = Resilience.call_succeeded (mcp_circuit Fixtures.world0).
Proof.
  apply (unusable_answer_audited_twice Fixtures.settings Fixtures.engine
           Fixtures.env_overflow Fixtures.request
           (Fixtures.tools_list "finance") (Some "svc-token") None
           "finance" "http://mcp-finance-service.local:8080"
           {| McpGateway.si_service_name := "application";
              McpGateway.si_department := None |}
           Fixtures.world0 Fixtures.world0 0 200
           (Some (Unrenderable
                    "Out of range float values are not JSON compliant")));
    try reflexivity; discriminate.
Defined.

(** ** Retry and circuit breaking *)

Section Forwarding.

Variable env : Env.

(** What a retried outbound call leaves behind: at most one more call than
    the further attempts allowed, each the same call, and nothing else but
    the clock changed. *)
Lemma retry_from_frame (call : Outbound) {A} (g : Z * option Json -> A)
    (further attempt_number : nat) (w w' : World) (r : Result A) :
  Resilience.retry_from further attempt_number
    (let! x := send env call in ret (g x)) w = (r, w') ->
  exists n,
    n <= S further
    /\ outbound w' = (outbound w ++ replicate n call)%list
    /\ log w' = log w /\ _jwks w' = _jwks w
    /\ mcp_circuit w' = mcp_circuit w /\ app_circuit w' = app_circuit w.
Proof.
  revert attempt_number w r w'.
  induction further as [|further IH]; intros attempt_number w r w' Hrun;
    simpl in Hrun; unfold try_except, bind at 1, send in Hrun;
    destruct (upstream env (length (outbound w)) call) as [dt st body|dt e];
    simpl in Hrun.
  - injection Hrun as <- <-. exists 1. simpl. repeat split; auto.
  - destruct (Resilience.stop_after_attempt attempt_number);
      injection Hrun as <- <-; exists 1; simpl; repeat split; auto.
  - injection Hrun as <- <-. exists 1. simpl. repeat split; auto; lia.
  - destruct (Resilience.stop_after_attempt attempt_number).
    + injection Hrun as <- <-. exists 1. simpl. repeat split; auto; lia.
    + unfold bind at 1, sleep in Hrun.
      match type of Hrun with
      | context [Resilience.retry_from further ?n ?f ?w0] =>
          destruct (Resilience.retry_from further n f w0) as [r2 w2] eqn:Hrec
      end.
      apply IH in Hrec as (k & Hk & Hout & Hlog & Hj & Hm & Ha).
      simpl in *.
      assert (w' = w2) as ->.
      { destruct r2; injection Hrun as _ <-; reflexivity. }
      exists (S k). repeat split; try assumption; [lia|].
      rewrite Hout, <- app_assoc. reflexivity.
Qed.

(** A retried body that fails before it reaches the network leaves nothing
    behind but the clock. *)
Lemma retry_from_raise_frame {A} (e : exn)
    (further attempt_number : nat) (w w' : World) (r : Result A) :
  Resilience.retry_from further attempt_number (raise e) w = (r, w') ->
  outbound w' = outbound w
  /\ log w' = log w /\ _jwks w' = _jwks w
  /\ mcp_circuit w' = mcp_circuit w /\ app_circuit w' = app_circuit w.
Proof.
  revert attempt_number w r w'.
  induction further as [|further IH]; intros attempt_number w r w' Hrun;
    simpl in Hrun; unfold try_except, raise in Hrun; simpl in Hrun.
  - destruct (Resilience.stop_after_attempt attempt_number);
      injection Hrun as <- <-; repeat split; auto.
  - destruct (Resilience.stop_after_attempt attempt_number).
    + injection Hrun as <- <-. repeat split; auto.
    + unfold bind at 1, sleep in Hrun.
      match type of Hrun with
      | context [Resilience.retry_from further ?n ?f ?w0] =>
          destruct (Resilience.retry_from further n f w0) as [r2 w2] eqn:Hrec
      end.
      apply IH in Hrec as (Hout & Hlog & Hj & Hm & Ha).
      simpl in *.
      assert (w' = w2) as ->.
      { destruct r2; injection Hrun as _ <-; reflexivity. }
      repeat split; assumption.
Qed.

Lemma opened_spec (cb : CircuitBreaker) (t : Z) :
  Resilience.opened cb t = true
  <-> _state cb = STATE_OPEN /\ (t < _opened cb + _recovery_timeout cb)%Z.
Proof.
  unfold Resilience.opened, Resilience.state, Resilience.open_remaining.
  destruct (_state cb).
  - split; [discriminate|]. intros [H _]. discriminate.
  - destruct (Z.leb_spec (_opened cb + _recovery_timeout cb - t) 0).
    + split; [discriminate|]. intros [_ H']. lia.
    + split; [intros _; split; [reflexivity|lia]|reflexivity].
  - split; [discriminate|]. intros [H _]. discriminate.
Qed.

Lemma call_succeeded_consistent (cb : CircuitBreaker) :
  0 < _failure_threshold cb ->
  Breaker.consistent (Resilience.call_succeeded cb).
Proof. intros Hpos. unfold Breaker.consistent. simpl. exact Hpos. Qed.

Lemma call_failed_consistent (cb : CircuitBreaker) (t : Z) :
  Breaker.consistent cb -> Breaker.consistent (Resilience.call_failed cb t).
Proof.
  unfold Breaker.consistent, Resilience.call_failed. intros Hc.
  destruct (Nat.leb_spec (_failure_threshold cb) (S (_failure_count cb)));
    simpl.
  - assumption.
  - destruct (_state cb); [lia| |contradiction]. lia.
Qed.

End Forwarding.

(** X17. One call of either forwarder makes at most three outbound calls,
    all of them the same call, and touches nothing else than the clock and
    its own circuit breaker: the log, the key-set cache and the other
    forwarder's breaker are left as they were. *)
Theorem forwarders_bounded_and_framed (s : Config.Settings) (env : Env)
    (w : World) :
  (forall server_url mcp_request,
     let w' := snd (McpGateway.forward_to_mcp_server env server_url
                      mcp_request w) in
     exists n,
       n <= 3
       /\ outbound w'
          = (outbound w ++ replicate n (PostMcp server_url mcp_request))%list
       /\ log w' = log w /\ _jwks w' = _jwks w
       /\ app_circuit w' = app_circuit w)
  /\ (forall method path headers body,
        let w' := snd (ApiGateway.forward_to_application s env method path
                         headers body w) in
        exists n,
          n <= 3
          /\ outbound w'
             = (outbound w
                  ++ replicate n
                       (AppRequest method
                          (Config.application_service_url s ++ path)
                          headers body))%list
          /\ log w' = log w /\ _jwks w' = _jwks w
          /\ mcp_circuit w' = mcp_circuit w).
Proof.
  split.
  - intros server_url mcp_request. cbv zeta.
    unfold McpGateway.forward_to_mcp_server, Resilience.circuit,
      Resilience.retry.
    simpl Resilience.read.
    destruct (Resilience.opened (mcp_circuit w) (now w)).
    + exists 0. simpl. rewrite app_nil_r. auto.
    + match goal with
      | |- context [Resilience.retry_from 2 1 ?f w] =>
          destruct (Resilience.retry_from 2 1 f w) as [r w2] eqn:Hrun
      end.
      apply retry_from_frame in Hrun
        as (n & Hn & Hout & Hlog & Hj & _ & Ha).
      exists n. destruct r; simpl; auto.
  - intros method path headers body. cbv zeta.
    unfold ApiGateway.forward_to_application, Resilience.circuit,
      Resilience.retry.
    simpl Resilience.read.
    destruct (Resilience.opened (app_circuit w) (now w)).
    + exists 0. simpl. rewrite app_nil_r. auto.
    + match goal with
      | |- context [Resilience.retry_from 2 1 ?f w] =>
          destruct (Resilience.retry_from 2 1 f w) as [r w2] eqn:Hrun
      end.
      destruct (Http.encodable headers).
      * apply retry_from_frame in Hrun
          as (n & Hn & Hout & Hlog & Hj & Hm & _).
        exists n. destruct r; simpl; auto.
      * apply retry_from_raise_frame in Hrun
          as (Hout & Hlog & Hj & Hm & _).
        exists 0. simpl. rewrite app_nil_r.
        destruct r; simpl; repeat split; auto; lia.
Qed.

(** X18. The MCP forwarder skips the network exactly when its breaker's
    stored state is open and less than the recovery time has passed since
    it opened; it then raises [CircuitBreakerError] and changes nothing.
    The breaker belongs to the function, not to a destination: this holds
    for every upstream URL alike. *)
Theorem circuit_blocks_exactly_while_open (env : Env) (w : World)
    (server_url : string) (mcp_request : Models.MCPRequest) :
  let blocked :=
    _state (mcp_circuit w) = STATE_OPEN
    /\ (now w < _opened (mcp_circuit w) + _recovery_timeout (mcp_circuit w))%Z
  in
  (outbound (snd (McpGateway.forward_to_mcp_server env server_url
                    mcp_request w)) = outbound w
   <-> blocked)
  /\ (blocked ->
      McpGateway.forward_to_mcp_server env server_url mcp_request w
      = (Raised CircuitBreakerError, w)).
Proof.
  cbv zeta.
  assert (Hblocked :
    _state (mcp_circuit w) = STATE_OPEN
    /\ (now w < _opened (mcp_circuit w) + _recovery_timeout (mcp_circuit w))%Z
    -> McpGateway.forward_to_mcp_server env server_url mcp_request w
       = (Raised CircuitBreakerError, w)).
  { intros Hb. apply opened_spec in Hb.
    unfold McpGateway.forward_to_mcp_server, Resilience.circuit.
    simpl Resilience.read. rewrite Hb. reflexivity. }
  split; [|exact Hblocked].
  split.
  - intros Hsame. apply opened_spec.
    destruct (Resilience.opened (mcp_circuit w) (now w)) eqn:Hop;
      [reflexivity|].
    destruct (forward_to_mcp_server_sends env server_url mcp_request w Hop)
      as [more Hmore].
    rewrite Hmore in Hsame. apply (f_equal length) in Hsame.
    rewrite length_app in Hsame. simpl in Hsame. lia.
  - intros Hb. rewrite (Hblocked Hb). reflexivity.
Qed.

Lemma circuit_blocks_exactly_while_open_witness :
  let w5 := Fixtures.world_open in
  McpGateway.forward_to_mcp_server Fixtures.env_up
    "http://mcp-finance-service.local:8080" (Fixtures.tools_list "finance") w5
  = (Raised CircuitBreakerError, w5).
Proof.
  cbv zeta.
  apply (circuit_blocks_exactly_while_open Fixtures.env_up
           Fixtures.world_open "http://mcp-finance-service.local:8080"
           (Fixtures.tools_list "finance")).
  split; [reflexivity|]. vm_compute. reflexivity.
Defined.

(** X19. When the circuit is not open and the upstream fails three attempts
    in a row, the forwarder gives up: it raises [RetryError] around the
    last failure, has made exactly those three calls, has waited one second
    after the first and two after the second, and counts one more failure
    on its breaker at the time it gives up. *)
Theorem retries_exhausted_after_three (env : Env) (w : World)
    (server_url : string) (mcp_request : Models.MCPRequest)
    (dt1 dt2 dt3 : Z) (e1 e2 e3 : exn) :
  let call := PostMcp server_url mcp_request in
  Resilience.opened (mcp_circuit w) (now w) = false ->
  upstream env (length (outbound w)) call = Fails dt1 e1 ->
  upstream env (S (length (outbound w))) call = Fails dt2 e2 ->
  upstream env (S (S (length (outbound w)))) call = Fails dt3 e3 ->
  let r := McpGateway.forward_to_mcp_server env server_url mcp_request w in
  fst r = Raised (RetryError e3)
  /\ outbound (snd r) = (outbound w ++ [call; call; call])%list
  /\ now (snd r) = (now w + dt1 + 1 + dt2 + 2 + dt3)%Z
  /\ mcp_circuit (snd r)
     = Resilience.call_failed (mcp_circuit w) (now (snd r)).
Proof.
  cbv zeta. intros Hclosed H1 H2 H3.
  destruct (McpGateway.forward_to_mcp_server env server_url mcp_request w)
    as [r w'] eqn:Hrun.
  unfold McpGateway.forward_to_mcp_server, Resilience.circuit,
    Resilience.retry in Hrun.
  simpl Resilience.read in Hrun. rewrite Hclosed in Hrun.
  simpl Resilience.retry_from in Hrun.
  unfold try_except, bind, send, sleep, raise in Hrun.
  rewrite H1 in Hrun. simpl in Hrun.
  rewrite length_app in Hrun. simpl in Hrun. rewrite Nat.add_1_r in Hrun.
  rewrite H2 in Hrun. simpl in Hrun.
  rewrite !length_app in Hrun. simpl in Hrun.
  rewrite !Nat.add_1_r in Hrun.
  rewrite H3 in Hrun. simpl in Hrun.
  injection Hrun as <- <-. simpl.
  repeat split;
    try (rewrite <- !app_assoc; reflexivity);
    try (unfold Resilience.wait_exponential; simpl; lia).
Qed.

Lemma retries_exhausted_after_three_witness :
  let r := McpGateway.forward_to_mcp_server Fixtures.env_down
             "http://mcp-hr-service.local:8080" (Fixtures.tools_list "hr")
             Fixtures.world0 in
  fst r = Raised (RetryError (HTTPError "ConnectTimeout"))
  /\ outbound (snd r)
     = (outbound Fixtures.world0
          ++ [PostMcp "http://mcp-hr-service.local:8080"
                (Fixtures.tools_list "hr");
              PostMcp "http://mcp-hr-service.local:8080"
                (Fixtures.tools_list "hr");
              PostMcp "http://mcp-hr-service.local:8080"
                (Fixtures.tools_list "hr")])%list
  /\ now (snd r) = (now Fixtures.world0 + 30 + 1 + 30 + 2 + 30)%Z
  /\ mcp_circuit (snd r)
     = Resilience.call_failed (mcp_circuit Fixtures.world0) (now (snd r)).
Proof.
  apply (retries_exhausted_after_three Fixtures.env_down Fixtures.world0
           "http://mcp-hr-service.local:8080" (Fixtures.tools_list "hr")
           30 30 30 (HTTPError "ConnectTimeout") (HTTPError "ConnectTimeout")
           (HTTPError "ConnectTimeout")); reflexivity.
Defined.

(** X20. Forwarding keeps the breaker consistent: its stored state stays
    closed with fewer consecutive failures than the threshold or open with
    at least as many, its threshold and recovery time never change, and
    after any call that returned a response it is closed with the failure
    counter back at zero. *)
Theorem breaker_consistency_preserved (env : Env) (w : World)
    (server_url : string) (mcp_request : Models.MCPRequest) :
  0 < _failure_threshold (mcp_circuit w) ->
  Breaker.consistent (mcp_circuit w) ->
  let r := McpGateway.forward_to_mcp_server env server_url mcp_request w in
  let cb' := mcp_circuit (snd r) in
  Breaker.consistent cb'
  /\ _failure_threshold cb' = _failure_threshold (mcp_circuit w)
  /\ _recovery_timeout cb' = _recovery_timeout (mcp_circuit w)
  /\ ((exists resp, fst r = Ok resp) ->
      _state cb' = STATE_CLOSED /\ _failure_count cb' = 0).
Proof.
  cbv zeta. intros Hpos Hcons.
  destruct (McpGateway.forward_to_mcp_server env server_url mcp_request w)
    as [r w'] eqn:Hrun.
  unfold McpGateway.forward_to_mcp_server, Resilience.circuit,
    Resilience.retry in Hrun.
  simpl Resilience.read in Hrun. simpl Resilience.write in Hrun.
  destruct (Resilience.opened (mcp_circuit w) (now w)).
  - injection Hrun as <- <-. simpl.
    split; [exact Hcons|]. split; [reflexivity|]. split; [reflexivity|].
    intros [resp Hresp]. discriminate.
  - match type of Hrun with
    | context [Resilience.retry_from 2 1 ?f w] =>
        destruct (Resilience.retry_from 2 1 f w) as [r2 w2] eqn:Hretry
    end.
    apply retry_from_frame in Hretry as (n & _ & _ & _ & _ & Hm & _).
    destruct r2 as [resp|e]; injection Hrun as <- <-; simpl; rewrite Hm.
    + split; [apply call_succeeded_consistent; exact Hpos|].
      simpl. auto.
    + split; [apply call_failed_consistent; exact Hcons|].
      unfold Resilience.call_failed.
      destruct (_failure_threshold (mcp_circuit w)
                <=? S (_failure_count (mcp_circuit w)))%nat; simpl;
        (split; [reflexivity|]); (split; [reflexivity|]);
        intros [resp Hresp]; discriminate.
Qed.

Lemma breaker_consistency_preserved_witness :
  Breaker.consistent
    (mcp_circuit (snd (McpGateway.forward_to_mcp_server Fixtures.env_down
                         "http://mcp-hr-service.local:8080"
                         (Fixtures.tools_list "hr") Fixtures.world0))).
Proof.
  apply (breaker_consistency_preserved Fixtures.env_down Fixtures.world0
           "http://mcp-hr-service.local:8080" (Fixtures.tools_list "hr")).
  - vm_compute. lia.
  - vm_compute. lia.
Defined.

(** ** Data plane *)

Section DataPlane.

Import Jose JwtValidator.

Variable s : Config.Settings.
Variable env : Env.

(** Verification makes no outbound call when a key set is cached, and
    exactly the key-set fetch when none is, whether or not the fetch
    succeeds. *)
Lemma validate_token_outbound (token : string) (w : World) :
  outbound (snd (validate_token s env token w))
  = match _jwks w with
    | Some _ => outbound w
    | None => (outbound w ++ [GetJwks (jwks_url s)])%list
    end.
Proof.
  destruct (_jwks w) as [cached|] eqn:Hc.
  - apply (validate_token_cached s env token w cached Hc).
  - destruct (jwks_endpoint env (length (outbound w))) as [jwks|e] eqn:Hnet.
    + apply (validate_token_first_use s env token w jwks Hc Hnet).
    + destruct (validate_token s env token w) as [r w'] eqn:Hv.
      unfold validate_token, try_except, bind at 1, get_jwks in Hv.
      rewrite Hc in Hv. unfold bind at 1, fetch_jwks in Hv.
      rewrite Hnet in Hv.
      destruct (is_JWTError e); simpl in Hv; injection Hv as <- <-;
        reflexivity.
Qed.

Lemma validate_jwt_token_outbound (authorization : option string)
    (w : World) :
  outbound (snd (ApiGateway.validate_jwt_token s env authorization w))
  = outbound w
  \/ outbound (snd (ApiGateway.validate_jwt_token s env authorization w))
     = (outbound w ++ [GetJwks (jwks_url s)])%list.
Proof.
  destruct (ApiGateway.validate_jwt_token s env authorization w)
    as [r w'] eqn:Hv.
  simpl. unfold ApiGateway.validate_jwt_token in Hv.
  destruct (Py.if_truthy authorization) as [hdr|];
    [|injection Hv as <- <-; left; reflexivity].
  destruct (Py.if_truthy (extract_token authorization)) as [token|];
    [|injection Hv as <- <-; left; reflexivity].
  pose proof (validate_token_outbound token w) as Hout.
  unfold bind at 1 in Hv.
  destruct (validate_token s env token w) as [[[claims|]|e] w1];
    simpl in *; injection Hv as <- <-; simpl; rewrite Hout;
    destruct (_jwks w); auto.
Qed.

End DataPlane.

(** X21. An authenticated data-plane request whose headers are all ASCII,
    with the application's circuit not open and an application that answers
    the first attempt with a JSON body that can be serialised again, is
    relayed: the application receives the route's method and path with
    [dict(request.headers)] (the first value of each header name), the
    caller gets the application's status and the body as the gateway
    serialises it, whatever the status is, and one audit entry records that
    status under the principal's id and department and the inbound
    request's method and path. *)
Theorem data_plane_response_relayed (s : Config.Settings) (env : Env)
    (route : ApiGateway.Route) (request : Http.Request)
    (authorization : option string) (user_info : JwtValidator.UserInfo)
    (w w1 : World) (dt st : Z) (text : string) :
  ApiGateway.validate_jwt_token s env authorization w = (Ok user_info, w1) ->
  Http.encodable (Http.headers_dict (Http.req_headers request)) = true ->
  Resilience.opened (app_circuit w1) (now w1) = false ->
  upstream env (length (outbound w1)) (Routes.upstream_call s route request)
  = Responds dt st (Some (Renders text)) ->
  exists entry,
    ApiGateway.serve s env route request authorization w
    = (Ok {| Http.content := text; Http.js_status := st |},
       set_log (log w1 ++ [Audit INFO "API Gateway: " entry])
         (set_app_circuit (Resilience.call_succeeded (app_circuit w1))
            (set_now (now w1 + dt)
               (set_outbound
                  (outbound w1 ++ [Routes.upstream_call s route request])
                  w1))))
    /\ Models.status_code entry = st
    /\ Models.error entry = None
    /\ Models.user_id entry = JwtValidator.user_id user_info
    /\ Models.department entry = Some (JwtValidator.department user_info)
    /\ Models.method entry = Http.req_method request
    /\ Models.path entry = Http.url_path request.
Proof.
  intros Hauth Hascii Hclosed Hup.
  eexists. split.
  - unfold ApiGateway.serve. unfold bind at 1. rewrite Hauth.
    destruct route; simpl in Hup;
      unfold ApiGateway.process_file, ApiGateway.get_status,
        ApiGateway.get_download_url, ApiGateway.forward_and_audit;
      unfold try_except, bind at 1, ApiGateway.forward_to_application,
        Resilience.circuit;
      simpl Resilience.read; rewrite Hclosed, Hascii;
      unfold Resilience.retry; simpl Resilience.retry_from;
      unfold try_except, bind at 1, send; rewrite Hup; reflexivity.
  - simpl. repeat split; reflexivity.
Qed.

Lemma data_plane_response_relayed_witness :
  exists entry w1,
    ApiGateway.serve Fixtures.settings Fixtures.env_idp
      (ApiGateway.GetStatus "job-7") Fixtures.request (Some "Bearer t1")
      Fixtures.world0
    = (Ok {| Http.content := "{}"; Http.js_status := 200 |},
       set_log (log w1 ++ [Audit INFO "API Gateway: " entry])
         (set_app_circuit (Resilience.call_succeeded (app_circuit w1))
            (set_now (now w1 + 0)
               (set_outbound
                  (outbound w1
                     ++ [Routes.upstream_call Fixtures.settings
                           (ApiGateway.GetStatus "job-7") Fixtures.request])
                  w1))))
    /\ Models.status_code entry = 200%Z
    /\ Models.department entry = Some "finance".
Proof.
  destruct (data_plane_response_relayed Fixtures.settings Fixtures.env_idp
              (ApiGateway.GetStatus "job-7") Fixtures.request
              (Some "Bearer t1")
              (JwtValidator.extract_user_info Fixtures.alice_claims)
              Fixtures.world0
              (snd (ApiGateway.validate_jwt_token Fixtures.settings
                      Fixtures.env_idp (Some "Bearer t1") Fixtures.world0))
              0 200 "{}" eq_refl eq_refl eq_refl eq_refl)
    as (entry & Hrun & Hst & _ & _ & Hdep & _).
  exists entry, (snd (ApiGateway.validate_jwt_token Fixtures.settings
                        Fixtures.env_idp (Some "Bearer t1") Fixtures.world0)).
  split; [exact Hrun|]. split; [exact Hst|exact Hdep].
Defined.

(** X27. An authenticated data-plane request one of whose headers has a
    character outside ASCII never reaches the application: with the
    circuit not open, the HTTP client refuses to build the request on each
    of the three attempts, the caller is answered 500 "Internal server
    error" after the waits of one and two seconds, one audit entry records
    status 500, and the application's breaker counts a failure. *)
Theorem non_ascii_header_answered_500 (s : Config.Settings) (env : Env)
    (route : ApiGateway.Route) (request : Http.Request)
    (authorization : option string) (user_info : JwtValidator.UserInfo)
    (w w1 : World) :
  ApiGateway.validate_jwt_token s env authorization w = (Ok user_info, w1) ->
  Http.encodable (Http.headers_dict (Http.req_headers request)) = false ->
  Resilience.opened (app_circuit w1) (now w1) = false ->
  let r := ApiGateway.serve s env route request authorization w in
  exists entry,
    fst r = Raised (HTTPException 500 "Internal server error")
    /\ outbound (snd r) = outbound w1
    /\ audit_entries (log (snd r))
       = (audit_entries (log w1)
            ++ [Audit ERROR "API Gateway Error: " entry])%list
    /\ Models.status_code entry = 500%Z
    /\ Models.user_id entry = JwtValidator.user_id user_info
    /\ now (snd r) = (now w1 + 1 + 2)%Z
    /\ app_circuit (snd r)
       = Resilience.call_failed (app_circuit w1) (now w1 + 1 + 2).
Proof.
  intros Hauth Hbad Hclosed. cbv zeta.
  destruct (ApiGateway.serve s env route request authorization w)
    as [r w'] eqn:Hrun.
  unfold ApiGateway.serve in Hrun. unfold bind at 1 in Hrun.
  rewrite Hauth in Hrun.
  destruct route;
    unfold ApiGateway.process_file, ApiGateway.get_status,
      ApiGateway.get_download_url, ApiGateway.forward_and_audit in Hrun;
    unfold try_except, bind at 1, ApiGateway.forward_to_application,
      Resilience.circuit in Hrun;
    simpl Resilience.read in Hrun; rewrite Hclosed, Hbad in Hrun;
    unfold Resilience.retry in Hrun; simpl Resilience.retry_from in Hrun;
    simpl in Hrun; injection Hrun as <- <-;
    eexists; (split; [reflexivity|]); simpl;
    unfold audit_entries; rewrite !List.filter_app; simpl;
    rewrite <- !app_assoc, ?app_nil_r; simpl;
    unfold Resilience.wait_exponential; simpl; auto 10.
Qed.

Lemma non_ascii_header_answered_500_witness :
  let r := ApiGateway.serve Fixtures.settings Fixtures.env_idp
             (ApiGateway.GetStatus "job-7") Fixtures.request_latin1
             (Some "Bearer t1") Fixtures.world0 in
  exists entry,
    fst r = Raised (HTTPException 500 "Internal server error")
    /\ audit_entries (log (snd r))
       = [Audit ERROR "API Gateway Error: " entry]
    /\ Models.status_code entry = 500%Z
    /\ outbound (snd r) = [GetJwks (JwtValidator.jwks_url Fixtures.settings)].
Proof.
  destruct (non_ascii_header_answered_500 Fixtures.settings Fixtures.env_idp
              (ApiGateway.GetStatus "job-7") Fixtures.request_latin1
              (Some "Bearer t1")
              (JwtValidator.extract_user_info Fixtures.alice_claims)
              Fixtures.world0
              (snd (ApiGateway.validate_jwt_token Fixtures.settings
                      Fixtures.env_idp (Some "Bearer t1") Fixtures.world0))
              eq_refl eq_refl eq_refl)
    as (entry & Hexit & Hout & Hlog & Hst & _).
  exists entry. split; [exact Hexit|]. split; [exact Hlog|].
  split; [exact Hst|exact Hout].
Defined.

(** X22. A data-plane request either authenticates, or is answered 401
    without reaching the application: the handler does not run, and the
    only outbound call the request can have caused is one fetch of the key
    set. *)
Theorem unauthenticated_never_forwarded (s : Config.Settings) (env : Env)
    (route : ApiGateway.Route) (request : Http.Request)
    (authorization : option string) (w : World) :
  (exists user_info w1,
     ApiGateway.validate_jwt_token s env authorization w = (Ok user_info, w1))
  \/ (exists detail,
        fst (ApiGateway.serve s env route request authorization w)
        = Raised (HTTPException 401 detail)
        /\ (outbound (snd (ApiGateway.serve s env route request
                             authorization w)) = outbound w
            \/ outbound (snd (ApiGateway.serve s env route request
                                authorization w))
               = (outbound w ++ [GetJwks (JwtValidator.jwks_url s)])%list)).
Proof.
  pose proof (validate_jwt_token_outbound s env authorization w) as Hout.
  destruct (validate_jwt_token_emits s env authorization w)
    as (n & _ & _ & Hexit).
  unfold ApiGateway.serve, bind.
  destruct (ApiGateway.validate_jwt_token s env authorization w)
    as [[user_info|e] w1]; simpl in *.
  - left. eauto.
  - right. destruct Hexit as [detail ->]. exists detail. auto.
Qed.

(** ** What the audit entries say *)

Import LogTrail.

Section LogRules.

Lemma logs_ret {A} (a : A) (Q : Result A -> list LogRecord -> Prop) :
  Q (Ok a) [] -> logs (ret a) Q.
Proof. intros HQ w. exists []. simpl. rewrite app_nil_r. auto. Qed.

Lemma logs_raise {A} (e : exn) (Q : Result A -> list LogRecord -> Prop) :
  Q (Raised e) [] -> logs (raise e) Q.
Proof. intros HQ w. exists []. simpl. rewrite app_nil_r. auto. Qed.

Lemma logs_lift {A} (r : Result A) (Q : Result A -> list LogRecord -> Prop) :
  Q r [] -> logs (lift r) Q.
Proof. intros HQ w. exists []. simpl. rewrite app_nil_r. auto. Qed.

Lemma logs_utcnow (Q : Result Z -> list LogRecord -> Prop) :
  (forall t, Q (Ok t) []) -> logs utcnow Q.
Proof. intros HQ w. exists []. simpl. rewrite app_nil_r. auto. Qed.

Lemma logs_logger (lvl : Level) (text : string)
    (Q : Result unit -> list LogRecord -> Prop) :
  Q (Ok tt) [Message lvl text] -> logs (logger lvl text) Q.
Proof. intros HQ w. exists [Message lvl text]. simpl. auto. Qed.

Lemma logs_logger_audit (lvl : Level) (prefix : string)
    (entry : Models.AuditLog) (Q : Result unit -> list LogRecord -> Prop) :
  Q (Ok tt) [Audit lvl prefix entry] ->
  logs (logger_audit lvl prefix entry) Q.
Proof. intros HQ w. exists [Audit lvl prefix entry]. simpl. auto. Qed.

Lemma logs_bind {A B} (m : M A) (k : A -> M B)
    (Q : Result B -> list LogRecord -> Prop) :
  logs m (fun r l =>
            match r with
            | Ok a => logs (k a) (fun r' l' => Q r' (l ++ l')%list)
            | Raised e => Q (Raised e) l
            end) ->
  logs (bind m k) Q.
Proof.
  intros Hm w. destruct (Hm w) as (l & Hl & HQ). unfold bind.
  destruct (m w) as [[a|e] w1]; simpl in *.
  - destruct (HQ w1) as (l' & Hl' & HQ').
    exists (l ++ l')%list. rewrite Hl', Hl, app_assoc. auto.
  - exists l. auto.
Qed.

Lemma logs_try {A} (m : M A) (handler : exn -> M A)
    (Q : Result A -> list LogRecord -> Prop) :
  logs m (fun r l =>
            match r with
            | Ok a => Q (Ok a) l
            | Raised e => logs (handler e) (fun r' l' => Q r' (l ++ l')%list)
            end) ->
  logs (try_except m handler) Q.
Proof.
  intros Hm w. destruct (Hm w) as (l & Hl & HQ). unfold try_except.
  destruct (m w) as [[a|e] w1]; simpl in *.
  - exists l. auto.
  - destruct (HQ w1) as (l' & Hl' & HQ').
    exists (l ++ l')%list. rewrite Hl', Hl, app_assoc. auto.
Qed.

Lemma logs_conseq {A} (m : M A)
    (Q Q' : Result A -> list LogRecord -> Prop) :
  logs m Q -> (forall r l, Q r l -> Q' r l) -> logs m Q'.
Proof.
  intros Hm Himp w. destruct (Hm w) as (l & Hl & HQ). exists l. auto.
Qed.

End LogRules.

Ltac logs_step :=
  lazymatch goal with
  | |- logs (bind _ _) _ => apply logs_bind
  | |- logs (ret _) _ => apply logs_ret
  | |- logs (raise _) _ => apply logs_raise
  | |- logs (lift _) _ => apply logs_lift
  | |- logs (logger _ _) _ => apply logs_logger
  | |- logs (logger_audit _ _ _) _ => apply logs_logger_audit
  | |- logs utcnow _ => apply logs_utcnow; intros ?
  | |- logs (try_except _ _) _ => apply logs_try
  | |- logs (match ?x with _ => _ end) _ => destruct x eqn:?
  | |- match ?x with _ => _ end => destruct x eqn:?
  end.

Section LogsOfHandlers.

Import Http.

Variable s : Config.Settings.
Variable env : Env.
Hypothesis Hjson : json_peers env.

Lemma forward_to_mcp_server_logs (server_url : string)
    (mcp_request : Models.MCPRequest) :
  logs (McpGateway.forward_to_mcp_server env server_url mcp_request)
    (fun r l => l = [] /\ returned serialisable r).
Proof.
  intros w. exists []. rewrite app_nil_r.
  destruct (guarded_forward_to_mcp_server env serialisable
              (json_peers_serialisable env Hjson) server_url mcp_request w)
    as (n & _ & _ & Hret).
  assert (Hreturned :
            returned serialisable
              (fst (McpGateway.forward_to_mcp_server env server_url
                      mcp_request w))).
  { destruct (fst (McpGateway.forward_to_mcp_server env server_url
                     mcp_request w)); simpl; auto. }
  clear Hret.
  split; [|auto].
  unfold McpGateway.forward_to_mcp_server, Resilience.circuit,
    Resilience.retry.
  simpl Resilience.read.
  destruct (Resilience.opened (mcp_circuit w) (now w)); [reflexivity|].
  match goal with
  | |- context [Resilience.retry_from 2 1 ?f w] =>
      destruct (Resilience.retry_from 2 1 f w) as [r w2] eqn:Hrun
  end.
  apply retry_from_frame in Hrun as (k & _ & _ & Hlog & _).
  destruct r; simpl; exact Hlog.
Qed.

Lemma forward_to_application_logs (method path : string)
    (headers : list (string * string)) (body : option string) :
  logs (ApiGateway.forward_to_application s env method path headers body)
    (fun r l => l = [] /\ returned serialisable r).
Proof.
  intros w. exists []. rewrite app_nil_r.
  destruct (guarded_forward_to_application s env serialisable
              (json_peers_serialisable env Hjson) method path headers
              body w) as (n & _ & _ & Hret).
  assert (Hreturned :
            returned serialisable
              (fst (ApiGateway.forward_to_application s env method path
                      headers body w))).
  { destruct (fst (ApiGateway.forward_to_application s env method path
                     headers body w)); simpl; auto. }
  clear Hret.
  split; [|auto].
  unfold ApiGateway.forward_to_application, Resilience.circuit,
    Resilience.retry.
  simpl Resilience.read.
  destruct (Resilience.opened (app_circuit w) (now w)); [reflexivity|].
  match goal with
  | |- context [Resilience.retry_from 2 1 ?f w] =>
      destruct (Resilience.retry_from 2 1 f w) as [r w2] eqn:Hrun
  end.
  destruct (encodable headers).
  - apply retry_from_frame in Hrun as (k & _ & _ & Hlog & _).
    destruct r; simpl; exact Hlog.
  - apply retry_from_raise_frame in Hrun as (_ & Hlog & _).
    destruct r; simpl; exact Hlog.
Qed.

(** Authentication writes plain messages only and fails with 401. *)
Lemma validate_jwt_token_logs (authorization : option string) :
  logs (ApiGateway.validate_jwt_token s env authorization)
    (fun r l =>
       Forall (fun record => is_audit record = false) l
       /\ match r with
          | Ok _ => True
          | Raised e => exists detail, e = HTTPException 401 detail
          end).
Proof.
  intros w.
  destruct (validate_jwt_token_emits s env authorization w)
    as (n & Hn & -> & Hexit).
  assert (Hgrow : exists new,
            log (snd (ApiGateway.validate_jwt_token s env authorization w))
            = (log w ++ new)%list).
  { unfold ApiGateway.validate_jwt_token.
    destruct (Py.if_truthy authorization) as [hdr|];
      [|eexists; reflexivity].
    destruct (Py.if_truthy (JwtValidator.extract_token authorization))
      as [token|]; [|eexists; reflexivity].
    unfold bind at 1.
    assert (Hv : exists new,
              log (snd (JwtValidator.validate_token s env token w))
              = (log w ++ new)%list).
    { unfold JwtValidator.validate_token, try_except, bind at 1,
        JwtValidator.get_jwks.
      destruct (_jwks w) as [cached|].
      - unfold bind, lift, utcnow.
        destruct (get_unverified_header env token) as [h|e]; simpl.
        + destruct (Py.if_truthy (Jose.kid h)) as [k|]; simpl;
            [|eexists; reflexivity].
          destruct (JwtValidator.find_key _ k) as [key|]; simpl;
            [|eexists; reflexivity].
          destruct (jwt_decode env (now w) token key) as [c|e]; simpl.
          * destruct (JwtValidator.option_str_eqb _ _); simpl;
              eexists; reflexivity.
          * destruct (is_JWTError e); simpl; eexists; reflexivity.
        + destruct (is_JWTError e); simpl; eexists; reflexivity.
      - unfold bind at 1, JwtValidator.fetch_jwks.
        destruct (jwks_endpoint env (length (outbound w))) as [jwks|e];
          simpl.
        + unfold bind, lift, utcnow. simpl.
          destruct (get_unverified_header env token) as [h|e]; simpl.
          * destruct (Py.if_truthy (Jose.kid h)) as [k|]; simpl;
              [|eexists; rewrite <- app_assoc; reflexivity].
            destruct (JwtValidator.find_key _ k) as [key|]; simpl;
              [|eexists; rewrite <- app_assoc; reflexivity].
            destruct (jwt_decode env (now w) token key) as [c|e]; simpl.
            -- destruct (JwtValidator.option_str_eqb _ _); simpl;
                 eexists; rewrite <- app_assoc; reflexivity.
            -- destruct (is_JWTError e); simpl;
                 eexists; rewrite <- app_assoc; reflexivity.
          * destruct (is_JWTError e); simpl;
              eexists; rewrite <- app_assoc; reflexivity.
        + destruct (is_JWTError e); simpl; eexists; reflexivity. }
    destruct Hv as [new Hnew].
    destruct (JwtValidator.validate_token s env token w)
      as [[[claims|]|e] w1]; simpl in *.
    - eauto.
    - eexists. rewrite Hnew, <- app_assoc. reflexivity.
    - eauto. }
  destruct Hgrow as [new Hnew]. exists new. split; [exact Hnew|].
  split; [|exact Hexit].
  unfold audits, audit_entries in Hn. rewrite Hnew in Hn.
  rewrite List.filter_app, length_app in Hn.
  assert (Hzero : length (List.filter is_audit new) = 0) by lia.
  clear -Hzero. induction new as [|x rest IH]; [constructor|].
  simpl in Hzero. destruct (is_audit x) eqn:E; [discriminate|].
  constructor; auto.
Qed.

Ltac logs_handler_step :=
  first
    [ logs_step
    | match goal with
      | |- logs (McpGateway.forward_to_mcp_server _ _ _) _ =>
          eapply logs_conseq;
          [apply forward_to_mcp_server_logs|]; intros [?|?] ? [-> ?]
      | |- logs (ApiGateway.forward_to_application _ _ _ _ _ _) _ =>
          eapply logs_conseq;
          [apply forward_to_application_logs|]; intros [?|?] ? [-> ?]
      | |- logs (ApiGateway.validate_jwt_token _ _ _) _ =>
          eapply logs_conseq;
          [apply validate_jwt_token_logs|]; intros [?|?] ? [? ?]
      | |- logs (McpGateway.validate_service_token _ _) _ =>
          unfold McpGateway.validate_service_token
      | |- logs (McpGateway.create_mcp_audit_log _ _ _ _ _ _) _ =>
          unfold McpGateway.create_mcp_audit_log
      | |- logs (ApiGateway.create_audit_log _ _ _ _) _ =>
          unfold ApiGateway.create_audit_log
      | |- logs (response_json _) _ => unfold response_json
      | |- logs (json_response _ _) _ => unfold json_response
      end ].

Ltac logs_handler_auto := repeat (logs_handler_step; cbv beta iota).

(** The leaves: every record of the trail is checked against the exit. *)
Ltac faithful_leaf :=
  repeat match goal with
         | H : returned serialisable (Ok _) |- _ => destruct H as [? ?]
         end;
  repeat match goal with
         | H : exists _, _ = HTTPException _ _ |- _ => destruct H as [? ->]
         end;
  simpl in *; try congruence;
  repeat (apply Forall_app; split);
  try (eapply Forall_impl; [eassumption|];
       intros [? ?|? ? ?]; simpl; intros; (discriminate || exact I));
  repeat constructor; simpl; auto.

Lemma route_mcp_request_logs (rbac_engine : Rbac.RBACEngine)
    (request : Request) (mcp_request : Models.MCPRequest)
    (x_service_token x_user_roles : option string) :
  logs (McpGateway.route_mcp_request s rbac_engine env request mcp_request
          x_service_token x_user_roles)
    (fun r l => Forall (mcp_record_faithful request mcp_request r) l).
Proof.
  unfold McpGateway.route_mcp_request.
  logs_handler_auto; faithful_leaf.
Qed.

Lemma serve_logs (route : ApiGateway.Route) (request : Request)
    (authorization : option string) :
  logs (ApiGateway.serve s env route request authorization)
    (fun r l => Forall (api_record_faithful request r) l).
Proof.
  unfold ApiGateway.serve, ApiGateway.process_file, ApiGateway.get_status,
    ApiGateway.get_download_url, ApiGateway.forward_and_audit.
  logs_handler_auto; faithful_leaf.
Qed.

End LogsOfHandlers.

(** X23. With upstream answers that carry a JSON body the gateway can
    serialise again, every audit entry written while handling a request
    tells the truth: its status is the
    status the caller receives, its path and client address are the
    request's, and its method is the MCP method on [POST /mcp] (where the
    user is always the service ["application"]) and the HTTP method on the
    data plane. Handling only ever appends to the log. *)
Theorem audit_entries_faithful (s : Config.Settings) (env : Env) :
  json_peers env ->
  (forall rbac_engine request mcp_request x_service_token x_user_roles w,
     let r := McpGateway.route_mcp_request s rbac_engine env request
                mcp_request x_service_token x_user_roles w in
     exists new,
       log (snd r) = (log w ++ new)%list
       /\ Forall (mcp_record_faithful request mcp_request (fst r)) new)
  /\ (forall route request authorization w,
        let r := ApiGateway.serve s env route request authorization w in
        exists new,
          log (snd r) = (log w ++ new)%list
          /\ Forall (api_record_faithful request (fst r)) new).
Proof.
  intros Hjson. split.
  - intros rbac_engine request mcp_request x_service_token x_user_roles w.
    exact (route_mcp_request_logs s env Hjson rbac_engine request
             mcp_request x_service_token x_user_roles w).
  - intros route request authorization w.
    exact (serve_logs s env Hjson route request authorization w).
Qed.

Lemma audit_entries_faithful_witness :
  exists new,
    log (snd (McpGateway.route_mcp_request Fixtures.settings Fixtures.engine
                Fixtures.env_up Fixtures.request
                (Fixtures.tools_list "finance") (Some "svc-token")
                (Some "hr") Fixtures.world0))
    = (log Fixtures.world0 ++ new)%list
    /\ Forall (mcp_record_faithful Fixtures.request
                 (Fixtures.tools_list "finance")
                 (fst (McpGateway.route_mcp_request Fixtures.settings
                         Fixtures.engine Fixtures.env_up Fixtures.request
                         (Fixtures.tools_list "finance") (Some "svc-token")
                         (Some "hr") Fixtures.world0))) new.
Proof.
  apply (audit_entries_faithful Fixtures.settings Fixtures.env_up
           json_peers_env_up).
Defined.

(** ** The application's MCP client against the gateway *)

Lemma received_from_client_no_token (service_token server_type : string)
    (received : list (string * string)) :
  McpClient.received_from_client service_token server_type received = true ->
  FastApi.header_param "x_service_token" received = None.
Proof.
  unfold McpClient.received_from_client. intros H.
  apply andb_prop in H as [_ H].
  induction received as [|[name value] rest IH]; [reflexivity|].
  cbn [forallb] in H. apply andb_prop in H as [Hh Hrest].
  cbn [FastApi.header_param]. rewrite (IH Hrest).
  replace (Py.lower (FastApi.header_name "x_service_token"))
    with "x-service-token" by reflexivity.
  destruct (String.eqb_spec (Py.lower name) "x-service-token") as [E|E];
    [|reflexivity].
  exfalso. unfold McpClient.same_header, McpClient.headers in Hh.
  cbn [existsb fst snd] in Hh. rewrite E in Hh.
  replace (Py.lower "Content-Type") with "content-type" in Hh
    by reflexivity.
  replace (Py.lower "Authorization") with "authorization" in Hh
    by reflexivity.
  replace (Py.lower "X-MCP-Server-Type") with "x-mcp-server-type" in Hh
    by reflexivity.
  cbn in Hh. discriminate.
Qed.

(** X24. Every call of the application's [MCPClient] is refused by the
    gateway's [POST /mcp]: the client presents its token as
    [Authorization: Bearer ...] and the server type as [X-MCP-Server-Type],
    the gateway reads [X-Service-Token], finds none and answers 401
    "Missing service token", whatever the token, the server type and the
    envelope are; nothing is forwarded and no audit entry is written. The
    request is taken as the gateway receives it: header names in whatever
    letter case, in whatever order, among the headers the HTTP stack adds,
    none of which is named [X-Service-Token]. *)
Theorem mcp_client_calls_are_refused (s : Config.Settings)
    (rbac_engine : Rbac.RBACEngine) (env : Env) (request : Http.Request)
    (mcp_request : Models.MCPRequest) (service_token server_type : string)
    (w : World) :
  McpClient.received_from_client service_token server_type
    (Http.req_headers request) = true ->
  FastApi.post_mcp s rbac_engine env request mcp_request w
  = (Raised (HTTPException 401 "Missing service token"),
     set_log (log w ++ [Message WARNING "Missing X-Service-Token header"]) w).
Proof.
  intros Hheaders. unfold FastApi.post_mcp.
  rewrite (received_from_client_no_token _ _ _ Hheaders).
  reflexivity.
Qed.

Lemma mcp_client_calls_are_refused_witness :
  FastApi.post_mcp Fixtures.settings Fixtures.engine Fixtures.env_up
    ClientFixtures.client_request (Fixtures.tools_list "finance") Fixtures.world0
  = (Raised (HTTPException 401 "Missing service token"),
     set_log (log Fixtures.world0
                ++ [Message WARNING "Missing X-Service-Token header"])
       Fixtures.world0).
Proof.
  apply (mcp_client_calls_are_refused Fixtures.settings Fixtures.engine
           Fixtures.env_up ClientFixtures.client_request
           (Fixtures.tools_list "finance") "svc-token" "finance").
  reflexivity.
Defined.

(** X25. [validate_token] never raises: a key-set fetch that fails, a token
    whose header cannot be read and a signature or expiry check that fails
    are all caught and end in a returned value. *)
Theorem validate_token_never_raises (s : Config.Settings) (env : Env)
    (token : string) (w : World) :
  exists claims,
    fst (JwtValidator.validate_token s env token w) = Ok claims.
Proof. apply validate_token_total. Qed.
